(** * pygaarst.raster: band resolution, calibration products and GeoTIFF cloning

    A shallow embedding of [pygaarst/raster.py].  Python objects live in a
    store indexed by references, every method is a computation in a small
    state-and-exception monad, and the collaborators that are not part of
    [raster.py] (the [landsatutils] helpers, the numeric array operations,
    Python's default attribute lookup) are parameters of the development. *)

From Stdlib Require Import String Ascii ZArith Lia.
From stdpp Require Import base option list gmap strings pretty.

Local Open Scope string_scope.

(** ** Python [str] methods used by the module *)

Module PyStr.

Definition is_upper (c : ascii) : bool :=
  let n := nat_of_ascii c in (65 <=? n)%nat && (n <=? 90)%nat.

Definition is_lower (c : ascii) : bool :=
  let n := nat_of_ascii c in (97 <=? n)%nat && (n <=? 122)%nat.

Definition lower_char (c : ascii) : ascii :=
  if is_upper c then ascii_of_nat (nat_of_ascii c + 32) else c.

Definition upper_char (c : ascii) : ascii :=
  if is_lower c then ascii_of_nat (nat_of_ascii c - 32) else c.

Fixpoint map_chars (f : ascii → ascii) (s : string) : string :=
  match s with
  | EmptyString => EmptyString
  | String c s' => String (f c) (map_chars f s')
  end.

(** [s.lower()] and [s.upper()] on byte strings. *)
Definition lower : string → string := map_chars lower_char.
Definition upper : string → string := map_chars upper_char.

(** [s.startswith(p)] *)
Fixpoint startswith (p s : string) : bool :=
  match p, s with
  | EmptyString, _ => true
  | String _ _, EmptyString => false
  | String a p', String b s' => Ascii.eqb a b && startswith p' s'
  end.

(** [s.endswith(c)] for a one-character suffix. *)
Fixpoint endswith_char (c : ascii) (s : string) : bool :=
  match s with
  | EmptyString => false
  | String a EmptyString => Ascii.eqb a c
  | String _ s' => endswith_char c s'
  end.

Fixpoint drop (n : nat) (s : string) : string :=
  match n, s with
  | O, _ => s
  | S n', String _ s' => drop n' s'
  | S _, EmptyString => EmptyString
  end.

(** [s.partition(sep)]: split at the first occurrence of [sep]; when
    [sep] does not occur the result is [(s, '', '')]. *)
Fixpoint partition (sep s : string) : string * string * string :=
  if startswith sep s then (EmptyString, sep, drop (String.length sep) s)
  else match s with
       | EmptyString => (EmptyString, EmptyString, EmptyString)
       | String c s' =>
           let '(h, p, t) := partition sep s' in (String c h, p, t)
       end.

(** [s.replace(old, new)] for a one-character [old], which is the only
    form the module uses. *)
Fixpoint replace (old : ascii) (new : string) (s : string) : string :=
  match s with
  | EmptyString => EmptyString
  | String c s' =>
      if Ascii.eqb c old then new ++ replace old new s'
      else String c (replace old new s')
  end.

(** [sep.join(l)] *)
Fixpoint join (sep : string) (l : list string) : string :=
  match l with
  | [] => EmptyString
  | [x] => x
  | x :: rest => x ++ sep ++ join sep rest
  end.

(** [x in l] for a list of strings. *)
Definition contains (l : list string) (x : string) : bool :=
  existsb (String.eqb x) l.

(** [s.rfind(c)] for a one-character needle; [-1] when absent. *)
Fixpoint rfind_from (c : ascii) (s : string) (i : Z) : Z :=
  match s with
  | EmptyString => (-1)%Z
  | String a s' =>
      let r := rfind_from c s' (i + 1)%Z in
      if (0 <=? r)%Z then r else if Ascii.eqb a c then i else (-1)%Z
  end.

Definition rfind (c : ascii) (s : string) : Z := rfind_from c s 0%Z.

(** Slices [s[:i]] and [s[i:]] for a non-negative [i]. *)
Definition take (n : nat) (s : string) : string := String.substring 0 n s.

(** [s.rstrip(c)] for a one-character set. *)
Fixpoint rstrip (c : ascii) (s : string) : string :=
  match s with
  | EmptyString => EmptyString
  | String a s' =>
      match rstrip c s' with
      | EmptyString => if Ascii.eqb a c then EmptyString else String a EmptyString
      | r => String a r
      end
  end.

Fixpoint all_chars (c : ascii) (s : string) : bool :=
  match s with
  | EmptyString => true
  | String a s' => Ascii.eqb a c && all_chars c s'
  end.

End PyStr.

(** ** [os.path] (POSIX flavour) *)

Module OsPath.

Definition sep : ascii := "/"%char.
Definition extsep : ascii := "."%char.

(** [posixpath.split] *)
Definition split (p : string) : string * string :=
  let i := Z.to_nat (PyStr.rfind sep p + 1) in
  let head := PyStr.take i p in
  let tail := PyStr.drop i p in
  let head :=
    if negb (String.eqb head "") && negb (PyStr.all_chars sep head)
    then PyStr.rstrip sep head else head in
  (head, tail).

(** The loop of [genericpath._splitext] that skips leading dots:
    [fuel] bounds the number of iterations by [dotIndex - filenameIndex]. *)
Fixpoint splitext_scan (p : string) (filenameIndex dotIndex fuel : nat)
  : string * string :=
  match fuel with
  | O => (p, "")
  | S fuel' =>
      if (filenameIndex <? dotIndex)%nat then
        match String.get filenameIndex p with
        | Some c =>
            if negb (Ascii.eqb c extsep)
            then (PyStr.take dotIndex p, PyStr.drop dotIndex p)
            else splitext_scan p (S filenameIndex) dotIndex fuel'
        | None => (p, "")
        end
      else (p, "")
  end.

(** [posixpath.splitext] *)
Definition splitext (p : string) : string * string :=
  let sepIndex := PyStr.rfind sep p in
  let dotIndex := PyStr.rfind extsep p in
  if (sepIndex <? dotIndex)%Z then
    let filenameIndex := Z.to_nat (sepIndex + 1) in
    splitext_scan p filenameIndex (Z.to_nat dotIndex)
      (Z.to_nat dotIndex - filenameIndex)
  else (p, "").

(** [posixpath.join] with two components. *)
Definition join (a b : string) : string :=
  if PyStr.startswith "/" b then b
  else if String.eqb a "" || PyStr.endswith_char sep a then a ++ b
  else a ++ "/" ++ b.

End OsPath.

(** ** Exceptions, log records *)

(** The exception classes that can surface from the modelled methods.
    [PygaarstRasterError] is the module's own class (a direct subclass of
    [Exception]); the others are Python built-ins. *)
Inductive exn :=
| PygaarstRasterError (msg : string)
| KeyError (key : string)
| AttributeError (msg : string)
| TypeError (msg : string)
| RuntimeError (msg : string)
| IndexError (msg : string)
| ValueError (msg : string).

Definition is_AttributeError (e : exn) : bool :=
  match e with AttributeError _ => true | _ => false end.
Definition is_KeyError (e : exn) : bool :=
  match e with KeyError _ => true | _ => false end.
Definition is_RuntimeError (e : exn) : bool :=
  match e with RuntimeError _ => true | _ => false end.

(** [str(e)]: a [KeyError] prints the [repr] of its key. *)
Definition str_of_exn (e : exn) : string :=
  match e with
  | KeyError k => "'" ++ k ++ "'"
  | PygaarstRasterError m | AttributeError m | TypeError m
  | RuntimeError m | IndexError m | ValueError m => m
  end.

Inductive level := DEBUG | INFO | WARNING | ERROR | CRITICAL.

Record logrec := LogRec { lvl : level; text : string }.

(** A computation either raises or returns. *)
Inductive result (A : Type) :=
| Raise (e : exn)
| Return (a : A).
Arguments Raise {A} e.
Arguments Return {A} a.

(** ** Numeric samples and arrays *)

(** Pixel samples and calibration numbers are floating-point or integer
    machine numbers that the module only moves around; their type is a
    parameter.  [zero] fills a freshly created dataset, [one] appears in
    the default geotransform. *)
Class Numeric := { scalar : Type; zero : scalar; one : scalar }.

Section Arrays.
Context `{Numeric}.

(** Values found in the metadata mapping. *)
Inductive value :=
| VStr (s : string)
| VNum (x : scalar).

(** A numpy array: element type name, shape, elements in C order. *)
Record ndarray := NdArray {
  dtype : string;
  shape : list nat;
  elems : list scalar
}.

Definition ndim (a : ndarray) : nat := length (shape a).

Definition size_of (sh : list nat) : nat := foldr Nat.mul 1 sh.

(** Shape of [a[0, ...]]. *)
Definition shape_first (sh : list nat) : result (list nat) :=
  match sh with
  | [] => Raise (IndexError "too many indices for array")
  | n :: rest =>
      if (0 <? n)%nat then Return rest
      else Raise (IndexError "index 0 is out of bounds for axis 0 with size 0")
  end.

(** [a[idx, :, :]] *)
Definition slice_band (a : ndarray) (idx : nat) : result ndarray :=
  match shape a with
  | n :: ((_ :: _ :: _) as rest) =>
      if (idx <? n)%nat then
        Return {| dtype := dtype a; shape := rest;
                  elems := take (size_of rest) (drop (idx * size_of rest) (elems a)) |}
      else Raise (IndexError "index out of bounds for axis 0")
  | _ => Raise (IndexError "too many indices for array")
  end.

(** ** The raster I/O provider (GDAL), over an in-memory file system *)

Record Dataset := {
  RasterXSize : nat;
  RasterYSize : nat;
  RasterCount : nat;
  GeoTransform : list scalar;
  Projection : string;
  DataType : Z;
  rasters : list (list scalar)
}.

Record filesystem := {
  isdir : string → bool;
  files : gmap string Dataset
}.

End Arrays.

Module GDAL.
Section GDAL.
Context `{Numeric}.

(** numpy element type of a GDAL type code, as [ReadAsArray] picks it. *)
Definition numpy_name (code : Z) : string :=
  match code with
  | 1 => "uint8" | 2 => "uint16" | 3 => "int16" | 4 => "uint32"
  | 5 => "int32" | 6 => "float32" | 7 => "float64"
  | 8 | 9 | 10 => "complex64" | 11 => "complex128"
  | _ => "float32"
  end%Z.

Definition Open (fs : filesystem) (path : string) : result Dataset :=
  match files fs !! path with
  | Some d => Return d
  | None => Raise (RuntimeError (path ++ ": No such file or directory"))
  end.

(** Single-band datasets read as 2-D arrays, the others band-major 3-D. *)
Definition ReadAsArray (d : Dataset) : ndarray :=
  {| dtype := numpy_name (DataType d);
     shape := if (RasterCount d =? 1)%nat
              then [RasterYSize d; RasterXSize d]
              else [RasterCount d; RasterYSize d; RasterXSize d];
     elems := concat (rasters d) |}.

Definition put_file (fs : filesystem) (path : string) (d : Dataset) : filesystem :=
  {| isdir := isdir fs; files := <[path := d]> (files fs) |}.

(** [GetDriverByName('GTiff').Create(path, xsize, ysize, bands, type)]:
    a new zero-filled file with the default geotransform. *)
Definition Create (fs : filesystem) (path : string)
    (xsize ysize bands : nat) (etype : Z) : result filesystem :=
  let '(dir, _) := OsPath.split path in
  if isdir fs path then
    Raise (RuntimeError ("Attempt to create new tiff file `" ++ path ++ "' failed"))
  else if negb (String.eqb dir "") && negb (isdir fs dir) then
    Raise (RuntimeError ("Attempt to create new tiff file `" ++ path ++ "' failed"))
  else
    Return (put_file fs path
      {| RasterXSize := xsize; RasterYSize := ysize; RasterCount := bands;
         GeoTransform := [zero; one; zero; zero; zero; one];
         Projection := ""; DataType := etype;
         rasters := replicate bands (replicate (ysize * xsize) zero) |}).

Definition with_file (fs : filesystem) (path : string)
    (f : Dataset → result Dataset) : result filesystem :=
  match files fs !! path with
  | None => Raise (RuntimeError "dataset is closed")
  | Some d =>
      match f d with
      | Raise e => Raise e
      | Return d' => Return (put_file fs path d')
      end
  end.

Definition SetProjection (fs : filesystem) (path proj : string) : result filesystem :=
  with_file fs path (λ d, Return
    {| RasterXSize := RasterXSize d; RasterYSize := RasterYSize d;
       RasterCount := RasterCount d; GeoTransform := GeoTransform d;
       Projection := proj; DataType := DataType d; rasters := rasters d |}).

Definition SetGeoTransform (fs : filesystem) (path : string)
    (gt : list scalar) : result filesystem :=
  with_file fs path (λ d, Return
    {| RasterXSize := RasterXSize d; RasterYSize := RasterYSize d;
       RasterCount := RasterCount d; GeoTransform := gt;
       Projection := Projection d; DataType := DataType d; rasters := rasters d |}).

(** [GetRasterBand(i)]: bands are numbered from 1.  The result stands
    for the band object: the file and the band's position. *)
Definition GetRasterBand (fs : filesystem) (path : string) (i : nat)
  : result (string * nat) :=
  match files fs !! path with
  | None => Raise (RuntimeError "dataset is closed")
  | Some d =>
      if (1 <=? i)%nat && (i <=? RasterCount d)%nat then Return (path, i)
      else Raise (RuntimeError ("Illegal band #" ++ pretty i))
  end.

(** [<band>.WriteArray(a)]: the array must be a 2-D array covering the
    band. *)
Definition WriteArray (fs : filesystem) (rb : string * nat) (a : ndarray)
  : result filesystem :=
  with_file fs (fst rb) (λ d,
    if bool_decide (shape a = [RasterYSize d; RasterXSize d]) then
      Return
        {| RasterXSize := RasterXSize d; RasterYSize := RasterYSize d;
           RasterCount := RasterCount d; GeoTransform := GeoTransform d;
           Projection := Projection d; DataType := DataType d;
           rasters := <[(snd rb - 1)%nat := elems a]> (rasters d) |}
    else Raise (ValueError "array does not match the band's dimensions")).

End GDAL.
End GDAL.

(** ** Objects, the store and the monad *)

Definition ref := nat.

Section Store.
Context `{Numeric}.

(** The nested mapping the metadata parser returns. *)
Abbreviation metadata := (gmap string (gmap string value)).

(** [class GeoTIFF].  [dataobj] is the dataset as it was when the file
    was opened.  The corner coordinates [ulx], [uly], [lrx], [lry] are
    floating-point expressions over [_gtr] that no modelled method
    reads; they are left out. *)
Record GeoTIFF := {
  filepath : string;
  dataobj : Dataset;
  ncol : nat;
  nrow : nat;
  nbands : nat;
  _gtr : list scalar
}.

(** [class Landsatband(GeoTIFF)].  [gain], [bias], [k1], [k2] are the
    attributes the properties assign on first use; [None] is "not set". *)
Record Landsatband := {
  geotiff : GeoTIFF;
  band : option string;
  scene : option ref;
  meta : option metadata;
  gain : option value;
  bias : option value;
  k1 : option value;
  k2 : option value
}.

(** [class Landsatscene] *)
Record Landsatscene := {
  dirname : string;
  infix : string;
  scene_meta : metadata;
  scene_newmetaformat : bool;
  scene_spacecraft : string;
  majorswversion : Z;
  bands : gmap string ref;
  permissiblebands : list string
}.

(** What a reference can point to; [OOther] stands for any Python value
    that is neither a scene nor a band. *)
Inductive obj :=
| OScene (s : Landsatscene)
| OBand (b : Landsatband)
| OOther.

(** The state the methods act on: the object store, the file system,
    the records emitted through [logging], and (ghost) the metadata
    keys read so far, most recent first. *)
Record state := {
  heap : gmap ref obj;
  fs : filesystem;
  log : list logrec;
  lookups : list (string * string)
}.

Definition set_heap (st : state) (h : gmap ref obj) : state :=
  {| heap := h; fs := fs st; log := log st; lookups := lookups st |}.
Definition set_fs (st : state) (f : filesystem) : state :=
  {| heap := heap st; fs := f; log := log st; lookups := lookups st |}.
Definition add_log (st : state) (r : logrec) : state :=
  {| heap := heap st; fs := fs st; log := log st ++ [r]; lookups := lookups st |}.
Definition add_lookup (st : state) (g k : string) : state :=
  {| heap := heap st; fs := fs st; log := log st; lookups := (g, k) :: lookups st |}.

(** State changes made before an exception is raised stay visible. *)
Definition M (A : Type) : Type := state → result A * state.

Definition ret {A} (a : A) : M A := λ st, (Return a, st).
Definition raise {A} (e : exn) : M A := λ st, (Raise e, st).
Definition bind {A B} (c : M A) (k : A → M B) : M B :=
  λ st, match c st with
        | (Raise e, st') => (Raise e, st')
        | (Return a, st') => k a st'
        end.

(** [try: body except <classes>: handler] *)
Definition try_except {A} (body : M A) (handles : exn → bool)
    (handler : exn → M A) : M A :=
  λ st, match body st with
        | (Raise e, st') => if handles e then handler e st' else (Raise e, st')
        | r => r
        end.

Definition lift {A} (r : result A) : M A := λ st, (r, st).
Definition gets {A} (f : state → A) : M A := λ st, (Return (f st), st).
Definition reads {A} (f : state → result A) : M A := λ st, (f st, st).
Definition logging (l : level) (m : string) : M unit :=
  λ st, (Return tt, add_log st (LogRec l m)).
Definition lift_fs (f : filesystem → result filesystem) : M unit :=
  λ st, match f (fs st) with
        | Raise e => (Raise e, st)
        | Return fs' => (Return tt, set_fs st fs')
        end.

End Store.

Declare Scope py_scope.
Delimit Scope py_scope with py.
Notation "x <- c1 ;; c2" := (bind c1 (λ x, c2))
  (at level 100, c1 at next level, right associativity) : py_scope.
Notation "c1 ;; c2" := (bind c1 (λ _, c2))
  (at level 100, right associativity) : py_scope.
Local Open Scope py_scope.

(** ** [class GeoTIFF] *)

Module GeoTIFF_.
Section GeoTIFF.
Context `{Numeric}.

Definition nl : string := String (ascii_of_nat 10) EmptyString.

(** [GeoTIFF.__init__] *)
Definition __init__ (path : string) : M GeoTIFF :=
  d <- try_except
         (reads (λ st, GDAL.Open (fs st) path))
         is_RuntimeError
         (λ e, logging ERROR ("Could not open " ++ path ++ ": " ++ str_of_exn e) ;;
               raise e) ;;
  ret {| filepath := path; dataobj := d;
         ncol := RasterXSize d; nrow := RasterYSize d;
         nbands := RasterCount d; _gtr := GeoTransform d |}.

(** [GeoTIFF.data] *)
Definition data (self : GeoTIFF) : ndarray := GDAL.ReadAsArray (dataobj self).

(** [GeoTIFF.projection] *)
Definition projection (self : GeoTIFF) : string := Projection (dataobj self).

(** The table of [clone].  The source text has no comma after the
    ["float32"] entry; the table is read with the comma in place. *)
Definition NPDTYPE2GDALTYPECODE : gmap string Z :=
  list_to_map
    [ ("uint8", 1); ("int8", 1); ("uint16", 2); ("int16", 3);
      ("uint32", 4); ("int32", 5); ("float32", 6); ("float64", 7);
      ("complex64", 10); ("complex128", 11) ]%Z.

(** [for idx in range(n): body(idx)], from [start]. *)
Fixpoint for_range (start n : nat) (body : nat → M unit) : M unit :=
  match n with
  | O => ret tt
  | S n' => body start ;; for_range (S start) n' body
  end.

Definition invalid_directory_msg (dir : string) : string :=
  dir ++ " is not a valid directory to save file to ".
Definition is_directory_msg : string :=
  "%s is a directory. Choose a name that is suitable to writing a dataset to.".
Definition shape_msg : string :=
  "New and cloned GeoTIFF dataset must be the same shape.".
Definition dims_msg (dims : nat) : string :=
  "New data array has only " ++ pretty dims ++ " dimensions.".
Definition dtype_msg (name : string) : string :=
  "Data type in array cannot be converted to GDAL data type: " ++ nl
    ++ str_of_exn (KeyError name).

(** [GeoTIFF.clone] *)
Definition clone (self : GeoTIFF) (newpath : string) (newdata : ndarray)
  : M GeoTIFF :=
  let '(dirname, fname) := OsPath.split newpath in
  (if negb (String.eqb dirname "") then
     d <- gets (λ st, isdir (fs st) dirname) ;;
     if negb d then raise (PygaarstRasterError (invalid_directory_msg dirname))
     else ret tt
   else ret tt) ;;
  d <- gets (λ st, isdir (fs st) newpath) ;;
  (if d then logging WARNING is_directory_msg else ret tt) ;;
  (if negb (bool_decide (shape newdata = shape (data self))) then
     first <- lift (shape_first (shape (data self))) ;;
     if negb (bool_decide (shape newdata = first))
     then raise (PygaarstRasterError shape_msg)
     else ret tt
   else ret tt) ;;
  let dims := ndim newdata in
  bands <- (if (dims =? 2)%nat then ret 1%nat
            else if (2 <? dims)%nat then ret (hd 0%nat (shape newdata))
            else raise (PygaarstRasterError (dims_msg dims))) ;;
  gdaltype <- match NPDTYPE2GDALTYPECODE !! dtype newdata with
              | Some code => ret code
              | None => raise (PygaarstRasterError (dtype_msg (dtype newdata)))
              end ;;
  let proj := Projection (dataobj self) in
  let geotrans := _gtr self in
  lift_fs (λ f, GDAL.Create f newpath (ncol self) (nrow self) bands gdaltype) ;;
  lift_fs (λ f, GDAL.SetProjection f newpath proj) ;;
  lift_fs (λ f, GDAL.SetGeoTransform f newpath geotrans) ;;
  (if (dims =? 2)%nat then
     rb <- reads (λ st, GDAL.GetRasterBand (fs st) newpath 1) ;;
     lift_fs (λ f, GDAL.WriteArray f rb newdata)
   else
     for_range 0 dims (λ idx,
       rb <- reads (λ st, GDAL.GetRasterBand (fs st) newpath (idx + 1)) ;;
       sub <- lift (slice_band newdata idx) ;;
       lift_fs (λ f, GDAL.WriteArray f rb sub))) ;;
  __init__ newpath.

End GeoTIFF.
End GeoTIFF_.

(** ** Collaborators outside [raster.py] *)

(** [pygaarst.landsatutils], imported as [lu]: the calibration formulas
    and the static tables.  Each function may raise; the spacecraft
    argument is whatever the [spacecraft] property returned. *)
Class Landsatutils `{Numeric} := {
  dn2rad : ndarray → value → value → result ndarray;
  gainbias : value → value → value → value → result (value * value);
  rad2kelvin : ndarray → value → value → result ndarray;
  getKconstants : option value → result (value * value);
  getesun : option value → option string → result value;
  getd : Z → result value;
  normdiff : ndarray → ndarray → result ndarray;
  NDVI_BANDS : gmap string (string * string);
  NBR_BANDS : gmap string (string * string)
}.

(** The floating-point expressions written inline in [reflectance]:
    [int(datetime.date.strftime(dac, '%j'))],
    [rawrad/(np.sin(sedeg*np.pi/180))] and
    [(np.pi * d * d * rad)/(esun * np.sin(sedeg*np.pi/180))]. *)
Class Numpy `{Numeric} := {
  julian_day : value → result Z;
  sun_normalise : ndarray → value → result ndarray;
  toa_reflectance : value → ndarray → value → value → result ndarray
}.

(** [object.__getattribute__(scene, name)]: Python's default attribute
    lookup, yielding a reference to the attribute's value. *)
Class PyObject `{Numeric} := {
  object_getattribute : Landsatscene → string → result ref
}.

(** ** Store access shared by bands and scenes *)

Section Access.
Context `{Numeric}.

Abbreviation metadata := (gmap string (gmap string value)).

(** [meta[group][key]]; the attempt is noted in [lookups]. *)
Definition subscript (m : option metadata) (group key : string) : M value :=
  λ st,
    let st := add_lookup st group key in
    match m with
    | None => (Raise (TypeError "'NoneType' object has no attribute '__getitem__'"), st)
    | Some m =>
        match m !! group with
        | None => (Raise (KeyError group), st)
        | Some g =>
            match g !! key with
            | None => (Raise (KeyError key), st)
            | Some v => (Return v, st)
            end
        end
    end.

(** Truth value of [self.meta]: [None] and the empty mapping are false. *)
Definition meta_truthy (m : option metadata) : bool :=
  match m with
  | None => false
  | Some m => negb (bool_decide (m = ∅))
  end.

Definition alloc (o : obj) : M ref :=
  λ st, let r := fresh (dom (heap st)) in
        (Return r, set_heap st (<[r := o]> (heap st))).

Definition get_band (r : ref) : M Landsatband :=
  h <- gets heap ;;
  match h !! r with
  | Some (OBand b) => ret b
  | _ => raise (AttributeError "object is not a Landsatband")
  end.

Definition get_scene (r : ref) : M Landsatscene :=
  h <- gets heap ;;
  match h !! r with
  | Some (OScene s) => ret s
  | _ => raise (AttributeError "object is not a Landsatscene")
  end.

(** [self.scene.<attribute>] inside a band: [None] and objects that are
    not scenes have no such attribute. *)
Definition band_scene (self : Landsatband) : M Landsatscene :=
  match scene self with
  | None => raise (AttributeError "'NoneType' object has no such attribute")
  | Some r => get_scene r
  end.

Definition update_band (r : ref) (f : Landsatband → Landsatband) : M unit :=
  λ st, match heap st !! r with
        | Some (OBand b) => (Return tt, set_heap st (<[r := OBand (f b)]> (heap st)))
        | _ => (Raise (AttributeError "object is not a Landsatband"), st)
        end.

Definition update_scene (r : ref) (f : Landsatscene → Landsatscene) : M unit :=
  λ st, match heap st !! r with
        | Some (OScene s) => (Return tt, set_heap st (<[r := OScene (f s)]> (heap st)))
        | _ => (Raise (AttributeError "object is not a Landsatscene"), st)
        end.

Definition set_gain (v : value) (b : Landsatband) : Landsatband :=
  {| geotiff := geotiff b; band := band b; scene := scene b; meta := meta b;
     gain := Some v; bias := bias b; k1 := k1 b; k2 := k2 b |}.
Definition set_bias (v : value) (b : Landsatband) : Landsatband :=
  {| geotiff := geotiff b; band := band b; scene := scene b; meta := meta b;
     gain := gain b; bias := Some v; k1 := k1 b; k2 := k2 b |}.
Definition set_k1 (v : value) (b : Landsatband) : Landsatband :=
  {| geotiff := geotiff b; band := band b; scene := scene b; meta := meta b;
     gain := gain b; bias := bias b; k1 := Some v; k2 := k2 b |}.
Definition set_k2 (v : value) (b : Landsatband) : Landsatband :=
  {| geotiff := geotiff b; band := band b; scene := scene b; meta := meta b;
     gain := gain b; bias := bias b; k1 := k1 b; k2 := Some v |}.
Definition set_bands (m : gmap string ref) (s : Landsatscene) : Landsatscene :=
  {| dirname := dirname s; infix := infix s; scene_meta := scene_meta s;
     scene_newmetaformat := scene_newmetaformat s;
     scene_spacecraft := scene_spacecraft s;
     majorswversion := majorswversion s; bands := m;
     permissiblebands := permissiblebands s |}.

(** ['%s' % self.band] *)
Definition fmt_band (b : option string) : string :=
  match b with Some s => s | None => "None" end.

(** The receiver of [self.band.replace] and [self.band.startswith]. *)
Definition band_str (b : option string) (method : string) : M string :=
  match b with
  | Some s => ret s
  | None => raise (AttributeError
              ("'NoneType' object has no attribute '" ++ method ++ "'"))
  end.

(** [v == s] for a string literal [s]. *)
Definition is_str (v : option value) (s : string) : bool :=
  match v with
  | Some (VStr s') => String.eqb s' s
  | _ => false
  end.

(** Dual-gain substitution of the two metadata generations. *)
Definition vcid_token (b : string) : string :=
  PyStr.replace "H" "_VCID_2" (PyStr.replace "L" "_VCID_1" b).
Definition legacy_token (b : string) : string :=
  PyStr.replace "H" "2" (PyStr.replace "L" "1" b).

End Access.

(** ** [class Landsatband] *)

Module Landsatband_.
Section Landsatband.
Context `{Numeric} `{!Landsatutils} `{!Numpy}.

Definition no_metadata_hint : string :=
  "[bandobject].meta = pygaarst.landsatutils.parsemeta([metadatafile])".
Definition init_warning : string :=
  "Could not find metadata for band object. Set it explicitly: " ++ no_metadata_hint.
Definition spacecraft_warning : string :=
  "Spacecraft not set - should be 'L4', 'L5', '7', or 'L8'. Set a metadata file explicitly: "
    ++ no_metadata_hint.
Definition newmetaformat_warning : string :=
  "Could not find metadata for band object. Set it explicitly:" ++ no_metadata_hint.
Definition radiance_error : string :=
  "Impossible to retrieve metadata for band. No radiance calculation possible.".
Definition reflectance_error : string :=
  "Impossible to retrieve metadata for band. No reflectance calculation possible.".
Definition tKelvin_warning : string :=
  "Automatic brightness Temp not implemented. Cannot calculate temperature. Sorry.".

(** [Landsatband.__init__(filepath, band, scene)].  When no metadata
    came from the scene, the fallback reads [self.filepath] before the
    base class has set it, so it always ends in the warning. *)
Definition __init__ (path : string) (band : option string) (scene : option ref)
  : M ref :=
  m <- match scene with
       | Some r => s <- get_scene r ;; ret (Some (scene_meta s))
       | None => ret None
       end ;;
  (if negb (meta_truthy m) then logging WARNING init_warning else ret tt) ;;
  g <- GeoTIFF_.__init__ path ;;
  alloc (OBand {| geotiff := g; band := band; scene := scene; meta := m;
                  gain := None; bias := None; k1 := None; k2 := None |}).

(** [Landsatband.spacecraft] *)
Definition spacecraft (self : Landsatband) : M (option value) :=
  try_except
    (s <- band_scene self ;; ret (Some (VStr (scene_spacecraft s))))
    is_AttributeError
    (λ _, try_except
            (v <- subscript (meta self) "PRODUCT_METADATA" "SPACECRAFT_ID" ;;
             ret (Some v))
            is_AttributeError
            (λ _, logging WARNING spacecraft_warning ;; ret None)).

(** [Landsatband.newmetaformat]: [None] is the result of the branch that
    only warns. *)
Definition newmetaformat (self : Landsatband) : M (option bool) :=
  try_except
    (s <- band_scene self ;; ret (Some (scene_newmetaformat s)))
    is_AttributeError
    (λ _, try_except
            (subscript (meta self) "METADATA_FILE_INFO" "PROCESSING_SOFTWARE_VERSION" ;;
             ret (Some true))
            (λ e, is_KeyError e || is_AttributeError e)
            (λ e, if is_KeyError e then
                    subscript (meta self) "PRODUCT_METADATA" "PROCESSING_SOFTWARE" ;;
                    ret (Some false)
                  else logging WARNING newmetaformat_warning ;; ret None)).

Definition data (self : Landsatband) : ndarray := GeoTIFF_.data (geotiff self).

(** The Lmax/Lmin/QCALmax/QCALmin form shared by the two pre-L8 branches
    of [radiance]. *)
Definition minmax_radiance (self : Landsatband)
    (klmax klmin kqmax kqmin : string) : M ndarray :=
  lmax <- subscript (meta self) "MIN_MAX_RADIANCE" klmax ;;
  lmin <- subscript (meta self) "MIN_MAX_RADIANCE" klmin ;;
  qcalmax <- subscript (meta self) "MIN_MAX_PIXEL_VALUE" kqmax ;;
  qcalmin <- subscript (meta self) "MIN_MAX_PIXEL_VALUE" kqmin ;;
  gb <- lift (gainbias lmax lmin qcalmax qcalmin) ;;
  lift (dn2rad (data self) (fst gb) (snd gb)).

(** [Landsatband.radiance] *)
Definition radiance (r : ref) : M ndarray :=
  self <- get_band r ;;
  if negb (meta_truthy (meta self)) then raise (PygaarstRasterError radiance_error)
  else
    sc <- spacecraft self ;;
    if is_str sc "L8" then
      g <- subscript (meta self) "RADIOMETRIC_RESCALING"
             ("RADIANCE_MULT_BAND_" ++ fmt_band (band self)) ;;
      update_band r (set_gain g) ;;
      b <- subscript (meta self) "RADIOMETRIC_RESCALING"
             ("RADIANCE_ADD_BAND_" ++ fmt_band (band self)) ;;
      update_band r (set_bias b) ;;
      lift (dn2rad (data self) g b)
    else
      nmf <- newmetaformat self ;;
      if bool_decide (nmf = Some true) then
        b <- band_str (band self) "replace" ;;
        let bandstr := vcid_token b in
        minmax_radiance self
          ("RADIANCE_MAXIMUM_BAND_" ++ bandstr) ("RADIANCE_MINIMUM_BAND_" ++ bandstr)
          ("QUANTIZE_CAL_MAX_BAND_" ++ bandstr) ("QUANTIZE_CAL_MIN_BAND_" ++ bandstr)
      else
        b <- band_str (band self) "replace" ;;
        let bandstr := legacy_token b in
        minmax_radiance self
          ("LMAX_BAND" ++ bandstr) ("LMIN_BAND" ++ bandstr)
          ("QCALMAX_BAND" ++ bandstr) ("QCALMIN_BAND" ++ bandstr).

(** [Landsatband.reflectance]; [None] is the result for other spacecraft. *)
Definition reflectance (r : ref) : M (option ndarray) :=
  self <- get_band r ;;
  if negb (meta_truthy (meta self)) then raise (PygaarstRasterError reflectance_error)
  else
    sc <- spacecraft self ;;
    if is_str sc "L8" then
      g <- subscript (meta self) "RADIOMETRIC_RESCALING"
             ("REFLECTANCE_MULT_BAND_" ++ fmt_band (band self)) ;;
      update_band r (set_gain g) ;;
      b <- subscript (meta self) "RADIOMETRIC_RESCALING"
             ("REFLECTANCE_ADD_BAND_" ++ fmt_band (band self)) ;;
      update_band r (set_bias b) ;;
      sedeg <- subscript (meta self) "IMAGE_ATTRIBUTES" "SUN_ELEVATION" ;;
      rawrad <- lift (dn2rad (data self) g b) ;;
      res <- lift (sun_normalise rawrad sedeg) ;;
      ret (Some res)
    else
      sc <- spacecraft self ;;
      if is_str sc "L5" || is_str sc "L7" then
        nmf <- newmetaformat self ;;
        sd <- (if bool_decide (nmf = Some true) then
                 sedeg <- subscript (meta self) "IMAGE_ATTRIBUTES" "SUN_ELEVATION" ;;
                 dac <- subscript (meta self) "PRODUCT_METADATA" "DATE_ACQUIRED" ;;
                 ret (sedeg, dac)
               else
                 sedeg <- subscript (meta self) "PRODUCT_PARAMETERS" "SUN_ELEVATION" ;;
                 dac <- subscript (meta self) "PRODUCT_METADATA" "ACQUISITION_DATE" ;;
                 ret (sedeg, dac)) ;;
        juliandac <- lift (julian_day (snd sd)) ;;
        d <- lift (getd juliandac) ;;
        sc <- spacecraft self ;;
        esun <- lift (getesun sc (band self)) ;;
        rad <- radiance r ;;
        res <- lift (toa_reflectance d rad esun (fst sd)) ;;
        ret (Some res)
      else ret None.

(** [self.k1] / [self.k2] as read by the last line of [tKelvin]. *)
Definition read_k (name : string) (f : Landsatband → option value) (r : ref)
  : M value :=
  self <- get_band r ;;
  match f self with
  | Some v => ret v
  | None => raise (AttributeError
              ("'Landsatband' object has no attribute '" ++ name ++ "'"))
  end.

(** The condition of the first branch of [tKelvin]. *)
Definition not_thermal (self : Landsatband) : M bool :=
  sc <- spacecraft self ;;
  if is_str sc "L8" && negb (bool_decide (band self ∈ [Some "10"; Some "11"]))
  then ret true
  else
    sc <- spacecraft self ;;
    if negb (is_str sc "L8") then
      b <- band_str (band self) "startswith" ;;
      ret (negb (PyStr.startswith "6" b))
    else ret false.

(** [Landsatband.tKelvin]; [None] is the result of the branch that only
    warns. *)
Definition tKelvin (r : ref) : M (option ndarray) :=
  self <- get_band r ;;
  if bool_decide (scene self = None) then raise (PygaarstRasterError radiance_error)
  else
    nt <- not_thermal self ;;
    if nt then logging WARNING tKelvin_warning ;; ret None
    else
      (sc <- spacecraft self ;;
       if is_str sc "L8" then
         v1 <- subscript (meta self) "TIRS_THERMAL_CONSTANTS"
                 ("K1_CONSTANT_BAND_" ++ fmt_band (band self)) ;;
         update_band r (set_k1 v1) ;;
         v2 <- subscript (meta self) "TIRS_THERMAL_CONSTANTS"
                 ("K2_CONSTANT_BAND_" ++ fmt_band (band self)) ;;
         update_band r (set_k2 v2)
       else
         sc <- spacecraft self ;;
         if is_str sc "L4" || is_str sc "L5" || is_str sc "L7" then
           sc <- spacecraft self ;;
           ks <- lift (getKconstants sc) ;;
           update_band r (set_k1 (fst ks)) ;;
           update_band r (set_k2 (snd ks))
         else ret tt) ;;
      rad <- radiance r ;;
      v1 <- read_k "k1" k1 r ;;
      v2 <- read_k "k2" k2 r ;;
      res <- lift (rad2kelvin rad v1 v2) ;;
      ret (Some res).

End Landsatband.
End Landsatband_.

(** ** [class Landsatscene] *)

Module Landsatscene_.
Section Landsatscene.
Context `{Numeric} `{!Landsatutils} `{!Numpy} `{!PyObject}.

Definition is_ValueError (e : exn) : bool :=
  match e with ValueError _ => true | _ => false end.

(** The message of the error raised for a label outside
    [permissiblebands]. *)
Definition unsupported_band_msg (self : Landsatscene) (band : string) : string :=
  "Spacecraft " ++ scene_spacecraft self ++ " does not have a band " ++ band
    ++ ". Permissible band labels are "
    ++ PyStr.join ", " (permissiblebands self) ++ ".".

(** Key of the band's file name under ['PRODUCT_METADATA']. *)
Definition keyname (newmetaformat : bool) (band : string) : string :=
  if newmetaformat then "FILE_NAME_BAND_" ++ vcid_token band
  else "BAND" ++ legacy_token band ++ "_FILE_NAME".

(** The argument of [os.path.splitext] has to be a string. *)
Definition as_path (v : value) : M string :=
  match v with
  | VStr s => ret s
  | VNum _ => raise (AttributeError "'float' object has no attribute 'rfind'")
  end.

(** Where the band's file is: the infix goes before the extension of
    the name found in the metadata, the result is joined to the scene
    directory. *)
Definition bandpath (self : Landsatscene) (bandfn : string) : string :=
  let '(base, ext) := OsPath.splitext bandfn in
  let postprocessfn := base ++ infix self ++ ext in
  OsPath.join (dirname self) postprocessfn.

(** [Landsatscene.__getattr__(bandname)] *)
Definition __getattr__ (r : ref) (bandname : string) : M ref :=
  self <- get_scene r ;;
  let '(head, sep, tail) := PyStr.partition "band" (PyStr.lower bandname) in
  let band := PyStr.upper tail in
  isband <- try_except
              (if String.eqb head "" then
                 if PyStr.contains (permissiblebands self) band then ret true
                 else raise (PygaarstRasterError (unsupported_band_msg self band))
               else ret false)
              is_ValueError
              (λ _, ret false) ;;
  if isband then
    bandfn <- subscript (Some (scene_meta self)) "PRODUCT_METADATA"
                (keyname (scene_newmetaformat self) band) ;;
    fn <- as_path bandfn ;;
    b <- Landsatband_.__init__ (bandpath self fn) (Some band) (Some r) ;;
    update_scene r (λ s, set_bands (<[band := b]> (bands s)) s) ;;
    s <- get_scene r ;;
    match bands s !! band with
    | Some b' => ret b'
    | None => raise (KeyError band)
    end
  else lift (object_getattribute self bandname).

(** [<object>.data] on the result of an attribute access. *)
Definition data_of (b : ref) : M ndarray :=
  h <- gets heap ;;
  match h !! b with
  | Some (OBand o) => ret (Landsatband_.data o)
  | _ => raise (AttributeError "object has no attribute 'data'")
  end.

Definition index_error_msg (label1 label2 name : string) : string :=
  "Error accessing bands " ++ label1 ++ " and " ++ label2
    ++ " to calculate " ++ name ++ ".".

(** [self.__getattr__(label).data] *)
Definition band_data (r : ref) (label : string) : M ndarray :=
  b <- __getattr__ r label ;;
  data_of b.

(** The body shared by [NDVI] and [NBR]: the two band reads and the
    normalized difference, inside [try: ... except AttributeError:]. *)
Definition normalized_index (r : ref) (labels : string * string) (name : string)
  : M ndarray :=
  let '(label1, label2) := labels in
  try_except
    (arr1 <- band_data r label1 ;;
     arr2 <- band_data r label2 ;;
     lift (normdiff arr1 arr2))
    is_AttributeError
    (λ e, logging CRITICAL (index_error_msg label1 label2 name) ;; raise e).

Definition table_lookup (t : gmap string (string * string)) (k : string)
  : M (string * string) :=
  match t !! k with
  | Some v => ret v
  | None => raise (KeyError k)
  end.

(** [Landsatscene.NDVI] *)
Definition NDVI (r : ref) : M ndarray :=
  self <- get_scene r ;;
  labels <- table_lookup NDVI_BANDS (scene_spacecraft self) ;;
  normalized_index r labels "NDVI".

(** [Landsatscene.NBR] *)
Definition NBR (r : ref) : M ndarray :=
  self <- get_scene r ;;
  labels <- table_lookup NBR_BANDS (scene_spacecraft self) ;;
  normalized_index r labels "NBR".

End Landsatscene.
End Landsatscene_.

(** ** Predicates used in the statements *)

Section Predicates.
Context `{Numeric}.

(** [c] relates every start state to its end state by [R], whatever
    the outcome. *)
Definition stable {A} (R : state → state → Prop) (c : M A) : Prop :=
  ∀ st, R st (snd (c st)).

(** Every exception [c] can raise satisfies [E]. *)
Definition raises_only {A} (E : exn → Prop) (c : M A) : Prop :=
  ∀ st e, fst (c st) = Raise e → E e.

(** The log only grows. *)
Definition log_extends (st st' : state) : Prop :=
  ∃ tail, log st' = (log st ++ tail)%list.

(** No metadata key has been read. *)
Definition same_lookups (st st' : state) : Prop :=
  lookups st' = lookups st.

(** No key of [group] has been read that was not read before. *)
Definition no_new_lookup (group : string) (st st' : state) : Prop :=
  ∀ key, (group, key) ∈ lookups st' → (group, key) ∈ lookups st.

(** The band at [r] stays a band and keeps its thermal constants. *)
Definition keeps_constants (r : ref) (st st' : state) : Prop :=
  ∀ b, heap st !! r = Some (OBand b) →
       ∃ b', heap st' !! r = Some (OBand b') ∧ k1 b' = k1 b ∧ k2 b' = k2 b.

(** [sub] occurs in [s]. *)
Definition occurs_in (sub s : string) : Prop :=
  ∃ pre post, s = pre ++ sub ++ post.

(** The error of [clone]'s check of the destination's directory. *)
Definition is_invalid_destination (e : exn) : Prop :=
  ∃ dir, e = PygaarstRasterError (GeoTIFF_.invalid_directory_msg dir).

(** Element type names the spec lists as supported by [clone]. *)
Definition supported_dtypes : list string :=
  [ "uint8"; "int8"; "uint16"; "int16"; "uint32"; "int32";
    "float32"; "float64"; "complex64"; "complex128" ].

(** The shape test of [clone] lets [newdata] through: its shape is that
    of [self.data] or of [self.data[0, ...]]. *)
Definition shape_accepted (self : GeoTIFF) (newdata : ndarray) : Prop :=
  shape newdata = shape (GeoTIFF_.data self)
  ∨ shape_first (shape (GeoTIFF_.data self)) = Return (shape newdata).

(** The directory test of [clone] lets [newpath] through. *)
Definition directory_accepted (f : filesystem) (newpath : string) : Prop :=
  fst (OsPath.split newpath) = "" ∨ isdir f (fst (OsPath.split newpath)) = true.

(** The Band that an access constructs for label [label] from file
    [path] holding [d]. *)
Definition constructed_band (r : ref) (s : Landsatscene) (label path : string)
    (d : Dataset) : Landsatband :=
  {| geotiff := {| filepath := path; dataobj := d; ncol := RasterXSize d;
                   nrow := RasterYSize d; nbands := RasterCount d;
                   _gtr := GeoTransform d |};
     band := Some label; scene := Some r; meta := Some (scene_meta s);
     gain := None; bias := None; k1 := None; k2 := None |}.

(** How [index] ends when one of its two band reads fails: with the
    same exception, after a CRITICAL record [msg] exactly when the
    exception is an [AttributeError]. *)
Definition surfaces_failure (index first second : M ndarray) (msg : string)
    (st : state) : Prop :=
  let outcome (e : exn) (st' : state) :=
    (Raise e, if is_AttributeError e then add_log st' (LogRec CRITICAL msg) else st') in
  (∀ e st1, first st = (Raise e, st1) → index st = outcome e st1)
  ∧ (∀ a1 st1 e st2,
       first st = (Return a1, st1) → second st1 = (Raise e, st2) →
       index st = outcome e st2).

Fixpoint last_char (s : string) : option ascii :=
  match s with
  | EmptyString => None
  | String c EmptyString => Some c
  | String _ s' => last_char s'
  end.

(** An exception other than the module's error with a message ending
    in a blank, as the message about the destination's directory does. *)
Definition other_than_destination (e : exn) : Prop :=
  match e with
  | PygaarstRasterError m => last_char m ≠ Some " "%char
  | _ => True
  end.

End Predicates.

(** ** Scene construction and the VIIRS label helper *)

Module PyStrMore.

(** [s.split(sep)] for a one-character separator: never empty. *)
Fixpoint split (sep : ascii) (s : string) : list string :=
  match s with
  | EmptyString => [EmptyString]
  | String a s' =>
      if Ascii.eqb a sep then EmptyString :: split sep s'
      else match split sep s' with
           | x :: rest => String a x :: rest
           | [] => [String a EmptyString]
           end
  end.

(** [l[-1]] and [l[-2]] *)
Definition index_last {A} (l : list A) : result A :=
  match rev l with
  | x :: _ => Return x
  | [] => Raise (IndexError "list index out of range")
  end.

Definition index_second_last {A} (l : list A) : result A :=
  match rev l with
  | _ :: x :: _ => Return x
  | _ => Raise (IndexError "list index out of range")
  end.

End PyStrMore.

(** [_get_spacecraftid]: ['Landsat_8' -> 'L8'], ['Landsat5' -> 'L5']. *)
Definition _get_spacecraftid (spid : string) : result string :=
  match spid with
  | EmptyString => Raise (IndexError "string index out of range")
  | String c rest =>
      match last_char spid with
      | Some l => Return (String (PyStr.upper_char c) (String l EmptyString))
      | None => Raise (IndexError "string index out of range")
      end
  end.

(** What the scene constructor needs from outside [raster.py]:
    [lu.parsemeta], [lu.get_bands] and the built-in [int] on strings. *)
Class SceneSupport `{Numeric} := {
  parsemeta : string → result (gmap string (gmap string (gmap string value)));
  get_bands : string → result (list string);
  int_of_str : string → result Z
}.

Module SceneConstruction.
Section SceneConstruction.
Context `{Numeric} `{!SceneSupport}.

(** [_get_spacecraftid] applied to a metadata value. *)
Definition spacecraft_of (v : value) : result string :=
  match v with
  | VStr s => _get_spacecraftid s
  | VNum _ => Raise (TypeError "'float' object has no attribute '__getitem__'")
  end.

(** [int(versionstr.split('.')[0][5:])] *)
Definition major_version (v : value) : result Z :=
  match v with
  | VStr s =>
      match PyStrMore.split "." s with
      | first :: _ => int_of_str (PyStr.drop 5 first)
      | [] => Raise (IndexError "list index out of range")
      end
  | VNum _ => Raise (AttributeError "'float' object has no attribute 'split'")
  end.

(** [Landsatscene.__init__(dirname)] *)
Definition __init__ (dir : string) : M ref :=
  metadata <- lift (parsemeta dir) ;;
  meta <- match metadata !! "L1_METADATA_FILE" with
          | Some m => ret m
          | None => raise (KeyError "L1_METADATA_FILE")
          end ;;
  spid <- subscript (Some meta) "PRODUCT_METADATA" "SPACECRAFT_ID" ;;
  spacecraft <- lift (spacecraft_of spid) ;;
  ver <- try_except
           (v <- subscript (Some meta) "METADATA_FILE_INFO"
                   "PROCESSING_SOFTWARE_VERSION" ;;
            ret (v, true))
           is_KeyError
           (λ _, v <- subscript (Some meta) "PRODUCT_METADATA"
                        "PROCESSING_SOFTWARE" ;;
                 ret (v, false)) ;;
  major <- lift (major_version (fst ver)) ;;
  permissible <- lift (get_bands spacecraft) ;;
  alloc (OScene {| dirname := dir; infix := ""; scene_meta := meta;
                   scene_newmetaformat := snd ver;
                   scene_spacecraft := spacecraft;
                   majorswversion := major; bands := ∅;
                   permissiblebands := permissible |}).

End SceneConstruction.
End SceneConstruction.

Module VIIRS.

(** [_getlabel(groupname)]: the first component is what [print] wrote. *)
Definition _getlabel (groupname : string) : list string * result string :=
  let labelelems := PyStrMore.split "-" groupname in
  (labelelems,
   match PyStrMore.index_last labelelems with
   | Raise e => Raise e
   | Return last =>
       if PyStr.startswith "GEO" last then Return "GEO"
       else PyStrMore.index_second_last labelelems
   end).

End VIIRS.

(** ** Predicates for the further properties *)

Section MorePredicates.
Context `{Numeric}.

(** Nothing but the file at [path] differs between the two states;
    the log may have grown. *)
Definition only_file_changed (path : string) (st st' : state) : Prop :=
  heap st' = heap st
  ∧ lookups st' = lookups st
  ∧ isdir (fs st') = isdir (fs st)
  ∧ ∀ p, p ≠ path → files (fs st') !! p = files (fs st) !! p.

(** The object store and the file system are as they were. *)
Definition store_untouched (st st' : state) : Prop :=
  heap st' = heap st ∧ fs st' = fs st.

(** The state in which [clone] starts its shape test. *)
Definition after_destination (newpath : string) (st : state) : state :=
  if isdir (fs st) newpath
  then add_log st (LogRec WARNING GeoTIFF_.is_directory_msg) else st.




(** The accessor [GeoTIFF.__init__] returns over dataset [d] at [path]. *)
Definition accessor (path : string) (d : Dataset) : GeoTIFF :=
  {| filepath := path; dataobj := d; ncol := RasterXSize d; nrow := RasterYSize d;
     nbands := RasterCount d; _gtr := GeoTransform d |}.

(** The four keys [radiance] reads for a pre-L8 band, by metadata
    generation: maximum and minimum radiance, maximum and minimum
    quantized value. *)
Definition radiance_keys (newmetaformat : bool) (label : string)
  : string * string * string * string :=
  if newmetaformat then
    ("RADIANCE_MAXIMUM_BAND_" ++ vcid_token label,
     "RADIANCE_MINIMUM_BAND_" ++ vcid_token label,
     "QUANTIZE_CAL_MAX_BAND_" ++ vcid_token label,
     "QUANTIZE_CAL_MIN_BAND_" ++ vcid_token label)
  else
    ("LMAX_BAND" ++ legacy_token label, "LMIN_BAND" ++ legacy_token label,
     "QCALMAX_BAND" ++ legacy_token label, "QCALMIN_BAND" ++ legacy_token label).

(** Label [X] is permissible for [s], its file name is in the metadata
    and the file holding [d] is on disk. *)
Definition band_on_disk (s : Landsatscene) (f : filesystem) (X : string)
    (d : Dataset) : Prop :=
  PyStr.upper X ∈ permissiblebands s
  ∧ ∃ grp fn,
      scene_meta s !! "PRODUCT_METADATA" = Some grp
      ∧ grp !! Landsatscene_.keyname (scene_newmetaformat s) (PyStr.upper X)
        = Some (VStr fn)
      ∧ files f !! Landsatscene_.bandpath s fn = Some d.

(** [c] does not occur in [s]. *)
Fixpoint free_of (c : ascii) (s : string) : bool :=
  match s with
  | EmptyString => true
  | String a s' => negb (Ascii.eqb a c) && free_of c s'
  end.

(** The metadata has the key that only the new generation has. *)
Definition has_new_version_key (m : gmap string (gmap string value)) : Prop :=
  ∃ g v, m !! "METADATA_FILE_INFO" = Some g
         ∧ g !! "PROCESSING_SOFTWARE_VERSION" = Some v.

(** The Band [Landsatband.__init__] builds without a scene. *)
Definition standalone_band (path : string) (label : option string) (d : Dataset)
  : Landsatband :=
  {| geotiff := accessor path d; band := label; scene := None; meta := None;
     gain := None; bias := None; k1 := None; k2 := None |}.

End MorePredicates.

(** ** Concrete scenes, bands and rasters *)

Module Fixture.

(** Integer samples, and integer stand-ins for the calibration
    formulas: enough to run the methods on concrete inputs. *)
#[export] Instance Zsamples : Numeric := {| scalar := Z; zero := 0%Z; one := 1%Z |}.

Definition num (v : value) : Z :=
  match v with VNum x => x | VStr _ => 0%Z end.

Definition amap (f : Z → Z) (a : ndarray) : ndarray :=
  {| dtype := "float64"; shape := shape a; elems := f <$> elems a |}.

#[export] Instance lu : Landsatutils := {|
  dn2rad a g b := Return (amap (λ x, x * num g + num b)%Z a);
  gainbias lmax lmin qmax qmin :=
    Return (VNum (num lmax - num lmin)%Z, VNum (num lmin));
  rad2kelvin a c1 c2 := Return (amap (λ x, x + num c1 + num c2)%Z a);
  getKconstants sc :=
    if is_str sc "L7" then Return (VNum 666%Z, VNum 1282%Z)
    else if is_str sc "L5" then Return (VNum 607%Z, VNum 1260%Z)
    else Raise (KeyError "spacecraft");
  getesun _ _ := Return (VNum 1%Z);
  getd _ := Return (VNum 1%Z);
  normdiff a b := Return (amap (λ x, x) a);
  NDVI_BANDS := {[ "L7" := ("band4", "band3"); "L8" := ("band5", "band4") ]};
  NBR_BANDS := {[ "L7" := ("band4", "band7"); "L8" := ("band5", "band7") ]}
|}.

#[export] Instance np : Numpy := {|
  julian_day _ := Return 1%Z;
  sun_normalise a _ := Return a;
  toa_reflectance _ rad _ _ := Return rad
|}.

#[export] Instance py : PyObject := {|
  object_getattribute _ name :=
    Raise (AttributeError
      ("'Landsatscene' object has no attribute '" ++ name ++ "'"))
|}.

Definition gtr : list Z := [500000; 30; 0; 7000000; 0; -30]%Z.

Definition raster1 (px : list Z) : Dataset :=
  {| RasterXSize := 2; RasterYSize := 1; RasterCount := 1;
     GeoTransform := gtr; Projection := "UTM6N"; DataType := 1;
     rasters := [px] |}.

(** A Landsat 7 scene with legacy metadata. *)
Definition product7 : gmap string value :=
  {[ "BAND1_FILE_NAME" := VStr "L7_B10.TIF";
     "BAND61_FILE_NAME" := VStr "L7_B61.TIF";
     "BAND62_FILE_NAME" := VStr "L7_B62.TIF" ]}.

Definition meta7 : gmap string (gmap string value) :=
  {[ "PRODUCT_METADATA" := product7;
     "MIN_MAX_RADIANCE" :=
       {[ "LMAX_BAND62" := VNum 12%Z; "LMIN_BAND62" := VNum 3%Z ]};
     "MIN_MAX_PIXEL_VALUE" :=
       {[ "QCALMAX_BAND62" := VNum 255%Z; "QCALMIN_BAND62" := VNum 1%Z ]} ]}.

Definition bands7 : list string := ["1"; "2"; "3"; "4"; "5"; "6L"; "6H"; "7"; "8"].

Definition scene7 : Landsatscene :=
  {| dirname := "scene7"; infix := ""; scene_meta := meta7;
     scene_newmetaformat := false; scene_spacecraft := "L7";
     majorswversion := 12; bands := ∅; permissiblebands := bands7 |}.

(** The same satellite with new-format metadata in which the file of
    band 6L is filed under a key without the band number. *)
Definition meta7new : gmap string (gmap string value) :=
  {[ "PRODUCT_METADATA" :=
       {[ "FILE_NAME_BAND__VCID_1" := VStr "L7_B6_VCID_1.TIF" ]} ]}.

Definition scene7new : Landsatscene :=
  {| dirname := "scene7"; infix := ""; scene_meta := meta7new;
     scene_newmetaformat := true; scene_spacecraft := "L7";
     majorswversion := 13; bands := ∅; permissiblebands := bands7 |}.

(** A Landsat 8 scene; the file of band 4 is missing from the disk. *)
Definition product8 : gmap string value :=
  {[ "SPACECRAFT_ID" := VStr "L8";
     "FILE_NAME_BAND_4" := VStr "LC8_B4.TIF";
     "FILE_NAME_BAND_5" := VStr "LC8_B5.TIF";
     "FILE_NAME_BAND_10" := VStr "LC8_B10.TIF" ]}.

Definition rescaling8 : gmap string value :=
  {[ "RADIANCE_MULT_BAND_5" := VNum 2%Z; "RADIANCE_ADD_BAND_5" := VNum 1%Z;
     "REFLECTANCE_MULT_BAND_5" := VNum 3%Z; "REFLECTANCE_ADD_BAND_5" := VNum 4%Z ]}.

Definition attributes8 : gmap string value :=
  {[ "SUN_ELEVATION" := VNum 45%Z ]}.

Definition meta8 : gmap string (gmap string value) :=
  {[ "PRODUCT_METADATA" := product8;
     "RADIOMETRIC_RESCALING" := rescaling8;
     "IMAGE_ATTRIBUTES" := attributes8 ]}.

Definition bands8 : list string :=
  ["1"; "2"; "3"; "4"; "5"; "6"; "7"; "8"; "9"; "10"; "11"].

Definition scene8 : Landsatscene :=
  {| dirname := "scene8"; infix := ""; scene_meta := meta8;
     scene_newmetaformat := true; scene_spacecraft := "L8";
     majorswversion := 2; bands := ∅; permissiblebands := bands8 |}.

(** An L8 scene object whose permissible labels leave out band 5. *)
Definition scene8_no5 : Landsatscene :=
  {| dirname := "scene8"; infix := ""; scene_meta := meta8;
     scene_newmetaformat := true; scene_spacecraft := "L8";
     majorswversion := 2; bands := ∅;
     permissiblebands := ["4"; "10"; "11"] |}.

(** A two-band and a four-band raster, and what is on disk. *)
Definition raster2 : Dataset :=
  {| RasterXSize := 2; RasterYSize := 1; RasterCount := 2;
     GeoTransform := gtr; Projection := "UTM6N"; DataType := 1;
     rasters := [[1; 2]; [3; 4]]%Z |}.

Definition raster4 : Dataset :=
  {| RasterXSize := 2; RasterYSize := 1; RasterCount := 4;
     GeoTransform := gtr; Projection := "UTM6N"; DataType := 1;
     rasters := [[1; 2]; [3; 4]; [5; 6]; [7; 8]]%Z |}.

Definition disk : filesystem :=
  {| isdir := λ p, bool_decide (p ∈ ["scene7"; "scene8"; "out"; "in"]);
     files := {[ "scene7/L7_B61.TIF" := raster1 [90; 91]%Z;
                 "scene7/L7_B62.TIF" := raster1 [100; 200]%Z;
                 "scene8/LC8_B5.TIF" := raster1 [10; 20]%Z;
                 "scene8/LC8_B10.TIF" := raster1 [30; 40]%Z;
                 "in/two.tif" := raster2;
                 "in/four.tif" := raster4 ]} |}.

Definition open_raster (path : string) (d : Dataset) : GeoTIFF :=
  {| filepath := path; dataobj := d; ncol := RasterXSize d; nrow := RasterYSize d;
     nbands := RasterCount d; _gtr := GeoTransform d |}.

Definition two : GeoTIFF := open_raster "in/two.tif" raster2.
Definition four : GeoTIFF := open_raster "in/four.tif" raster4.

(** A band of the L7 scene at reference 0, and a standalone L8 band
    whose metadata was assigned by hand. *)
Definition band6H : Landsatband :=
  {| geotiff := open_raster "scene7/L7_B62.TIF" (raster1 [100; 200]%Z);
     band := Some "6H"; scene := Some 0%nat; meta := Some meta7;
     gain := None; bias := None; k1 := None; k2 := None |}.

Definition band5 : Landsatband :=
  {| geotiff := open_raster "scene8/LC8_B5.TIF" (raster1 [10; 20]%Z);
     band := Some "5"; scene := Some 0%nat; meta := Some meta8;
     gain := None; bias := None; k1 := None; k2 := None |}.

Definition band3 : Landsatband :=
  {| geotiff := open_raster "scene7/L7_B61.TIF" (raster1 [90; 91]%Z);
     band := Some "3"; scene := Some 0%nat; meta := Some meta7;
     gain := None; bias := None; k1 := None; k2 := None |}.

Definition standalone5 : Landsatband :=
  {| geotiff := open_raster "scene8/LC8_B5.TIF" (raster1 [10; 20]%Z);
     band := Some "5"; scene := None; meta := Some meta8;
     gain := None; bias := None; k1 := None; k2 := None |}.

Definition world (objs : gmap ref obj) : state :=
  {| heap := objs; fs := disk; log := []; lookups := [] |}.

Definition new_pixels (sh : list nat) (ty : string) (px : list Z) : ndarray :=
  {| dtype := ty; shape := sh; elems := px |}.

End Fixture.

(** ** More scenes: a constructed one, thermal constants, an older satellite *)

Module MoreFixture.
Import Fixture.

(** The built-in [int] on a string of decimal digits. *)
Definition digit (c : ascii) : option Z :=
  let n := nat_of_ascii c in
  if (48 <=? n)%nat && (n <=? 57)%nat then Some (Z.of_nat (n - 48)) else None.

Fixpoint digits (s : string) (acc : Z) : option Z :=
  match s with
  | EmptyString => Some acc
  | String c s' =>
      match digit c with
      | Some d => digits s' (10 * acc + d)%Z
      | None => None
      end
  end.

(** Metadata as the parser hands it over: the spacecraft spelled out,
    the software version under the new-format key. *)
Definition product8c : gmap string value :=
  {[ "SPACECRAFT_ID" := VStr "LANDSAT_8";
     "FILE_NAME_BAND_5" := VStr "LC8_B5.TIF" ]}.

Definition meta8c : gmap string (gmap string value) :=
  {[ "PRODUCT_METADATA" := product8c;
     "METADATA_FILE_INFO" :=
       {[ "PROCESSING_SOFTWARE_VERSION" := VStr "LPGS_2.3.0" ]} ]}.

#[export] Instance support : SceneSupport := {|
  parsemeta dir :=
    if String.eqb dir "scene8" then Return {[ "L1_METADATA_FILE" := meta8c ]}
    else Raise (RuntimeError ("No metadata file in " ++ dir));
  get_bands sc :=
    if String.eqb sc "L8" then Return bands8
    else if String.eqb sc "L7" then Return bands7
    else Raise (KeyError sc);
  int_of_str s :=
    match s, digits s 0 with
    | String _ _, Some z => Return z
    | _, _ => Raise (ValueError ("invalid literal for int() with base 10: '" ++ s ++ "'"))
    end
|}.

(** The scene [Landsatscene("scene8")] builds from that metadata. *)
Definition scene8c : Landsatscene :=
  {| dirname := "scene8"; infix := ""; scene_meta := meta8c;
     scene_newmetaformat := true; scene_spacecraft := "L8";
     majorswversion := 2; bands := ∅; permissiblebands := bands8 |}.

Definition standalone8c : Landsatband :=
  {| geotiff := open_raster "scene8/LC8_B5.TIF" (raster1 [10; 20]%Z);
     band := Some "5"; scene := None; meta := Some meta8c;
     gain := None; bias := None; k1 := None; k2 := None |}.

(** An L8 scene whose metadata has the thermal constants of band 10. *)
Definition meta8t : gmap string (gmap string value) :=
  {[ "PRODUCT_METADATA" := product8;
     "RADIOMETRIC_RESCALING" :=
       {[ "RADIANCE_MULT_BAND_10" := VNum 2%Z; "RADIANCE_ADD_BAND_10" := VNum 1%Z ]};
     "TIRS_THERMAL_CONSTANTS" :=
       {[ "K1_CONSTANT_BAND_10" := VNum 774%Z; "K2_CONSTANT_BAND_10" := VNum 1321%Z ]} ]}.

Definition scene8t : Landsatscene :=
  {| dirname := "scene8"; infix := ""; scene_meta := meta8t;
     scene_newmetaformat := true; scene_spacecraft := "L8";
     majorswversion := 2; bands := ∅; permissiblebands := bands8 |}.

Definition band10 : Landsatband :=
  {| geotiff := open_raster "scene8/LC8_B10.TIF" (raster1 [30; 40]%Z);
     band := Some "10"; scene := Some 0%nat; meta := Some meta8t;
     gain := None; bias := None; k1 := None; k2 := None |}.

(** A Landsat 4 scene: no entry in the index tables, no reflectance. *)
Definition scene4 : Landsatscene :=
  {| dirname := "scene4"; infix := ""; scene_meta := meta7;
     scene_newmetaformat := false; scene_spacecraft := "L4";
     majorswversion := 12; bands := ∅; permissiblebands := ["1"; "2"; "3"; "4"] |}.

Definition band4_3 : Landsatband :=
  {| geotiff := open_raster "scene7/L7_B61.TIF" (raster1 [90; 91]%Z);
     band := Some "3"; scene := Some 0%nat; meta := Some meta7;
     gain := None; bias := None; k1 := None; k2 := None |}.



(** The disk with the file of band 4 of the L8 scene in place. *)
Definition disk_with_band4 : filesystem :=
  GDAL.put_file disk "scene8/LC8_B4.TIF" (raster1 [7; 9]%Z).

End MoreFixture.

(** * Properties *)

(** ** The monad *)

Section MonadLemmas.
Context `{Numeric}.

Lemma bind_Return {A B} (c : M A) (k : A → M B) st a st' :
  c st = (Return a, st') → bind c k st = k a st'.
Proof. intros E. unfold bind. by rewrite E. Qed.

Lemma bind_Raise {A B} (c : M A) (k : A → M B) st e st' :
  c st = (Raise e, st') → bind c k st = (Raise e, st').
Proof. intros E. unfold bind. by rewrite E. Qed.

Lemma bind_ext_at {A B} (c : M A) (k k' : A → M B) st :
  (∀ a st', c st = (Return a, st') → k a st' = k' a st') →
  bind c k st = bind c k' st.
Proof. intros E. unfold bind. destruct (c st) as [[e|a] st']; auto. Qed.

Lemma get_scene_eq r s st :
  heap st !! r = Some (OScene s) → get_scene r st = (Return s, st).
Proof. intros E. unfold get_scene, bind, gets. simpl. by rewrite E. Qed.

Lemma get_band_eq r b st :
  heap st !! r = Some (OBand b) → get_band r st = (Return b, st).
Proof. intros E. unfold get_band, bind, gets. simpl. by rewrite E. Qed.

Section Stable.
Context {R : state → state → Prop} `{!PreOrder R}.

Lemma stable_ret {A} (a : A) : stable R (ret a).
Proof. intros st. simpl. reflexivity. Qed.

Lemma stable_raise {A} e : stable R (raise (A := A) e).
Proof. intros st. simpl. reflexivity. Qed.

Lemma stable_lift {A} (x : result A) : stable R (lift x).
Proof. intros st. simpl. reflexivity. Qed.

Lemma stable_gets {A} (f : state → A) : stable R (gets f).
Proof. intros st. simpl. reflexivity. Qed.

Lemma stable_reads {A} (f : state → result A) : stable R (reads f).
Proof. intros st. simpl. reflexivity. Qed.

Lemma stable_bind {A B} (c : M A) (k : A → M B) :
  stable R c → (∀ a, stable R (k a)) → stable R (bind c k).
Proof.
  intros Hc Hk st. unfold bind. specialize (Hc st).
  destruct (c st) as [[e|a] st1]; simpl in *; [done|].
  etrans; [exact Hc | apply Hk].
Qed.

Lemma stable_try_except {A} (body : M A) handles (handler : exn → M A) :
  stable R body → (∀ e, stable R (handler e)) →
  stable R (try_except body handles handler).
Proof.
  intros Hb Hh st. unfold try_except. specialize (Hb st).
  destruct (body st) as [[e|a] st1]; simpl in *; [|done].
  destruct (handles e); [|done].
  etrans; [exact Hb | apply Hh].
Qed.

Lemma stable_get_scene r : stable R (get_scene r).
Proof.
  apply stable_bind; [apply stable_gets|].
  intros h. repeat case_match; auto using stable_ret, stable_raise.
Qed.

Lemma stable_get_band r : stable R (get_band r).
Proof.
  apply stable_bind; [apply stable_gets|].
  intros h. repeat case_match; auto using stable_ret, stable_raise.
Qed.

Lemma stable_band_scene b : stable R (band_scene b).
Proof.
  unfold band_scene. case_match; auto using stable_get_scene, stable_raise.
Qed.

Lemma stable_band_str b m : stable R (band_str b m).
Proof. unfold band_str. case_match; auto using stable_ret, stable_raise. Qed.

End Stable.

Lemma raises_only_ret {A} E (a : A) : raises_only E (ret a).
Proof. intros st e. simpl. discriminate. Qed.

Lemma raises_only_gets {A} E (f : state → A) : raises_only E (gets f).
Proof. intros st e. simpl. discriminate. Qed.

Lemma raises_only_raise {A} (E : exn → Prop) e : E e → raises_only E (raise (A := A) e).
Proof. intros He st e'. simpl. by intros [= <-]. Qed.

Lemma raises_only_bind {A B} E (c : M A) (k : A → M B) :
  raises_only E c → (∀ a, raises_only E (k a)) → raises_only E (bind c k).
Proof.
  intros Hc Hk st e. unfold bind. specialize (Hc st).
  destruct (c st) as [[e'|a] st1] eqn:Ec; simpl in *.
  - intros [= <-]. by apply Hc.
  - apply Hk.
Qed.

Global Instance log_extends_preorder : PreOrder log_extends.
Proof.
  split.
  - intros st. exists []. by rewrite app_nil_r.
  - intros x y z [t1 E1] [t2 E2]. exists (t1 ++ t2)%list.
    by rewrite E2, E1, app_assoc.
Qed.

Global Instance same_lookups_preorder : PreOrder same_lookups.
Proof.
  split; [by intros st|]. intros x y z Hxy Hyz.
  unfold same_lookups in *. congruence.
Qed.

Lemma same_lookups_no_new {A} g (c : M A) :
  stable same_lookups c → stable (no_new_lookup g) c.
Proof. intros Hc st key. by rewrite (Hc st). Qed.

Global Instance no_new_lookup_preorder g : PreOrder (no_new_lookup g).
Proof. split; [by intros st key|]. intros x y z Hxy Hyz key Hk. auto. Qed.

Global Instance keeps_constants_preorder r : PreOrder (keeps_constants r).
Proof.
  split.
  - intros st b Hb. by exists b.
  - intros x y z Hxy Hyz b Hb.
    destruct (Hxy b Hb) as (b1 & Hb1 & E1 & E2).
    destruct (Hyz b1 Hb1) as (b2 & Hb2 & E3 & E4).
    exists b2. split_and!; [done|congruence..].
Qed.

End MonadLemmas.

(** ** Strings *)

Section StringLemmas.

Lemma str_app_nil_l (s : string) : "" ++ s = s.
Proof. reflexivity. Qed.

Lemma str_app_cons c (a b : string) : String c a ++ b = String c (a ++ b).
Proof. reflexivity. Qed.

Lemma str_app_nil_r (s : string) : s ++ "" = s.
Proof. induction s as [|c s IH]; [done|]. by rewrite str_app_cons, IH. Qed.

Lemma str_app_assoc (a b c : string) : (a ++ b) ++ c = a ++ b ++ c.
Proof. induction a as [|x a IH]; [done|]. by rewrite !str_app_cons, IH. Qed.

Lemma upper_lower_char c :
  PyStr.upper_char (PyStr.lower_char c) = PyStr.upper_char c.
Proof. destruct c as [[] [] [] [] [] [] [] []]; reflexivity. Qed.

Lemma upper_lower s : PyStr.upper (PyStr.lower s) = PyStr.upper s.
Proof.
  induction s as [|c s IH]; [done|].
  unfold PyStr.upper, PyStr.lower in *. simpl.
  by rewrite upper_lower_char, IH.
Qed.

Lemma lower_band_prefix t :
  PyStr.lower ("band" ++ t) = "band" ++ PyStr.lower t.
Proof. reflexivity. Qed.

Lemma partition_band_prefix t :
  PyStr.partition "band" ("band" ++ t) = ("", "band", t).
Proof. reflexivity. Qed.

Lemma occurs_in_refl s : occurs_in s s.
Proof. exists "", "". by rewrite str_app_nil_l, str_app_nil_r. Qed.

Lemma occurs_in_app_l sub a b : occurs_in sub a → occurs_in sub (a ++ b).
Proof.
  intros (pre & post & ->). exists pre, (post ++ b).
  by rewrite !str_app_assoc.
Qed.

Lemma occurs_in_app_r sub a b : occurs_in sub b → occurs_in sub (a ++ b).
Proof.
  intros (pre & post & ->). exists (a ++ pre), post.
  by rewrite !str_app_assoc.
Qed.

Lemma occurs_in_join sep (l : list string) x :
  x ∈ l → occurs_in x (PyStr.join sep l).
Proof.
  induction l as [|a l IH]; [by intros ?%elem_of_nil|].
  intros [->|Hx]%elem_of_cons.
  - destruct l; simpl; [apply occurs_in_refl|].
    apply occurs_in_app_l, occurs_in_refl.
  - destruct l as [|b l]; [by apply elem_of_nil in Hx|].
    change (PyStr.join sep (a :: b :: l))
      with (a ++ sep ++ PyStr.join sep (b :: l)).
    by apply occurs_in_app_r, occurs_in_app_r, IH.
Qed.

Lemma contains_false (l : list string) x :
  PyStr.contains l x = false ↔ x ∉ l.
Proof.
  unfold PyStr.contains. induction l as [|a l IH]; simpl.
  - split; [intros _; apply not_elem_of_nil|done].
  - rewrite orb_false_iff, IH, not_elem_of_cons, String.eqb_neq. tauto.
Qed.

Lemma contains_true (l : list string) x :
  PyStr.contains l x = true ↔ x ∈ l.
Proof.
  destruct (PyStr.contains l x) eqn:E.
  - split; [intros _|done]. destruct (decide (x ∈ l)) as [|Hn]; [done|].
    apply contains_false in Hn. congruence.
  - apply contains_false in E. split; [done|]. intros. contradiction.
Qed.

Lemma last_char_app a b : b ≠ "" → last_char (a ++ b) = last_char b.
Proof.
  intros Hb. induction a as [|c a IH]; [done|].
  rewrite str_app_cons. simpl. rewrite IH. destruct (a ++ b) eqn:E; [|done].
  destruct a; [by rewrite str_app_nil_l in E|by rewrite str_app_cons in E].
Qed.

End StringLemmas.

(** ** Band access on a scene *)

Section SceneAccess.
Context `{Numeric} `{!Landsatutils} `{!Numpy} `{!PyObject}.

(** C6.  An attribute access [band<X>] whose label, read without regard
    to case, is not among the scene's permissible bands raises the
    module's error and changes nothing; the message names the
    spacecraft, the label, and every permissible label. *)
Theorem unsupported_band_raises (r : ref) (s : Landsatscene) (st : state) (X : string) :
  heap st !! r = Some (OScene s) →
  PyStr.upper X ∉ permissiblebands s →
  let msg := Landsatscene_.unsupported_band_msg s (PyStr.upper X) in
  Landsatscene_.__getattr__ r ("band" ++ X) st = (Raise (PygaarstRasterError msg), st)
  ∧ occurs_in (scene_spacecraft s) msg
  ∧ occurs_in (PyStr.upper X) msg
  ∧ ∀ label, label ∈ permissiblebands s → occurs_in label msg.
Proof.
  intros Hs HX msg. split_and!.
  - unfold Landsatscene_.__getattr__.
    rewrite (bind_Return _ _ _ _ _ (get_scene_eq _ _ _ Hs)).
    rewrite lower_band_prefix, partition_band_prefix, upper_lower.
    apply contains_false in HX.
    unfold bind, try_except. simpl. by rewrite HX.
  - apply occurs_in_app_r, occurs_in_app_l, occurs_in_refl.
  - do 3 apply occurs_in_app_r. apply occurs_in_app_l, occurs_in_refl.
  - intros label Hl. do 5 apply occurs_in_app_r.
    by apply occurs_in_app_l, occurs_in_join.
Qed.

End SceneAccess.

(** ** What each primitive leaves alone *)

Section Frames.
Context `{Numeric}.

Lemma subscript_state m g k st :
  snd (subscript m g k st) = add_lookup st g k.
Proof. unfold subscript. by repeat case_match. Qed.

Lemma subscript_found (m : gmap string (gmap string value)) g k grp v st :
  m !! g = Some grp → grp !! k = Some v →
  subscript (Some m) g k st = (Return v, add_lookup st g k).
Proof. intros E1 E2. unfold subscript. by rewrite E1, E2. Qed.

Lemma logging_lookups l m : stable same_lookups (logging l m).
Proof. by intros st. Qed.

Lemma alloc_lookups o : stable same_lookups (alloc o).
Proof. by intros st. Qed.

Lemma update_band_lookups r f : stable same_lookups (update_band r f).
Proof. intros st. unfold update_band. by repeat case_match. Qed.

Lemma update_scene_lookups r f : stable same_lookups (update_scene r f).
Proof. intros st. unfold update_scene. by repeat case_match. Qed.

Lemma GeoTIFF_init_lookups path : stable same_lookups (GeoTIFF_.__init__ path).
Proof.
  apply stable_bind; [|intros; apply stable_ret].
  apply stable_try_except; [apply stable_reads|].
  intros e. apply stable_bind; [apply logging_lookups|intros; apply stable_raise].
Qed.

Lemma Landsatband_init_lookups path b sc :
  stable same_lookups (Landsatband_.__init__ path b sc).
Proof.
  unfold Landsatband_.__init__.
  apply stable_bind.
  { destruct sc; [|apply stable_ret].
    apply stable_bind; [apply stable_get_scene|intros; apply stable_ret]. }
  intros m. apply stable_bind.
  { case_match; [apply logging_lookups|apply stable_ret]. }
  intros _. apply stable_bind; [apply GeoTIFF_init_lookups|].
  intros g. apply alloc_lookups.
Qed.

Lemma subscript_no_new g g' k m :
  g ≠ g' → stable (no_new_lookup g) (subscript m g' k).
Proof.
  intros Hne st key. rewrite subscript_state. simpl.
  intros [E|Hin]%elem_of_cons; [congruence|done].
Qed.

Lemma logging_log l m : stable log_extends (logging l m).
Proof. intros st. by exists [LogRec l m]. Qed.

Lemma lift_fs_log f : stable log_extends (lift_fs f).
Proof.
  intros st. unfold lift_fs. case_match; simpl; [reflexivity|].
  exists []. simpl. by rewrite app_nil_r.
Qed.

Lemma update_band_constants r r' f :
  (∀ b, k1 (f b) = k1 b ∧ k2 (f b) = k2 b) →
  stable (keeps_constants r) (update_band r' f).
Proof.
  intros Hf st b Hb. unfold update_band.
  destruct (heap st !! r') as [[| b' |]|] eqn:E; simpl; eauto.
  destruct (decide (r' = r)) as [->|Hne].
  - rewrite lookup_insert_eq. simplify_eq. exists (f b).
    by destruct (Hf b).
  - rewrite lookup_insert_ne by done. eauto.
Qed.

Lemma logging_constants r l m : stable (keeps_constants r) (logging l m).
Proof. intros st b Hb. simpl. eauto. Qed.

Lemma subscript_constants r m g k : stable (keeps_constants r) (subscript m g k).
Proof. intros st b Hb. rewrite subscript_state. simpl. eauto. Qed.

End Frames.

(** ** Resolution of a band's file *)

Section Resolution.
Context `{Numeric} `{!Landsatutils} `{!Numpy} `{!PyObject}.

(** After the label has been accepted, the only metadata key
    [__getattr__] reads is the band's file name key. *)
Lemma getattr_reads_keyname (r : ref) (s : Landsatscene) (st : state) (X : string) :
  heap st !! r = Some (OScene s) →
  PyStr.upper X ∈ permissiblebands s →
  lookups (snd (Landsatscene_.__getattr__ r ("band" ++ X) st))
  = ("PRODUCT_METADATA",
     Landsatscene_.keyname (scene_newmetaformat s) (PyStr.upper X)) :: lookups st.
Proof.
  intros Hs HX. unfold Landsatscene_.__getattr__.
  rewrite (bind_Return _ _ _ _ _ (get_scene_eq _ _ _ Hs)).
  rewrite lower_band_prefix, partition_band_prefix, upper_lower.
  apply contains_true in HX.
  unfold bind at 1. unfold try_except. simpl. rewrite HX. simpl.
  unfold bind at 1.
  pose proof (subscript_state (Some (scene_meta s)) "PRODUCT_METADATA"
    (Landsatscene_.keyname (scene_newmetaformat s) (PyStr.upper X)) st) as Hst.
  destruct (subscript _ _ _ st) as [[e|v] st1]; simpl in Hst; subst st1; [done|].
  match goal with |- lookups (snd (?c ?st0)) = _ =>
    assert (stable same_lookups c) as Hc end.
  { apply stable_bind.
    { unfold Landsatscene_.as_path. case_match; [apply stable_ret|apply stable_raise]. }
    intros fn. apply stable_bind; [apply Landsatband_init_lookups|].
    intros b. apply stable_bind; [apply update_scene_lookups|].
    intros _. apply stable_bind; [apply stable_get_scene|].
    intros s'. case_match; [apply stable_ret|apply stable_raise]. }
  by rewrite (Hc _).
Qed.

(** C1 (as amended).  For band label "6L" the file name is looked up
    under [FILE_NAME_BAND_6_VCID_1] with new-format metadata and under
    [BAND61_FILE_NAME] with legacy metadata; for "6H" the keys are
    [FILE_NAME_BAND_6_VCID_2] and [BAND62_FILE_NAME].  The dual-gain
    token follows the band number in the key. *)
Theorem thermal_band_file_keys (r : ref) (s : Landsatscene) (st : state) :
  heap st !! r = Some (OScene s) →
  ("6L" ∈ permissiblebands s →
   lookups (snd (Landsatscene_.__getattr__ r "band6L" st))
   = ("PRODUCT_METADATA",
      if scene_newmetaformat s then "FILE_NAME_BAND_6_VCID_1"
      else "BAND61_FILE_NAME") :: lookups st)
  ∧ ("6H" ∈ permissiblebands s →
     lookups (snd (Landsatscene_.__getattr__ r "band6H" st))
     = ("PRODUCT_METADATA",
        if scene_newmetaformat s then "FILE_NAME_BAND_6_VCID_2"
        else "BAND62_FILE_NAME") :: lookups st).
Proof.
  intros Hs. split; intros Hp.
  - change "band6L" with ("band" ++ "6L").
    rewrite (getattr_reads_keyname r s st "6L" Hs Hp).
    by destruct (scene_newmetaformat s).
  - change "band6H" with ("band" ++ "6H").
    rewrite (getattr_reads_keyname r s st "6H" Hs Hp).
    by destruct (scene_newmetaformat s).
Qed.

(** Construction of a Band of scene [r] over a file that is on disk. *)
Lemma Landsatband_init_eq (path label : string) (r : ref) (s : Landsatscene)
    (d : Dataset) (st : state) :
  heap st !! r = Some (OScene s) →
  files (fs st) !! path = Some d →
  ∃ st',
    Landsatband_.__init__ path (Some label) (Some r) st
    = (Return (fresh (dom (heap st))), st')
    ∧ heap st'
      = <[fresh (dom (heap st)) := OBand (constructed_band r s label path d)]> (heap st)
    ∧ fs st' = fs st
    ∧ lookups st' = lookups st.
Proof.
  intros Hs Hf.
  unfold Landsatband_.__init__, GeoTIFF_.__init__, get_scene,
    try_except, reads, gets, logging, alloc, ret, GDAL.Open, bind.
  simpl. rewrite Hs. simpl.
  destruct (bool_decide (scene_meta s = ∅)); simpl; rewrite Hf; simpl;
    eexists; (split; [reflexivity|done]).
Qed.

(** One access of a permissible band whose file is on disk: a new Band
    is constructed at an unused reference and stored under the label,
    whatever the mapping held before. *)
Lemma getattr_constructs (r : ref) (s : Landsatscene) (st : state) (X fn : string)
    (grp : gmap string value) (d : Dataset) :
  heap st !! r = Some (OScene s) →
  PyStr.upper X ∈ permissiblebands s →
  scene_meta s !! "PRODUCT_METADATA" = Some grp →
  grp !! Landsatscene_.keyname (scene_newmetaformat s) (PyStr.upper X) = Some (VStr fn) →
  files (fs st) !! Landsatscene_.bandpath s fn = Some d →
  ∃ st',
    let b := fresh (dom (heap st)) in
    Landsatscene_.__getattr__ r ("band" ++ X) st = (Return b, st')
    ∧ heap st !! b = None
    ∧ heap st' !! b
      = Some (OBand (constructed_band r s (PyStr.upper X) (Landsatscene_.bandpath s fn) d))
    ∧ heap st' !! r
      = Some (OScene (set_bands (<[PyStr.upper X := b]> (bands s)) s))
    ∧ fs st' = fs st
    ∧ lookups st'
      = ("PRODUCT_METADATA",
         Landsatscene_.keyname (scene_newmetaformat s) (PyStr.upper X)) :: lookups st.
Proof.
  intros Hs HX Hg Hk Hf.
  assert (heap st !! fresh (dom (heap st)) = None) as Hfresh.
  { apply not_elem_of_dom, is_fresh. }
  assert (fresh (dom (heap st)) ≠ r) as Hne.
  { intros E. rewrite E in Hfresh. congruence. }
  set (st0 := add_lookup st "PRODUCT_METADATA"
                (Landsatscene_.keyname (scene_newmetaformat s) (PyStr.upper X))).
  destruct (Landsatband_init_eq (Landsatscene_.bandpath s fn) (PyStr.upper X)
              r s d st0 Hs Hf) as (st1 & Einit & Hheap & Hfs & Hlk).
  simpl in Einit, Hheap, Hfs, Hlk.
  assert (heap st1 !! r = Some (OScene s)) as Hs1.
  { rewrite Hheap, lookup_insert_ne by done. exact Hs. }
  eexists. cbv zeta. split.
  - unfold Landsatscene_.__getattr__.
    rewrite (bind_Return _ _ _ _ _ (get_scene_eq _ _ _ Hs)).
    rewrite lower_band_prefix, partition_band_prefix, upper_lower.
    apply contains_true in HX.
    unfold bind at 1. unfold try_except. simpl. rewrite HX. simpl.
    rewrite (bind_Return _ _ _ _ _ (subscript_found _ _ _ _ _ _ Hg Hk)).
    unfold Landsatscene_.as_path.
    unfold bind at 1. simpl. fold st0.
    rewrite (bind_Return _ _ _ _ _ Einit).
    unfold update_scene, bind at 1. rewrite Hs1.
    unfold get_scene, gets, bind. simpl.
    rewrite !lookup_insert_eq. simpl. rewrite lookup_insert_eq. reflexivity.
  - simpl. rewrite lookup_insert_eq.
    rewrite lookup_insert_ne, Hheap, lookup_insert_eq by done.
    by rewrite Hfs, Hlk.
Qed.

(** C2 (as amended).  Every access of a permissible band whose file is
    on disk reads the file-name key, constructs a new Band and stores it
    under the label, replacing the Band of an earlier access: two
    accesses in a row return two different Band objects, each over the
    same file, and the mapping ends up holding the second. *)
Theorem band_access_constructs_anew (r : ref) (s : Landsatscene) (st : state)
    (X fn : string) (grp : gmap string value) (d : Dataset) :
  heap st !! r = Some (OScene s) →
  PyStr.upper X ∈ permissiblebands s →
  scene_meta s !! "PRODUCT_METADATA" = Some grp →
  grp !! Landsatscene_.keyname (scene_newmetaformat s) (PyStr.upper X) = Some (VStr fn) →
  files (fs st) !! Landsatscene_.bandpath s fn = Some d →
  let key := ("PRODUCT_METADATA",
              Landsatscene_.keyname (scene_newmetaformat s) (PyStr.upper X)) in
  let o := constructed_band r s (PyStr.upper X) (Landsatscene_.bandpath s fn) d in
  ∃ b1 st1 s1 b2 st2 s2,
    Landsatscene_.__getattr__ r ("band" ++ X) st = (Return b1, st1)
    ∧ heap st !! b1 = None
    ∧ heap st1 !! b1 = Some (OBand o)
    ∧ heap st1 !! r = Some (OScene s1) ∧ bands s1 !! PyStr.upper X = Some b1
    ∧ Landsatscene_.__getattr__ r ("band" ++ X) st1 = (Return b2, st2)
    ∧ b2 ≠ b1
    ∧ heap st1 !! b2 = None
    ∧ heap st2 !! b2 = Some (OBand o)
    ∧ heap st2 !! r = Some (OScene s2) ∧ bands s2 !! PyStr.upper X = Some b2
    ∧ lookups st2 = key :: key :: lookups st.
Proof.
  intros Hs HX Hg Hk Hf key o.
  destruct (getattr_constructs r s st X fn grp d Hs HX Hg Hk Hf)
    as (st1 & E1 & Hfresh1 & Hb1 & Hs1 & Hfs1 & Hlk1).
  cbv zeta in *.
  set (b1 := fresh (dom (heap st))) in *.
  set (s1 := set_bands (<[PyStr.upper X := b1]> (bands s)) s) in *.
  assert (files (fs st1) !! Landsatscene_.bandpath s1 fn = Some d) as Hf1.
  { rewrite Hfs1. exact Hf. }
  destruct (getattr_constructs r s1 st1 X fn grp d Hs1 HX Hg Hk Hf1)
    as (st2 & E2 & Hfresh2 & Hb2 & Hs2 & Hfs2 & Hlk2).
  cbv zeta in *.
  set (b2 := fresh (dom (heap st1))) in *.
  exists b1, st1, s1, b2, st2,
    (set_bands (<[PyStr.upper X := b2]> (bands s1)) s1).
  split_and!; try done.
  - subst s1. simpl. by rewrite lookup_insert_eq.
  - intros E. rewrite E in Hfresh2. congruence.
  - simpl. by rewrite lookup_insert_eq.
  - rewrite Hlk2, Hlk1. reflexivity.
Qed.

End Resolution.

(** ** Band properties *)

Section BandLemmas.
Context `{Numeric} `{!Landsatutils} `{!Numpy}.

Lemma update_band_eq r b f st :
  heap st !! r = Some (OBand b) →
  update_band r f st = (Return tt, set_heap st (<[r := OBand (f b)]> (heap st))).
Proof. intros E. unfold update_band. by rewrite E. Qed.

(** A band of a scene reads the spacecraft from the scene. *)
Lemma spacecraft_scene_eq b rs s st :
  scene b = Some rs → heap st !! rs = Some (OScene s) →
  Landsatband_.spacecraft b st = (Return (Some (VStr (scene_spacecraft s))), st).
Proof.
  intros Hb Hs. unfold Landsatband_.spacecraft, try_except, band_scene.
  rewrite Hb. unfold bind. by rewrite (get_scene_eq _ _ _ Hs).
Qed.

(** A standalone band reads it from its own metadata. *)
Lemma spacecraft_standalone_eq b (m : gmap string (gmap string value)) pm v st :
  scene b = None → meta b = Some m →
  m !! "PRODUCT_METADATA" = Some pm → pm !! "SPACECRAFT_ID" = Some v →
  Landsatband_.spacecraft b st
  = (Return (Some v), add_lookup st "PRODUCT_METADATA" "SPACECRAFT_ID").
Proof.
  intros Hb Hm Hpm Hv. unfold Landsatband_.spacecraft, try_except, band_scene.
  rewrite Hb, Hm. unfold bind, raise, subscript. simpl.
  by rewrite Hpm, Hv.
Qed.

Lemma read_k_eq name f r b v st :
  heap st !! r = Some (OBand b) → f b = Some v →
  Landsatband_.read_k name f r st = (Return v, st).
Proof.
  intros Hb Hv. unfold Landsatband_.read_k.
  rewrite (bind_Return _ _ _ _ _ (get_band_eq _ _ _ Hb)). by rewrite Hv.
Qed.

Lemma is_str_VStr s t : is_str (Some (VStr s)) t = String.eqb s t.
Proof. reflexivity. Qed.

Section BandStable.
Context {R : state → state → Prop} `{!PreOrder R}.
Hypothesis Hlog : ∀ l m, stable R (logging l m).
Hypothesis Hsub : ∀ m g k, g ≠ "TIRS_THERMAL_CONSTANTS" → stable R (subscript m g k).
Hypothesis Hgain : ∀ r v, stable R (update_band r (set_gain v)).
Hypothesis Hbias : ∀ r v, stable R (update_band r (set_bias v)).

Lemma stable_spacecraft b : stable R (Landsatband_.spacecraft b).
Proof.
  apply stable_try_except.
  { apply stable_bind; [apply stable_band_scene|intros; apply stable_ret]. }
  intros _. apply stable_try_except.
  { apply stable_bind; [by apply Hsub|intros; apply stable_ret]. }
  intros _. apply stable_bind; [apply Hlog|intros; apply stable_ret].
Qed.

Lemma stable_newmetaformat b : stable R (Landsatband_.newmetaformat b).
Proof.
  apply stable_try_except.
  { apply stable_bind; [apply stable_band_scene|intros; apply stable_ret]. }
  intros _. apply stable_try_except.
  { apply stable_bind; [by apply Hsub|intros; apply stable_ret]. }
  intros e. case_match.
  - apply stable_bind; [by apply Hsub|intros; apply stable_ret].
  - apply stable_bind; [apply Hlog|intros; apply stable_ret].
Qed.

Lemma stable_minmax_radiance b a1 a2 a3 a4 :
  stable R (Landsatband_.minmax_radiance b a1 a2 a3 a4).
Proof.
  unfold Landsatband_.minmax_radiance.
  repeat (apply stable_bind; [by apply Hsub|intros ?]).
  apply stable_bind; [apply stable_lift|intros; apply stable_lift].
Qed.

Lemma stable_radiance r : stable R (Landsatband_.radiance r).
Proof.
  unfold Landsatband_.radiance.
  apply stable_bind; [apply stable_get_band|intros self].
  case_match; [apply stable_raise|].
  apply stable_bind; [apply stable_spacecraft|intros sc].
  case_match.
  - apply stable_bind; [by apply Hsub|intros g].
    apply stable_bind; [apply Hgain|intros _].
    apply stable_bind; [by apply Hsub|intros b].
    apply stable_bind; [apply Hbias|intros _].
    apply stable_lift.
  - apply stable_bind; [apply stable_newmetaformat|intros nmf].
    case_match;
      (apply stable_bind; [apply stable_band_str|intros ?]);
      apply stable_minmax_radiance.
Qed.

Lemma stable_read_k name f r : stable R (Landsatband_.read_k name f r).
Proof.
  apply stable_bind; [apply stable_get_band|intros self].
  case_match; [apply stable_ret|apply stable_raise].
Qed.

(** What [tKelvin] does once the constants are in place. *)
Lemma stable_tKelvin_tail r :
  stable R (rad <- Landsatband_.radiance r ;;
            v1 <- Landsatband_.read_k "k1" k1 r ;;
            v2 <- Landsatband_.read_k "k2" k2 r ;;
            res <- lift (rad2kelvin rad v1 v2) ;;
            ret (Some res)).
Proof.
  apply stable_bind; [apply stable_radiance|intros rad].
  apply stable_bind; [apply stable_read_k|intros v1].
  apply stable_bind; [apply stable_read_k|intros v2].
  apply stable_bind; [apply stable_lift|intros; apply stable_ret].
Qed.

End BandStable.

Lemma radiance_no_thermal_lookup r :
  stable (no_new_lookup "TIRS_THERMAL_CONSTANTS") (Landsatband_.radiance r).
Proof.
  apply stable_radiance.
  - intros. apply same_lookups_no_new, logging_lookups.
  - intros. by apply subscript_no_new.
  - intros. apply same_lookups_no_new, update_band_lookups.
  - intros. apply same_lookups_no_new, update_band_lookups.
Qed.

Lemma tKelvin_tail_no_thermal_lookup r :
  stable (no_new_lookup "TIRS_THERMAL_CONSTANTS")
    (rad <- Landsatband_.radiance r ;;
     v1 <- Landsatband_.read_k "k1" k1 r ;;
     v2 <- Landsatband_.read_k "k2" k2 r ;;
     res <- lift (rad2kelvin rad v1 v2) ;;
     ret (Some res)).
Proof.
  apply stable_tKelvin_tail.
  - intros. apply same_lookups_no_new, logging_lookups.
  - intros. by apply subscript_no_new.
  - intros. apply same_lookups_no_new, update_band_lookups.
  - intros. apply same_lookups_no_new, update_band_lookups.
Qed.

Lemma radiance_keeps_constants r r' :
  stable (keeps_constants r) (Landsatband_.radiance r').
Proof.
  apply stable_radiance.
  - intros. apply logging_constants.
  - intros. apply subscript_constants.
  - intros. by apply update_band_constants.
  - intros. by apply update_band_constants.
Qed.

End BandLemmas.

(** ** Brightness temperature *)

Section Temperature.
Context `{Numeric} `{!Landsatutils} `{!Numpy}.

Lemma not_thermal_scene_eq b rs s st :
  scene b = Some rs → heap st !! rs = Some (OScene s) →
  Landsatband_.not_thermal b st
  = if String.eqb (scene_spacecraft s) "L8"
    then (Return (negb (bool_decide (band b ∈ [Some "10"; Some "11"]))), st)
    else match band b with
         | Some label => (Return (negb (PyStr.startswith "6" label)), st)
         | None => (Raise (AttributeError
                      "'NoneType' object has no attribute 'startswith'"), st)
         end.
Proof.
  intros Hb Hs. unfold Landsatband_.not_thermal.
  rewrite (bind_Return _ _ _ _ _ (spacecraft_scene_eq _ _ _ _ Hb Hs)).
  rewrite is_str_VStr.
  destruct (String.eqb (scene_spacecraft s) "L8") eqn:E8; simpl.
  - destruct (bool_decide (band b ∈ [Some "10"; Some "11"])); simpl; [|done].
    rewrite (bind_Return _ _ _ _ _ (spacecraft_scene_eq _ _ _ _ Hb Hs)).
    by rewrite is_str_VStr, E8.
  - rewrite (bind_Return _ _ _ _ _ (spacecraft_scene_eq _ _ _ _ Hb Hs)).
    rewrite is_str_VStr, E8. simpl.
    by destruct (band b).
Qed.

(** C7.  For a Band of a scene whose label is not thermal (on L8 a label
    other than "10" and "11", on any other spacecraft a label that does
    not start with "6"), [tKelvin] returns [None] and its only effect is
    one warning in the log. *)
Theorem tKelvin_non_thermal_is_absent (r rs : ref) (b : Landsatband)
    (s : Landsatscene) (label : string) (st : state) :
  heap st !! r = Some (OBand b) →
  scene b = Some rs →
  heap st !! rs = Some (OScene s) →
  band b = Some label →
  (if String.eqb (scene_spacecraft s) "L8" then label ∉ ["10"; "11"]
   else PyStr.startswith "6" label = false) →
  Landsatband_.tKelvin r st
  = (Return None, add_log st (LogRec WARNING Landsatband_.tKelvin_warning)).
Proof.
  intros Hr Hb Hs Hl Hnt. unfold Landsatband_.tKelvin.
  rewrite (bind_Return _ _ _ _ _ (get_band_eq _ _ _ Hr)).
  rewrite Hb. simpl.
  unfold bind at 1. rewrite (not_thermal_scene_eq _ _ _ _ Hb Hs), Hl.
  destruct (String.eqb (scene_spacecraft s) "L8").
  - rewrite bool_decide_eq_false_2; [done|].
    intros Hin. apply Hnt.
    change [Some "10"; Some "11"] with (Some <$> ["10"; "11"]) in Hin.
    by apply (list_elem_of_fmap_inj_2 Some) in Hin.
  - by rewrite Hnt.
Qed.

(** C10.  A Band without a scene: [tKelvin] raises the module's error
    and changes nothing, whatever metadata the Band carries; with
    metadata assigned to it that names the spacecraft "L8" and holds the
    band's coefficients, the same Band computes [radiance] and
    [reflectance]. *)
Theorem standalone_band_has_no_temperature (r : ref) (b : Landsatband) (st : state) :
  heap st !! r = Some (OBand b) →
  scene b = None →
  Landsatband_.tKelvin r st
  = (Raise (PygaarstRasterError Landsatband_.radiance_error), st)
  ∧ ∀ (m : gmap string (gmap string value)) (pm resc : gmap string value),
      meta b = Some m →
      m !! "PRODUCT_METADATA" = Some pm →
      pm !! "SPACECRAFT_ID" = Some (VStr "L8") →
      m !! "RADIOMETRIC_RESCALING" = Some resc →
      (∀ mult add rad,
         resc !! ("RADIANCE_MULT_BAND_" ++ fmt_band (band b)) = Some mult →
         resc !! ("RADIANCE_ADD_BAND_" ++ fmt_band (band b)) = Some add →
         dn2rad (Landsatband_.data b) mult add = Return rad →
         fst (Landsatband_.radiance r st) = Return rad)
      ∧ (∀ mult add ia sedeg raw refl,
           resc !! ("REFLECTANCE_MULT_BAND_" ++ fmt_band (band b)) = Some mult →
           resc !! ("REFLECTANCE_ADD_BAND_" ++ fmt_band (band b)) = Some add →
           m !! "IMAGE_ATTRIBUTES" = Some ia →
           ia !! "SUN_ELEVATION" = Some sedeg →
           dn2rad (Landsatband_.data b) mult add = Return raw →
           sun_normalise raw sedeg = Return refl →
           fst (Landsatband_.reflectance r st) = Return (Some refl)).
Proof.
  intros Hr Hb. split.
  - unfold Landsatband_.tKelvin.
    rewrite (bind_Return _ _ _ _ _ (get_band_eq _ _ _ Hr)).
    by rewrite Hb.
  - intros m pm resc Hm Hpm Hid Hresc.
    assert (meta_truthy (meta b) = true) as Htruthy.
    { rewrite Hm. simpl. rewrite bool_decide_eq_false_2; [done|].
      intros ->. by rewrite lookup_empty in Hpm. }
    split.
    + intros mult add rad Hmult Hadd Hrad. unfold Landsatband_.radiance.
      rewrite (bind_Return _ _ _ _ _ (get_band_eq _ _ _ Hr)).
      rewrite Htruthy. simpl.
      rewrite (bind_Return _ _ _ _ _
                 (spacecraft_standalone_eq _ _ _ _ _ Hb Hm Hpm Hid)).
      simpl. rewrite Hm.
      rewrite (bind_Return _ _ _ _ _ (subscript_found _ _ _ _ _ _ Hresc Hmult)).
      erewrite bind_Return; [|by apply update_band_eq].
      rewrite (bind_Return _ _ _ _ _ (subscript_found _ _ _ _ _ _ Hresc Hadd)).
      erewrite bind_Return;
        [|apply update_band_eq; simpl; apply lookup_insert_eq].
      unfold lift. simpl. exact Hrad.
    + intros mult add ia sedeg raw refl Hmult Hadd Hia Hse Hraw Hrefl.
      unfold Landsatband_.reflectance.
      rewrite (bind_Return _ _ _ _ _ (get_band_eq _ _ _ Hr)).
      rewrite Htruthy. simpl.
      rewrite (bind_Return _ _ _ _ _
                 (spacecraft_standalone_eq _ _ _ _ _ Hb Hm Hpm Hid)).
      simpl. rewrite Hm.
      rewrite (bind_Return _ _ _ _ _ (subscript_found _ _ _ _ _ _ Hresc Hmult)).
      erewrite bind_Return; [|by apply update_band_eq].
      rewrite (bind_Return _ _ _ _ _ (subscript_found _ _ _ _ _ _ Hresc Hadd)).
      erewrite bind_Return;
        [|apply update_band_eq; simpl; apply lookup_insert_eq].
      rewrite (bind_Return _ _ _ _ _ (subscript_found _ _ _ _ _ _ Hia Hse)).
      unfold bind, lift. simpl. rewrite Hraw, Hrefl. reflexivity.
Qed.

(** C8.  For a Band of an L4, L5 or L7 scene whose label starts with
    "6", [tKelvin] takes K1 and K2 from [getKconstants] applied to the
    spacecraft identifier, stores them on the Band, and is the radiance
    converted with these two constants.  Whatever the Band of a scene,
    [tKelvin] reads a key of the group [TIRS_THERMAL_CONSTANTS] only
    when the spacecraft is "L8" and the label is "10" or "11". *)
Theorem thermal_constants_source (r rs : ref) (b : Landsatband)
    (s : Landsatscene) (st : state) :
  heap st !! r = Some (OBand b) →
  scene b = Some rs →
  heap st !! rs = Some (OScene s) →
  (∀ label c1 c2,
     scene_spacecraft s ∈ ["L4"; "L5"; "L7"] →
     band b = Some label →
     PyStr.startswith "6" label = true →
     getKconstants (Some (VStr (scene_spacecraft s))) = Return (c1, c2) →
     Landsatband_.tKelvin r st
     = (rad <- Landsatband_.radiance r ;;
        res <- lift (rad2kelvin rad c1 c2) ;;
        ret (Some res))
         (set_heap st (<[r := OBand (set_k2 c2 (set_k1 c1 b))]> (heap st))))
  ∧ (∀ key,
       ("TIRS_THERMAL_CONSTANTS", key) ∈ lookups (snd (Landsatband_.tKelvin r st)) →
       ("TIRS_THERMAL_CONSTANTS", key) ∉ lookups st →
       scene_spacecraft s = "L8" ∧ band b ∈ [Some "10"; Some "11"]).
Proof.
  intros Hr Hb Hs.
  pose proof (spacecraft_scene_eq b rs s) as Hsc.
  split.
  - intros label c1 c2 Hin Hl H6 Hk.
    assert (String.eqb (scene_spacecraft s) "L8" = false
            ∧ (String.eqb (scene_spacecraft s) "L4"
               || String.eqb (scene_spacecraft s) "L5"
               || String.eqb (scene_spacecraft s) "L7") = true) as [E8 Ein].
    { repeat (apply elem_of_cons in Hin as [E|Hin];
                [rewrite E; split; reflexivity|]).
      by apply elem_of_nil in Hin. }
    unfold Landsatband_.tKelvin.
    rewrite (bind_Return _ _ _ _ _ (get_band_eq _ _ _ Hr)).
    rewrite Hb. simpl.
    unfold bind at 1. rewrite (not_thermal_scene_eq _ _ _ _ Hb Hs), Hl, E8, H6.
    simpl.
    unfold bind at 1.
    rewrite (bind_Return _ _ _ _ _ (Hsc st Hb Hs)), is_str_VStr, E8.
    rewrite (bind_Return _ _ _ _ _ (Hsc st Hb Hs)), !is_str_VStr, Ein.
    rewrite (bind_Return _ _ _ _ _ (Hsc st Hb Hs)).
    unfold bind at 1. unfold lift at 1. rewrite Hk. simpl.
    erewrite bind_Return; [|by apply update_band_eq].
    erewrite update_band_eq; [|simpl; apply lookup_insert_eq].
    simpl. rewrite insert_insert_eq.
    apply bind_ext_at. intros rad st2 Hrad.
    match type of Hrad with
    | _ ?s0 = _ =>
        pose proof (radiance_keeps_constants r r s0 (set_k2 c2 (set_k1 c1 b)))
          as Hkeep
    end.
    rewrite Hrad in Hkeep.
    destruct Hkeep as (b2 & Hb2 & E1 & E2).
    { simpl. apply lookup_insert_eq. }
    simpl in Hb2, E1, E2.
    rewrite (bind_Return _ _ _ _ _ (read_k_eq "k1" k1 _ _ _ _ Hb2 E1)).
    by rewrite (bind_Return _ _ _ _ _ (read_k_eq "k2" k2 _ _ _ _ Hb2 E2)).
  - intros key Hin Hnot.
    destruct (String.eqb (scene_spacecraft s) "L8") eqn:E8;
      [destruct (bool_decide (band b ∈ [Some "10"; Some "11"])) eqn:Eb|].
    + apply String.eqb_eq in E8. by apply bool_decide_eq_true in Eb.
    + exfalso. apply Hnot. revert Hin.
      unfold Landsatband_.tKelvin.
      rewrite (bind_Return _ _ _ _ _ (get_band_eq _ _ _ Hr)).
      rewrite Hb. simpl.
      unfold bind at 1. rewrite (not_thermal_scene_eq _ _ _ _ Hb Hs), E8, Eb.
      simpl. done.
    + exfalso. apply Hnot. revert Hin.
      unfold Landsatband_.tKelvin.
      rewrite (bind_Return _ _ _ _ _ (get_band_eq _ _ _ Hr)).
      rewrite Hb. simpl.
      unfold bind at 1. rewrite (not_thermal_scene_eq _ _ _ _ Hb Hs), E8.
      destruct (band b) as [label|]; [|done].
      destruct (PyStr.startswith "6" label); simpl; [|done].
      unfold bind at 1. unfold bind at 1.
      rewrite (Hsc st Hb Hs), is_str_VStr, E8.
      rewrite (bind_Return _ _ _ _ _ (Hsc st Hb Hs)), !is_str_VStr.
      destruct (String.eqb (scene_spacecraft s) "L4"
                || String.eqb (scene_spacecraft s) "L5"
                || String.eqb (scene_spacecraft s) "L7").
      * rewrite (bind_Return _ _ _ _ _ (Hsc st Hb Hs)).
        unfold bind at 1. unfold lift at 1.
        destruct (getKconstants _) as [e|[c1 c2]]; [done|]. simpl.
        erewrite bind_Return; [|by apply update_band_eq].
        erewrite update_band_eq; [|simpl; apply lookup_insert_eq].
        intros Hin.
        by apply (tKelvin_tail_no_thermal_lookup r _ key) in Hin.
      * simpl. intros Hin.
        by apply (tKelvin_tail_no_thermal_lookup r _ key) in Hin.
Qed.

End Temperature.

(** ** Normalized-difference indices *)

Section Indices.
Context `{Numeric} `{!Landsatutils} `{!Numpy} `{!PyObject}.

Lemma normalized_index_failure (r : ref) (l1 l2 name : string) (st : state) :
  surfaces_failure (Landsatscene_.normalized_index r (l1, l2) name)
    (Landsatscene_.band_data r l1) (Landsatscene_.band_data r l2)
    (Landsatscene_.index_error_msg l1 l2 name) st.
Proof.
  split.
  - intros e st1 E1. unfold Landsatscene_.normalized_index, try_except.
    rewrite (bind_Raise _ _ _ _ _ E1).
    by destruct (is_AttributeError e).
  - intros a1 st1 e st2 E1 E2.
    unfold Landsatscene_.normalized_index, try_except.
    rewrite (bind_Return _ _ _ _ _ E1), (bind_Raise _ _ _ _ _ E2).
    by destruct (is_AttributeError e).
Qed.

(** C9 (as amended).  When one of the two band reads of NDVI or NBR
    fails, the index fails with the same exception and returns nothing;
    the CRITICAL record naming the two labels is written exactly when
    the exception is an [AttributeError].  Every other exception, the
    error for an unsupported label included, passes through without a
    record. *)
Theorem index_failure_propagates (r : ref) (s : Landsatscene) (st : state) :
  heap st !! r = Some (OScene s) →
  (∀ l1 l2, NDVI_BANDS !! scene_spacecraft s = Some (l1, l2) →
     surfaces_failure (Landsatscene_.NDVI r)
       (Landsatscene_.band_data r l1) (Landsatscene_.band_data r l2)
       (Landsatscene_.index_error_msg l1 l2 "NDVI") st)
  ∧ (∀ l1 l2, NBR_BANDS !! scene_spacecraft s = Some (l1, l2) →
       surfaces_failure (Landsatscene_.NBR r)
         (Landsatscene_.band_data r l1) (Landsatscene_.band_data r l2)
         (Landsatscene_.index_error_msg l1 l2 "NBR") st).
Proof.
  intros Hs. split; intros l1 l2 Ht.
  - assert (Landsatscene_.NDVI r st
            = Landsatscene_.normalized_index r (l1, l2) "NDVI" st) as E.
    { unfold Landsatscene_.NDVI.
      rewrite (bind_Return _ _ _ _ _ (get_scene_eq _ _ _ Hs)).
      unfold Landsatscene_.table_lookup. by rewrite Ht. }
    unfold surfaces_failure. rewrite E. apply normalized_index_failure.
  - assert (Landsatscene_.NBR r st
            = Landsatscene_.normalized_index r (l1, l2) "NBR" st) as E.
    { unfold Landsatscene_.NBR.
      rewrite (bind_Return _ _ _ _ _ (get_scene_eq _ _ _ Hs)).
      unfold Landsatscene_.table_lookup. by rewrite Ht. }
    unfold surfaces_failure. rewrite E. apply normalized_index_failure.
Qed.

End Indices.

(** ** Cloning a raster *)

Section Clone.
Context `{Numeric}.

Lemma unsupported_dtype_lookup (name : string) :
  name ∉ supported_dtypes → GeoTIFF_.NPDTYPE2GDALTYPECODE !! name = None.
Proof.
  intros Hn. unfold GeoTIFF_.NPDTYPE2GDALTYPECODE.
  by apply not_elem_of_list_to_map_1.
Qed.

Lemma dims_branch (newdata : ndarray) :
  (2 ≤ ndim newdata)%nat →
  ((ndim newdata =? 2)%nat = true)
  ∨ ((ndim newdata =? 2)%nat = false ∧ (2 <? ndim newdata)%nat = true).
Proof.
  intros Hd. destruct (ndim newdata =? 2)%nat eqn:E; [by left|right].
  split; [done|]. apply Nat.eqb_neq in E. apply Nat.ltb_lt. lia.
Qed.

(** C5.  When the destination's directory passes, the shape is one
    [clone] accepts for a 2-D or 3-D array, and the element type is not
    in the supported list, [clone] raises the module's error with the
    message that quotes the type name; the file system and the object
    store are as before, so no file has been created. *)
Theorem clone_unsupported_dtype (self : GeoTIFF) (newpath : string)
    (newdata : ndarray) (st : state) :
  directory_accepted (fs st) newpath →
  shape_accepted self newdata →
  (2 ≤ ndim newdata)%nat →
  dtype newdata ∉ supported_dtypes →
  ∃ st',
    GeoTIFF_.clone self newpath newdata st
    = (Raise (PygaarstRasterError (GeoTIFF_.dtype_msg (dtype newdata))), st')
    ∧ fs st' = fs st
    ∧ heap st' = heap st
    ∧ occurs_in (dtype newdata) (GeoTIFF_.dtype_msg (dtype newdata)).
Proof.
  intros Hdir Hshape Hdims Hty.
  apply unsupported_dtype_lookup in Hty.
  unfold directory_accepted in Hdir. unfold GeoTIFF_.clone.
  destruct (OsPath.split newpath) as [dir fname]. simpl in Hdir.
  assert (∀ st0 : state, fs st0 = fs st →
    ((if negb (String.eqb dir "") then
        d <- gets (λ st, isdir (fs st) dir) ;;
        if negb d
        then raise (PygaarstRasterError (GeoTIFF_.invalid_directory_msg dir))
        else ret tt
      else ret tt) : M unit) st0 = (Return tt, st0)) as Hcheck.
  { intros st0 E0. destruct Hdir as [->|Hd]; [done|].
    destruct (String.eqb dir ""); [done|]. simpl.
    unfold bind, gets. simpl. by rewrite E0, Hd. }
  assert (∀ st0 : state,
    ((if negb (bool_decide (shape newdata = shape (GeoTIFF_.data self))) then
        first <- lift (shape_first (shape (GeoTIFF_.data self))) ;;
        if negb (bool_decide (shape newdata = first))
        then raise (PygaarstRasterError GeoTIFF_.shape_msg)
        else ret tt
      else ret tt) : M unit) st0 = (Return tt, st0)) as Hsh.
  { intros st0. destruct Hshape as [Es|Es].
    - by rewrite bool_decide_eq_true_2.
    - destruct (bool_decide (shape newdata = shape (GeoTIFF_.data self)));
        [done|]. cbn [negb].
      unfold bind, lift. rewrite Es.
      by rewrite bool_decide_eq_true_2. }
  assert (occurs_in (dtype newdata) (GeoTIFF_.dtype_msg (dtype newdata))) as Hocc.
  { unfold GeoTIFF_.dtype_msg. simpl.
    apply occurs_in_app_r, occurs_in_app_r, occurs_in_app_r.
    apply occurs_in_app_l, occurs_in_refl. }
  rewrite (bind_Return _ _ _ _ _ (Hcheck st eq_refl)).
  unfold bind at 1. unfold gets at 1. simpl.
  destruct (isdir (fs st) newpath).
  - exists (add_log st (LogRec WARNING GeoTIFF_.is_directory_msg)).
    split_and!; [|done..].
    unfold bind at 1. unfold logging at 1.
    rewrite (bind_Return _ _ _ _ _ (Hsh _)).
    destruct (dims_branch newdata Hdims) as [->|[-> ->]].
    all: erewrite bind_Return by reflexivity.
    all: by rewrite Hty.
  - exists st. split_and!; [|done..].
    unfold bind at 1. unfold ret at 1.
    rewrite (bind_Return _ _ _ _ _ (Hsh _)).
    destruct (dims_branch newdata Hdims) as [->|[-> ->]].
    all: erewrite bind_Return by reflexivity.
    all: by rewrite Hty.
Qed.

Lemma raises_only_lift {A} E (x : result A) :
  (∀ e, x = Raise e → E e) → raises_only E (lift x).
Proof. intros Hx st e. simpl. apply Hx. Qed.

Lemma raises_only_reads {A} E (f : state → result A) :
  (∀ st e, f st = Raise e → E e) → raises_only E (reads f).
Proof. intros Hf st e. simpl. apply Hf. Qed.

Lemma raises_only_logging E l m : raises_only E (logging l m).
Proof. intros st e. simpl. discriminate. Qed.

Lemma raises_only_lift_fs E f :
  (∀ x e, f x = Raise e → E e) → raises_only E (lift_fs f).
Proof.
  intros Hf st e. unfold lift_fs.
  destruct (f (fs st)) eqn:Ef; simpl; [|discriminate].
  intros [= <-]. by eapply Hf.
Qed.

Lemma raises_only_try_except {A} (E : exn → Prop) (body : M A) handles handler :
  raises_only E body → (∀ e, E e → raises_only E (handler e)) →
  raises_only E (try_except body handles handler).
Proof.
  intros Hb Hh st e. unfold try_except. specialize (Hb st).
  destruct (body st) as [[e'|a] st1]; simpl in *; [|discriminate].
  destruct (handles e').
  - apply Hh. by apply Hb.
  - intros [= <-]. by apply Hb.
Qed.

Lemma for_range_stable R `{!PreOrder R} start n body :
  (∀ i, stable R (body i)) → stable R (GeoTIFF_.for_range start n body).
Proof.
  intros Hb. revert start. induction n as [|n IH]; intros start; simpl.
  - apply stable_ret.
  - apply stable_bind; [apply Hb|intros _; apply IH].
Qed.

Lemma for_range_raises_only E start n body :
  (∀ i, raises_only E (body i)) → raises_only E (GeoTIFF_.for_range start n body).
Proof.
  intros Hb. revert start. induction n as [|n IH]; intros start; simpl.
  - apply raises_only_ret.
  - apply raises_only_bind; [apply Hb|intros _; apply IH].
Qed.

Lemma GeoTIFF_init_log path : stable log_extends (GeoTIFF_.__init__ path).
Proof.
  apply stable_bind; [|intros; apply stable_ret].
  apply stable_try_except; [apply stable_reads|].
  intros e. apply stable_bind; [apply logging_log|intros; apply stable_raise].
Qed.

Lemma GeoTIFF_init_raises path :
  raises_only other_than_destination (GeoTIFF_.__init__ path).
Proof.
  apply raises_only_bind; [|intros; apply raises_only_ret].
  apply raises_only_try_except.
  - apply raises_only_reads. intros st e. unfold GDAL.Open.
    case_match; [discriminate|]. by intros [= <-].
  - intros e He. apply raises_only_bind; [apply raises_only_logging|].
    intros _. by apply raises_only_raise.
Qed.

Lemma with_file_raises f path g e :
  (∀ d e, g d = Raise e → other_than_destination e) →
  GDAL.with_file f path g = Raise e → other_than_destination e.
Proof.
  intros Hg. unfold GDAL.with_file.
  destruct (files f !! path) as [d|]; [|by intros [= <-]].
  destruct (g d) eqn:Eg; [|discriminate]. intros [= <-]. by eapply Hg.
Qed.

Lemma shape_msg_last : last_char GeoTIFF_.shape_msg ≠ Some " "%char.
Proof. by vm_compute. Qed.

Lemma dims_msg_last n : last_char (GeoTIFF_.dims_msg n) ≠ Some " "%char.
Proof.
  unfold GeoTIFF_.dims_msg.
  by rewrite <- str_app_assoc, last_char_app.
Qed.

Lemma dtype_msg_last n : last_char (GeoTIFF_.dtype_msg n) ≠ Some " "%char.
Proof.
  unfold GeoTIFF_.dtype_msg, str_of_exn.
  by rewrite <- !str_app_assoc, last_char_app.
Qed.

Lemma invalid_directory_msg_last dir :
  last_char (GeoTIFF_.invalid_directory_msg dir) = Some " "%char.
Proof. unfold GeoTIFF_.invalid_directory_msg. by rewrite last_char_app. Qed.

Lemma other_than_destination_sound e :
  other_than_destination e → ¬ is_invalid_destination e.
Proof.
  intros He [dir ->]. simpl in He.
  by rewrite invalid_directory_msg_last in He.
Qed.

Ltac frame_step :=
  first
    [ progress cbv zeta
    | apply GeoTIFF_init_log
    | apply for_range_stable; [apply _|intros ?]
    | apply logging_log | apply lift_fs_log
    | apply stable_bind; [|intros ?]
    | apply stable_ret | apply stable_raise | apply stable_lift
    | apply stable_gets | apply stable_reads
    | case_match ].

Ltac raise_step :=
  first
    [ progress cbv zeta
    | apply GeoTIFF_init_raises
    | apply for_range_raises_only; intros ?
    | apply raises_only_logging
    | apply raises_only_bind; [|intros ?]
    | apply raises_only_ret | apply raises_only_gets
    | apply raises_only_raise; simpl;
      first [apply shape_msg_last | apply dims_msg_last | apply dtype_msg_last]
    | case_match ].

(** The part of [clone] after the two tests of the destination. *)
Lemma clone_rest_frame (self : GeoTIFF) (newpath : string) (newdata : ndarray)
    (rest : M GeoTIFF) :
  rest =
    ((if negb (bool_decide (shape newdata = shape (GeoTIFF_.data self))) then
        first <- lift (shape_first (shape (GeoTIFF_.data self))) ;;
        if negb (bool_decide (shape newdata = first))
        then raise (PygaarstRasterError GeoTIFF_.shape_msg)
        else ret tt
      else ret tt) ;;
     let dims := ndim newdata in
     bands <- (if (dims =? 2)%nat then ret 1%nat
               else if (2 <? dims)%nat then ret (hd 0%nat (shape newdata))
               else raise (PygaarstRasterError (GeoTIFF_.dims_msg dims))) ;;
     gdaltype <- match GeoTIFF_.NPDTYPE2GDALTYPECODE !! dtype newdata with
                 | Some code => ret code
                 | None => raise (PygaarstRasterError
                                    (GeoTIFF_.dtype_msg (dtype newdata)))
                 end ;;
     let proj := Projection (dataobj self) in
     let geotrans := _gtr self in
     lift_fs (λ f, GDAL.Create f newpath (ncol self) (nrow self) bands gdaltype) ;;
     lift_fs (λ f, GDAL.SetProjection f newpath proj) ;;
     lift_fs (λ f, GDAL.SetGeoTransform f newpath geotrans) ;;
     (if (dims =? 2)%nat then
        rb <- reads (λ st, GDAL.GetRasterBand (fs st) newpath 1) ;;
        lift_fs (λ f, GDAL.WriteArray f rb newdata)
      else
        GeoTIFF_.for_range 0 dims (λ idx,
          rb <- reads (λ st, GDAL.GetRasterBand (fs st) newpath (idx + 1)) ;;
          sub <- lift (slice_band newdata idx) ;;
          lift_fs (λ f, GDAL.WriteArray f rb sub))) ;;
     GeoTIFF_.__init__ newpath) →
  stable log_extends rest ∧ raises_only other_than_destination rest.
Proof.
  intros ->. split.
  - repeat frame_step.
  - repeat raise_step.
    all: try (apply raises_only_lift; intros e;
              unfold shape_first, slice_band; repeat case_match;
              try discriminate; by intros [= <-]).
    all: try (apply raises_only_reads; intros st e; unfold GDAL.GetRasterBand;
              repeat case_match; try discriminate; by intros [= <-]).
    all: apply raises_only_lift_fs; intros x e.
    all: try (unfold GDAL.Create; repeat case_match; try discriminate;
              by intros [= <-]).
    all: apply with_file_raises; intros d e'; repeat case_match;
      try discriminate; by intros [= <-].
Qed.

Lemma clone_directory_warned (self : GeoTIFF) (newpath : string)
    (newdata : ndarray) (st : state) :
  directory_accepted (fs st) newpath →
  isdir (fs st) newpath = true →
  ∃ rest : M GeoTIFF,
    GeoTIFF_.clone self newpath newdata st
    = rest (add_log st (LogRec WARNING GeoTIFF_.is_directory_msg))
    ∧ stable log_extends rest
    ∧ raises_only other_than_destination rest.
Proof.
  unfold directory_accepted, GeoTIFF_.clone.
  destruct (OsPath.split newpath) as [dir fname]. cbn [fst].
  intros Hdir Hd.
  assert (((if negb (String.eqb dir "") then
              d <- gets (λ st, isdir (fs st) dir) ;;
              if negb d
              then raise (PygaarstRasterError (GeoTIFF_.invalid_directory_msg dir))
              else ret tt
            else ret tt) : M unit) st = (Return tt, st)) as Hcheck.
  { destruct Hdir as [->|Hd']; [done|].
    destruct (String.eqb dir ""); [done|]. cbn [negb].
    unfold bind, gets. cbn [fst snd]. by rewrite Hd'. }
  rewrite (bind_Return _ _ _ _ _ Hcheck).
  unfold bind at 1. unfold gets at 1. rewrite Hd.
  unfold bind at 1. unfold logging at 1.
  eexists. split; [reflexivity|].
  by apply (clone_rest_frame self newpath newdata).
Qed.

(** C4 (as amended).  When the directory part of the destination is not
    empty and is not an existing directory, [clone] raises the module's
    error about the directory and changes nothing.  When the directory
    part passes and the destination itself is an existing directory,
    [clone] records a warning and goes on: whatever it raises afterwards
    is not the error about the destination. *)
Theorem clone_destination_checks (self : GeoTIFF) (newpath : string)
    (newdata : ndarray) (st : state) :
  (fst (OsPath.split newpath) ≠ "" →
   isdir (fs st) (fst (OsPath.split newpath)) = false →
   GeoTIFF_.clone self newpath newdata st
   = (Raise (PygaarstRasterError
               (GeoTIFF_.invalid_directory_msg (fst (OsPath.split newpath)))), st))
  ∧ (directory_accepted (fs st) newpath →
     isdir (fs st) newpath = true →
     log_extends (add_log st (LogRec WARNING GeoTIFF_.is_directory_msg))
       (snd (GeoTIFF_.clone self newpath newdata st))
     ∧ ∀ e, fst (GeoTIFF_.clone self newpath newdata st) = Raise e →
            ¬ is_invalid_destination e).
Proof.
  split.
  - unfold GeoTIFF_.clone.
    destruct (OsPath.split newpath) as [dir fname]. cbn [fst].
    intros Hne Hd. apply String.eqb_neq in Hne. rewrite Hne. cbn [negb].
    unfold bind, gets. cbn [fst snd]. by rewrite Hd.
  - intros Hdir Hd.
    destruct (clone_directory_warned self newpath newdata st Hdir Hd)
      as (rest & -> & Hlog & Hraise).
    split; [apply Hlog|].
    intros e He. apply other_than_destination_sound. by eapply Hraise.
Qed.

End Clone.

(** * Concrete runs *)

Import Fixture.

(** ** String and path helpers on sample inputs *)

Example partition_band6l :
  PyStr.partition "band" (PyStr.lower "band6L") = ("", "band", "6l").
Proof. reflexivity. Qed.

Example partition_absent :
  PyStr.partition "band" (PyStr.lower "NDVI") = ("ndvi", "", "").
Proof. reflexivity. Qed.

Example split_examples :
  OsPath.split "/tmp/out/new.tif" = ("/tmp/out", "new.tif")
  ∧ OsPath.split "new.tif" = ("", "new.tif")
  ∧ OsPath.split "/new.tif" = ("/", "new.tif")
  ∧ OsPath.split "out//" = ("out", "").
Proof. repeat split; reflexivity. Qed.

Example splitext_examples :
  OsPath.splitext "LE7_B61.TIF" = ("LE7_B61", ".TIF")
  ∧ OsPath.splitext "dir.d/.hidden" = ("dir.d/.hidden", "")
  ∧ OsPath.splitext "noext" = ("noext", "").
Proof. repeat split; reflexivity. Qed.

Example join_examples :
  OsPath.join "scene" "b.TIF" = "scene/b.TIF"
  ∧ OsPath.join "scene/" "b.TIF" = "scene/b.TIF"
  ∧ OsPath.join "scene" "/abs/b.TIF" = "/abs/b.TIF".
Proof. repeat split; reflexivity. Qed.

Example keyname_examples :
  Landsatscene_.keyname true "6L" = "FILE_NAME_BAND_6_VCID_1"
  ∧ Landsatscene_.keyname true "6H" = "FILE_NAME_BAND_6_VCID_2"
  ∧ Landsatscene_.keyname false "6L" = "BAND61_FILE_NAME"
  ∧ Landsatscene_.keyname false "6H" = "BAND62_FILE_NAME"
  ∧ Landsatscene_.keyname true "10" = "FILE_NAME_BAND_10"
  ∧ Landsatscene_.keyname false "4" = "BAND4_FILE_NAME".
Proof. repeat split; reflexivity. Qed.

(** ** Band file keys *)

(** C1, as stated, fails.  On a Landsat 7 scene with new-format metadata
    that files band 6L under [FILE_NAME_BAND__VCID_1], the access of
    [band6L] reads [FILE_NAME_BAND_6_VCID_1] and ends in a [KeyError]; on
    the legacy scene it reads [BAND61_FILE_NAME], not [BAND1_FILE_NAME]
    (the key of band 1), and opens the file of band 6L. *)
Lemma thermal_band_file_keys_counterexample :
  let new := Landsatscene_.__getattr__ 0 "band6L" (world {[ 0%nat := OScene scene7new ]}) in
  let old := (b <- Landsatscene_.__getattr__ 0 "band6L" ;; get_band b)
               (world {[ 0%nat := OScene scene7 ]}) in
  fst new = Raise (KeyError "FILE_NAME_BAND_6_VCID_1")
  ∧ lookups (snd new) ≠ [("PRODUCT_METADATA", "FILE_NAME_BAND__VCID_1")]
  ∧ lookups (snd old) ≠ [("PRODUCT_METADATA", "BAND1_FILE_NAME")]
  ∧ (filepath ∘ geotiff <$> match fst old with Return b => Some b | Raise _ => None end)
    = Some "scene7/L7_B61.TIF".
Proof. vm_compute. split_and!; [reflexivity|discriminate|discriminate|reflexivity]. Qed.

Lemma thermal_band_file_keys_witness :
  lookups (snd (Landsatscene_.__getattr__ 0 "band6L" (world {[ 0%nat := OScene scene7 ]})))
  = [("PRODUCT_METADATA", "BAND61_FILE_NAME")]
  ∧ lookups (snd (Landsatscene_.__getattr__ 0 "band6H" (world {[ 0%nat := OScene scene7 ]})))
    = [("PRODUCT_METADATA", "BAND62_FILE_NAME")]
  ∧ lookups (snd (Landsatscene_.__getattr__ 0 "band6L" (world {[ 0%nat := OScene scene7new ]})))
    = [("PRODUCT_METADATA", "FILE_NAME_BAND_6_VCID_1")].
Proof.
  destruct (thermal_band_file_keys 0 scene7 (world {[ 0%nat := OScene scene7 ]}))
    as [HL HH]; [reflexivity|].
  destruct (thermal_band_file_keys 0 scene7new (world {[ 0%nat := OScene scene7new ]}))
    as [HLn _]; [reflexivity|].
  split_and!.
  - apply HL, contains_true. reflexivity.
  - apply HH, contains_true. reflexivity.
  - apply HLn, contains_true. reflexivity.
Defined.

(** ** Repeated band access *)

(** C2, as stated, fails.  Two accesses of [band6H] on the same scene
    return references 1 and 2: the second access reads the file-name key
    again and constructs a second Band, which replaces the first in the
    scene's mapping. *)
Lemma band_access_constructs_anew_counterexample :
  let run := (b1 <- Landsatscene_.__getattr__ 0 "band6H" ;;
              b2 <- Landsatscene_.__getattr__ 0 "band6H" ;;
              s <- get_scene 0 ;;
              ret (b1, b2, bands s !! "6H"))
               (world {[ 0%nat := OScene scene7 ]}) in
  fst run = Return (1%nat, 2%nat, Some 2%nat)
  ∧ lookups (snd run)
    = [("PRODUCT_METADATA", "BAND62_FILE_NAME"); ("PRODUCT_METADATA", "BAND62_FILE_NAME")]
  ∧ is_Some (heap (snd run) !! 1%nat) ∧ is_Some (heap (snd run) !! 2%nat).
Proof. vm_compute. split_and!; eauto. Qed.

Lemma band_access_constructs_anew_witness :
  ∃ b1 st1 b2 st2,
    Landsatscene_.__getattr__ 0 "band6H" (world {[ 0%nat := OScene scene7 ]})
    = (Return b1, st1)
    ∧ Landsatscene_.__getattr__ 0 "band6H" st1 = (Return b2, st2)
    ∧ b2 ≠ b1.
Proof.
  destruct (band_access_constructs_anew 0 scene7 (world {[ 0%nat := OScene scene7 ]})
              "6H" "L7_B62.TIF" product7 (raster1 [100; 200]%Z))
    as (b1 & st1 & s1 & b2 & st2 & s2 & E1 & _ & _ & _ & _ & E2 & Hne & _).
  - reflexivity.
  - apply contains_true. reflexivity.
  - vm_compute. reflexivity.
  - vm_compute. reflexivity.
  - vm_compute. reflexivity.
  - exists b1, st1, b2, st2. split_and!; assumption.
Defined.

(** ** Cloning *)

(** C3: the code at two inputs that pass every validation of [clone].
    The loop that writes the bands runs over [range(dims)], the number of
    dimensions, where the band count is meant.  With a 2-band array it
    asks the new file for band 3 and raises after both bands are written,
    so no accessor is returned; with a 4-band array it stops after band 3
    and the accessor it returns has a fourth band of zeros instead of
    [[17; 18]]. *)
Theorem clone_multiband_writes_three_bands :
  let st := world ∅ in
  let two_bands := new_pixels [2; 1; 2]%nat "uint8" [5; 6; 7; 8]%Z in
  let four_bands := new_pixels [4; 1; 2]%nat "uint8" [11; 12; 13; 14; 15; 16; 17; 18]%Z in
  directory_accepted (fs st) "out/new.tif"
  ∧ shape_accepted two two_bands ∧ shape_accepted four four_bands
  ∧ dtype two_bands ∈ supported_dtypes
  ∧ fst (GeoTIFF_.clone two "out/new.tif" two_bands st)
    = Raise (RuntimeError "Illegal band #3")
  ∧ (rasters <$> files (fs (snd (GeoTIFF_.clone two "out/new.tif" two_bands st)))
                   !! "out/new.tif")
    = Some [[5; 6]; [7; 8]]%Z
  ∧ (rasters ∘ dataobj <$>
       match fst (GeoTIFF_.clone four "out/new.tif" four_bands st) with
       | Return g => Some g
       | Raise _ => None
       end)
    = Some [[11; 12]; [13; 14]; [15; 16]; [0; 0]]%Z.
Proof.
  cbv zeta. split_and!.
  - right. vm_compute. reflexivity.
  - left. reflexivity.
  - left. reflexivity.
  - apply contains_true. reflexivity.
  - vm_compute. reflexivity.
  - vm_compute. reflexivity.
  - vm_compute. reflexivity.
Qed.

(** C4, as stated, fails for a destination that is an existing directory.
    With pixel data that passes the other validations, [clone] logs a
    warning and the failure comes from the driver; with pixel data of the
    wrong shape the error is the one about the shape.  In neither run is
    the error about the destination raised. *)
Lemma clone_destination_checks_counterexample :
  let good := GeoTIFF_.clone two "out" (new_pixels [1; 2]%nat "uint8" [5; 6]%Z) (world ∅) in
  let bad := GeoTIFF_.clone two "out" (new_pixels [3; 3]%nat "uint8" [5; 6]%Z) (world ∅) in
  isdir disk "out" = true
  ∧ fst good = Raise (RuntimeError "Attempt to create new tiff file `out' failed")
  ∧ log (snd good) = [LogRec WARNING GeoTIFF_.is_directory_msg]
  ∧ fst bad = Raise (PygaarstRasterError GeoTIFF_.shape_msg)
  ∧ log (snd bad) = [LogRec WARNING GeoTIFF_.is_directory_msg].
Proof. vm_compute. split_and!; reflexivity. Qed.

Lemma clone_destination_checks_witness :
  let px := new_pixels [1; 2]%nat "uint8" [5; 6]%Z in
  GeoTIFF_.clone two "missing/new.tif" px (world ∅)
  = (Raise (PygaarstRasterError (GeoTIFF_.invalid_directory_msg "missing")), world ∅)
  ∧ log_extends (add_log (world ∅) (LogRec WARNING GeoTIFF_.is_directory_msg))
      (snd (GeoTIFF_.clone two "out" px (world ∅)))
  ∧ ∀ e, fst (GeoTIFF_.clone two "out" px (world ∅)) = Raise e →
         ¬ is_invalid_destination e.
Proof.
  cbv zeta. split.
  - apply (clone_destination_checks two "missing/new.tif"
             (new_pixels [1; 2]%nat "uint8" [5; 6]%Z) (world ∅)).
    + vm_compute. discriminate.
    + vm_compute. reflexivity.
  - apply (clone_destination_checks two "out"
             (new_pixels [1; 2]%nat "uint8" [5; 6]%Z) (world ∅)).
    + left. vm_compute. reflexivity.
    + vm_compute. reflexivity.
Defined.

Lemma clone_unsupported_dtype_witness :
  let px := new_pixels [2; 1; 2]%nat "complex32" [5; 6; 7; 8]%Z in
  ∃ st',
    GeoTIFF_.clone two "out/new.tif" px (world ∅)
    = (Raise (PygaarstRasterError (GeoTIFF_.dtype_msg "complex32")), st')
    ∧ fs st' = disk.
Proof.
  cbv zeta.
  destruct (clone_unsupported_dtype two "out/new.tif"
              (new_pixels [2; 1; 2]%nat "complex32" [5; 6; 7; 8]%Z) (world ∅))
    as (st' & E & Hfs & _).
  - right. vm_compute. reflexivity.
  - left. reflexivity.
  - vm_compute. lia.
  - apply contains_false. reflexivity.
  - exists st'. split; assumption.
Defined.

(** ** Unsupported labels, temperature *)

Lemma unsupported_band_raises_witness :
  Landsatscene_.__getattr__ 0 "band99" (world {[ 0%nat := OScene scene8 ]})
  = (Raise (PygaarstRasterError
       "Spacecraft L8 does not have a band 99. Permissible band labels are 1, 2, 3, 4, 5, 6, 7, 8, 9, 10, 11."),
     world {[ 0%nat := OScene scene8 ]}).
Proof.
  apply (unsupported_band_raises 0 scene8 (world {[ 0%nat := OScene scene8 ]}) "99").
  - reflexivity.
  - apply contains_false. reflexivity.
Defined.

Lemma tKelvin_non_thermal_is_absent_witness :
  let st7 := world {[ 0%nat := OScene scene7; 1%nat := OBand band3 ]} in
  let st8 := world {[ 0%nat := OScene scene8; 1%nat := OBand band5 ]} in
  Landsatband_.tKelvin 1 st7
  = (Return None, add_log st7 (LogRec WARNING Landsatband_.tKelvin_warning))
  ∧ Landsatband_.tKelvin 1 st8
    = (Return None, add_log st8 (LogRec WARNING Landsatband_.tKelvin_warning)).
Proof.
  cbv zeta. split.
  - apply (tKelvin_non_thermal_is_absent 1 0 band3 scene7 "3").
    + vm_compute. reflexivity.
    + reflexivity.
    + vm_compute. reflexivity.
    + reflexivity.
    + vm_compute. reflexivity.
  - apply (tKelvin_non_thermal_is_absent 1 0 band5 scene8 "5").
    + vm_compute. reflexivity.
    + reflexivity.
    + vm_compute. reflexivity.
    + reflexivity.
    + apply contains_false. reflexivity.
Defined.

Lemma thermal_constants_source_witness :
  let st := world {[ 0%nat := OScene scene7; 1%nat := OBand band6H ]} in
  fst (Landsatband_.tKelvin 1 st)
  = Return (Some {| dtype := "float64"; shape := [1; 2]%nat; elems := [2851; 3751]%Z |})
  ∧ (k1 <$> match heap (snd (Landsatband_.tKelvin 1 st)) !! 1%nat with
            | Some (OBand b) => Some b
            | _ => None
            end) = Some (Some (VNum 666%Z))
  ∧ ∀ key, ("TIRS_THERMAL_CONSTANTS", key) ∉ lookups (snd (Landsatband_.tKelvin 1 st)).
Proof.
  cbv zeta.
  destruct (thermal_constants_source 1 0 band6H scene7
              (world {[ 0%nat := OScene scene7; 1%nat := OBand band6H ]}))
    as [Htable Honly].
  - vm_compute. reflexivity.
  - reflexivity.
  - vm_compute. reflexivity.
  - split_and!.
    + rewrite (Htable "6H" (VNum (H := Zsamples) 666%Z) (VNum (H := Zsamples) 1282%Z)).
      * vm_compute. reflexivity.
      * apply contains_true. reflexivity.
      * reflexivity.
      * reflexivity.
      * reflexivity.
    + rewrite (Htable "6H" (VNum (H := Zsamples) 666%Z) (VNum (H := Zsamples) 1282%Z)).
      * vm_compute. reflexivity.
      * apply contains_true. reflexivity.
      * reflexivity.
      * reflexivity.
      * reflexivity.
    + intros key Hin. destruct (Honly key Hin) as [E _].
      * vm_compute. apply not_elem_of_nil.
      * discriminate E.
Defined.

Lemma standalone_band_has_no_temperature_witness :
  let st := world {[ 1%nat := OBand standalone5 ]} in
  Landsatband_.tKelvin 1 st
  = (Raise (PygaarstRasterError Landsatband_.radiance_error), st)
  ∧ fst (Landsatband_.radiance 1 st)
    = Return {| dtype := "float64"; shape := [1; 2]%nat; elems := [21; 41]%Z |}
  ∧ fst (Landsatband_.reflectance 1 st)
    = Return (Some {| dtype := "float64"; shape := [1; 2]%nat; elems := [34; 64]%Z |}).
Proof.
  cbv zeta.
  destruct (standalone_band_has_no_temperature 1 standalone5
              (world {[ 1%nat := OBand standalone5 ]}))
    as [Hraise Hother].
  - vm_compute. reflexivity.
  - reflexivity.
  - destruct (Hother meta8 product8 rescaling8) as [Hrad Hrefl].
    + reflexivity.
    + vm_compute. reflexivity.
    + vm_compute. reflexivity.
    + vm_compute. reflexivity.
    + split_and!.
      * exact Hraise.
      * apply (Hrad (VNum (H := Zsamples) 2%Z) (VNum (H := Zsamples) 1%Z));
          vm_compute; reflexivity.
      * apply (Hrefl (VNum (H := Zsamples) 3%Z) (VNum (H := Zsamples) 4%Z)
                 attributes8 (VNum (H := Zsamples) 45%Z)
                 (new_pixels [1; 2]%nat "float64" [34; 64]%Z));
          vm_compute; reflexivity.
Defined.

(** ** Indices *)

(** C9, as stated, fails.  On an L8 scene whose band 4 file is missing,
    NDVI fails with the driver's [RuntimeError]; on an L8 scene object
    that does not permit band 5 it fails with the error for the
    unsupported label.  Neither run writes the CRITICAL record that names
    the two labels. *)
Lemma index_failure_propagates_counterexample :
  let missing := Landsatscene_.NDVI 0 (world {[ 0%nat := OScene scene8 ]}) in
  let unsupported := Landsatscene_.NDVI 0 (world {[ 0%nat := OScene scene8_no5 ]}) in
  fst missing = Raise (RuntimeError "scene8/LC8_B4.TIF: No such file or directory")
  ∧ Forall (λ rec, lvl rec ≠ CRITICAL) (log (snd missing))
  ∧ fst unsupported
    = Raise (PygaarstRasterError (Landsatscene_.unsupported_band_msg scene8_no5 "5"))
  ∧ log (snd unsupported) = [].
Proof.
  vm_compute. split_and!; [reflexivity| |reflexivity|reflexivity].
  repeat constructor. discriminate.
Qed.

Lemma index_failure_propagates_witness :
  let st := world {[ 0%nat := OScene scene8_no5 ]} in
  Landsatscene_.NDVI 0 st
  = (Raise (PygaarstRasterError (Landsatscene_.unsupported_band_msg scene8_no5 "5")), st)
  ∧ Landsatscene_.NBR 0 st
    = (Raise (PygaarstRasterError (Landsatscene_.unsupported_band_msg scene8_no5 "5")), st).
Proof.
  cbv zeta.
  destruct (index_failure_propagates 0 scene8_no5 (world {[ 0%nat := OScene scene8_no5 ]}))
    as [Hndvi Hnbr]; [reflexivity|].
  split.
  - destruct (Hndvi "band5" "band4") as [Hfirst _]; [vm_compute; reflexivity|].
    apply (Hfirst (PygaarstRasterError (Landsatscene_.unsupported_band_msg scene8_no5 "5"))).
    vm_compute. reflexivity.
  - destruct (Hnbr "band5" "band7") as [Hfirst _]; [vm_compute; reflexivity|].
    apply (Hfirst (PygaarstRasterError (Landsatscene_.unsupported_band_msg scene8_no5 "5"))).
    vm_compute. reflexivity.
Defined.

(** * Further properties *)

(** ** The driver over the in-memory file system *)

Section DriverLemmas.
Context `{Numeric}.



Lemma Open_put f p d : GDAL.Open (GDAL.put_file f p d) p = Return d.
Proof. unfold GDAL.Open. simpl. by rewrite lookup_insert_eq. Qed.



Lemma GeoTIFF_init_found path d st :
  files (fs st) !! path = Some d →
  GeoTIFF_.__init__ path st = (Return (accessor path d), st).
Proof.
  intros Hf. unfold GeoTIFF_.__init__, try_except, reads, bind, GDAL.Open.
  by rewrite Hf.
Qed.

Lemma GeoTIFF_init_missing path st :
  files (fs st) !! path = None →
  GeoTIFF_.__init__ path st
  = (Raise (RuntimeError (path ++ ": No such file or directory")),
     add_log st (LogRec ERROR ("Could not open " ++ path ++ ": "
                               ++ path ++ ": No such file or directory"))).
Proof.
  intros Hf. unfold GeoTIFF_.__init__, try_except, reads, bind, GDAL.Open.
  by rewrite Hf.
Qed.

(** The first test of [clone] lets an accepted destination through. *)
Lemma directory_check_passes (dir : string) (st : state) :
  dir = "" ∨ isdir (fs st) dir = true →
  ((if negb (String.eqb dir "") then
      d <- gets (λ st, isdir (fs st) dir) ;;
      if negb d
      then raise (PygaarstRasterError (GeoTIFF_.invalid_directory_msg dir))
      else ret tt
    else ret tt) : M unit) st = (Return tt, st).
Proof.
  intros [->|Hd]; [done|].
  destruct (String.eqb dir ""); [done|]. cbn [negb].
  unfold bind, gets. cbn [fst snd]. by rewrite Hd.
Qed.

(** The shape test of [clone] lets an accepted shape through. *)
Lemma shape_check_passes (self : GeoTIFF) (newdata : ndarray) (st : state) :
  shape_accepted self newdata →
  ((if negb (bool_decide (shape newdata = shape (GeoTIFF_.data self))) then
      first <- lift (shape_first (shape (GeoTIFF_.data self))) ;;
      if negb (bool_decide (shape newdata = first))
      then raise (PygaarstRasterError GeoTIFF_.shape_msg)
      else ret tt
    else ret tt) : M unit) st = (Return tt, st).
Proof.
  intros [Es|Es].
  - by rewrite bool_decide_eq_true_2.
  - destruct (bool_decide (shape newdata = shape (GeoTIFF_.data self)));
      [done|]. cbn [negb].
    unfold bind, lift. rewrite Es.
    by rewrite bool_decide_eq_true_2.
Qed.


End DriverLemmas.

(** ** Cloning: what succeeds, what else fails, what is left alone *)

Section CloneMore.
Context `{Numeric}.









(** A call whose destination directory passes is what follows the two
    tests of the destination, run from [after_destination]. *)
Lemma clone_after_destination (self : GeoTIFF) (newpath : string)
    (newdata : ndarray) (st : state) :
  directory_accepted (fs st) newpath →
  GeoTIFF_.clone self newpath newdata st
  = ((if negb (bool_decide (shape newdata = shape (GeoTIFF_.data self))) then
        first <- lift (shape_first (shape (GeoTIFF_.data self))) ;;
        if negb (bool_decide (shape newdata = first))
        then raise (PygaarstRasterError GeoTIFF_.shape_msg)
        else ret tt
      else ret tt) ;;
     let dims := ndim newdata in
     bands <- (if (dims =? 2)%nat then ret 1%nat
               else if (2 <? dims)%nat then ret (hd 0%nat (shape newdata))
               else raise (PygaarstRasterError (GeoTIFF_.dims_msg dims))) ;;
     gdaltype <- match GeoTIFF_.NPDTYPE2GDALTYPECODE !! dtype newdata with
                 | Some code => ret code
                 | None => raise (PygaarstRasterError
                                    (GeoTIFF_.dtype_msg (dtype newdata)))
                 end ;;
     let proj := Projection (dataobj self) in
     let geotrans := _gtr self in
     lift_fs (λ f, GDAL.Create f newpath (ncol self) (nrow self) bands gdaltype) ;;
     lift_fs (λ f, GDAL.SetProjection f newpath proj) ;;
     lift_fs (λ f, GDAL.SetGeoTransform f newpath geotrans) ;;
     (if (dims =? 2)%nat then
        rb <- reads (λ st, GDAL.GetRasterBand (fs st) newpath 1) ;;
        lift_fs (λ f, GDAL.WriteArray f rb newdata)
      else
        GeoTIFF_.for_range 0 dims (λ idx,
          rb <- reads (λ st, GDAL.GetRasterBand (fs st) newpath (idx + 1)) ;;
          sub <- lift (slice_band newdata idx) ;;
          lift_fs (λ f, GDAL.WriteArray f rb sub))) ;;
     GeoTIFF_.__init__ newpath) (after_destination newpath st).
Proof.
  unfold directory_accepted, GeoTIFF_.clone, after_destination.
  destruct (OsPath.split newpath) as [dir fname]. cbn [fst].
  intros Hdir.
  rewrite (bind_Return _ _ _ _ _ (directory_check_passes dir st Hdir)).
  unfold bind at 1. unfold gets at 1.
  destruct (isdir (fs st) newpath); reflexivity.
Qed.

Lemma after_destination_store newpath st :
  store_untouched st (after_destination newpath st).
Proof. unfold after_destination. by destruct (isdir (fs st) newpath). Qed.

(** X3.  When the destination directory passes and the new array has
    neither the shape of the source's data nor that of its first band,
    [clone] raises the module's error about the shape; the file system
    and the object store are as before. *)
Theorem clone_shape_mismatch (self : GeoTIFF) (newpath : string)
    (newdata : ndarray) (st : state) (first : list nat) :
  directory_accepted (fs st) newpath →
  shape newdata ≠ shape (GeoTIFF_.data self) →
  shape_first (shape (GeoTIFF_.data self)) = Return first →
  shape newdata ≠ first →
  ∃ st',
    GeoTIFF_.clone self newpath newdata st
    = (Raise (PygaarstRasterError GeoTIFF_.shape_msg), st')
    ∧ store_untouched st st'.
Proof.
  intros Hdir Hne Hfirst Hne'.
  exists (after_destination newpath st).
  split; [|apply after_destination_store].
  rewrite clone_after_destination by assumption.
  unfold bind at 1.
  rewrite bool_decide_eq_false_2 by assumption. cbn [negb].
  unfold bind at 1. unfold lift at 1. rewrite Hfirst.
  by rewrite bool_decide_eq_false_2.
Qed.

(** X4.  An array of fewer than two dimensions that passes the shape
    test (a single row of a single-band raster does) is turned down
    with the error that states its number of dimensions, before the
    element type is looked at and before anything is created. *)
Theorem clone_too_few_dimensions (self : GeoTIFF) (newpath : string)
    (newdata : ndarray) (st : state) :
  directory_accepted (fs st) newpath →
  shape_accepted self newdata →
  (ndim newdata < 2)%nat →
  ∃ st',
    GeoTIFF_.clone self newpath newdata st
    = (Raise (PygaarstRasterError (GeoTIFF_.dims_msg (ndim newdata))), st')
    ∧ store_untouched st st'.
Proof.
  intros Hdir Hshape Hd.
  exists (after_destination newpath st).
  split; [|apply after_destination_store].
  rewrite clone_after_destination by assumption.
  rewrite (bind_Return _ _ _ _ _ (shape_check_passes self newdata _ Hshape)).
  cbv zeta.
  assert ((ndim newdata =? 2)%nat = false) as -> by (apply Nat.eqb_neq; lia).
  assert ((2 <? ndim newdata)%nat = false) as -> by (apply Nat.ltb_ge; lia).
  reflexivity.
Qed.

Global Instance only_file_changed_preorder path : PreOrder (only_file_changed path).
Proof.
  split.
  - intros st. by split_and!.
  - intros x y z (H1 & H2 & H3 & H4) (H1' & H2' & H3' & H4').
    split_and!; [congruence..|]. intros p Hp. by rewrite H4', H4.
Qed.

Lemma logging_only_file path l m : stable (only_file_changed path) (logging l m).
Proof. intros st. by split_and!. Qed.

Lemma lift_fs_only_file path f :
  (∀ x y, f x = Return y →
     isdir y = isdir x ∧ ∀ p, p ≠ path → files y !! p = files x !! p) →
  stable (only_file_changed path) (lift_fs f).
Proof.
  intros Hf st. unfold lift_fs. destruct (f (fs st)) as [e|y] eqn:E.
  - reflexivity.
  - destruct (Hf _ _ E) as [Hd Hp]. by split_and!.
Qed.

Lemma put_file_only_file f path d :
  isdir (GDAL.put_file f path d) = isdir f
  ∧ ∀ p, p ≠ path → files (GDAL.put_file f path d) !! p = files f !! p.
Proof. split; [done|]. intros p Hp. cbn. by rewrite lookup_insert_ne. Qed.

Lemma with_file_only_file f path g y :
  GDAL.with_file f path g = Return y →
  isdir y = isdir f ∧ ∀ p, p ≠ path → files y !! p = files f !! p.
Proof.
  unfold GDAL.with_file. destruct (files f !! path); [|done].
  destruct (g d); [done|]. intros [= <-]. apply put_file_only_file.
Qed.

Lemma Create_only_file f path x y n code z :
  GDAL.Create f path x y n code = Return z →
  isdir z = isdir f ∧ ∀ p, p ≠ path → files z !! p = files f !! p.
Proof.
  unfold GDAL.Create. destruct (OsPath.split path).
  repeat case_match; try done. intros [= <-]. apply put_file_only_file.
Qed.

Lemma GetRasterBand_path f path i rb :
  GDAL.GetRasterBand f path i = Return rb → fst rb = path.
Proof.
  unfold GDAL.GetRasterBand. repeat case_match; try done. by intros [= <-].
Qed.

Lemma stable_bind_reads {A B} R `{!PreOrder R} (f : state → result A)
    (P : A → Prop) (k : A → M B) :
  (∀ st a, f st = Return a → P a) →
  (∀ a, P a → stable R (k a)) →
  stable R (bind (reads f) k).
Proof.
  intros Hf Hk st. unfold bind, reads.
  destruct (f st) as [e|a] eqn:E; [reflexivity|].
  apply Hk. by eapply Hf.
Qed.

Lemma GeoTIFF_init_only_file path path' :
  stable (only_file_changed path) (GeoTIFF_.__init__ path').
Proof.
  apply stable_bind; [|intros; apply stable_ret].
  apply stable_try_except; [apply stable_reads|].
  intros e. apply stable_bind; [apply logging_only_file|intros; apply stable_raise].
Qed.

Lemma write_only_file path (rb : string * nat) a :
  fst rb = path →
  stable (only_file_changed path) (lift_fs (λ f, GDAL.WriteArray f rb a)).
Proof.
  intros <-. apply lift_fs_only_file. intros x y.
  unfold GDAL.WriteArray. apply with_file_only_file.
Qed.

(** X5.  Whatever the arguments and however it ends, [clone] leaves the
    object store alone, does not change which paths are directories, and
    changes no file other than the one at the destination. *)
Theorem clone_touches_only_destination (self : GeoTIFF) (newpath : string)
    (newdata : ndarray) (st : state) :
  only_file_changed newpath st (snd (GeoTIFF_.clone self newpath newdata st)).
Proof.
  revert st. change (stable (only_file_changed newpath)
                       (GeoTIFF_.clone self newpath newdata)).
  unfold GeoTIFF_.clone. destruct (OsPath.split newpath) as [dir fname].
  apply stable_bind.
  { case_match; [|apply stable_ret].
    apply stable_bind; [apply stable_gets|intros d].
    case_match; [apply stable_raise|apply stable_ret]. }
  intros _. apply stable_bind; [apply stable_gets|intros d].
  apply stable_bind.
  { case_match; [apply logging_only_file|apply stable_ret]. }
  intros _. apply stable_bind.
  { case_match; [|apply stable_ret].
    apply stable_bind; [apply stable_lift|intros first].
    case_match; [apply stable_raise|apply stable_ret]. }
  intros _. cbv zeta. apply stable_bind.
  { repeat case_match; first [apply stable_ret|apply stable_raise]. }
  intros bands. apply stable_bind.
  { case_match; [apply stable_ret|apply stable_raise]. }
  intros code. apply stable_bind.
  { apply lift_fs_only_file. intros x y. apply Create_only_file. }
  intros _. apply stable_bind.
  { apply lift_fs_only_file. intros x y. apply with_file_only_file. }
  intros _. apply stable_bind.
  { apply lift_fs_only_file. intros x y. apply with_file_only_file. }
  intros _. apply stable_bind; [|intros _; apply GeoTIFF_init_only_file].
  case_match.
  - apply (stable_bind_reads _ _ (λ rb, fst rb = newpath)).
    + intros st rb. apply GetRasterBand_path.
    + intros rb Hrb. by apply write_only_file.
  - apply for_range_stable; [apply _|]. intros idx.
    apply (stable_bind_reads _ _ (λ rb, fst rb = newpath)).
    + intros st rb. apply GetRasterBand_path.
    + intros rb Hrb. apply stable_bind; [apply stable_lift|intros sub].
      by apply write_only_file.
Qed.

End CloneMore.

(** ** Attribute access on a scene: names, failures *)

Section AccessMore.
Context `{Numeric} `{!Landsatutils} `{!Numpy} `{!PyObject}.

Lemma partition_startswith sep s :
  PyStr.startswith sep s = true →
  PyStr.partition sep s = ("", sep, PyStr.drop (String.length sep) s).
Proof. intros E. destruct s; simpl; by rewrite E. Qed.



(** X6.  Band names are read without regard to case: two attribute names
    that agree after lower-casing and start with "band" give the same
    access, with the same result and the same effects. *)
Theorem band_names_ignore_case (r : ref) (n1 n2 : string) (st : state) :
  PyStr.lower n1 = PyStr.lower n2 →
  PyStr.startswith "band" (PyStr.lower n1) = true →
  Landsatscene_.__getattr__ r n1 st = Landsatscene_.__getattr__ r n2 st.
Proof.
  intros Hl Hb. unfold Landsatscene_.__getattr__.
  apply bind_ext_at. intros s st' _.
  rewrite <- Hl, (partition_startswith _ _ Hb).
  apply bind_ext_at. intros isband st'' Hc.
  assert (isband = true) as ->; [|reflexivity].
  revert Hc. unfold try_except. cbn [String.eqb].
  destruct (PyStr.contains _ _); cbn [ret raise]; [by intros [= <- _]|done].
Qed.


(** Construction of a Band of scene [r] over a file that is not on disk. *)
Lemma Landsatband_init_missing (path : string) (label : option string) (r : ref)
    (s : Landsatscene) (st : state) :
  heap st !! r = Some (OScene s) →
  files (fs st) !! path = None →
  ∃ st',
    Landsatband_.__init__ path label (Some r) st
    = (Raise (RuntimeError (path ++ ": No such file or directory")), st')
    ∧ store_untouched st st'
    ∧ lookups st' = lookups st
    ∧ last (log st')
      = Some (LogRec ERROR ("Could not open " ++ path ++ ": "
                            ++ path ++ ": No such file or directory")).
Proof.
  intros Hs Hf. unfold Landsatband_.__init__.
  erewrite bind_Return;
    [|erewrite bind_Return by (by apply get_scene_eq); reflexivity].
  destruct (negb (meta_truthy (Some (scene_meta s)))).
  - unfold bind at 1. unfold logging at 1.
    erewrite bind_Raise; [|by apply GeoTIFF_init_missing].
    eexists. split; [reflexivity|]. split_and!; try done.
    cbn. by rewrite last_snoc.
  - unfold bind at 1. unfold ret at 1.
    erewrite bind_Raise; [|by apply GeoTIFF_init_missing].
    eexists. split; [reflexivity|]. split_and!; try done.
    cbn. by rewrite last_snoc.
Qed.



(** X9.  For a permissible label whose file-name key is not in the
    metadata, the access raises [KeyError] with the key it looked for
    (the band number and dual-gain token included) and does nothing but
    note that lookup. *)
Theorem band_access_missing_key (r : ref) (s : Landsatscene) (st : state)
    (X : string) (grp : gmap string value) :
  heap st !! r = Some (OScene s) →
  PyStr.upper X ∈ permissiblebands s →
  scene_meta s !! "PRODUCT_METADATA" = Some grp →
  grp !! Landsatscene_.keyname (scene_newmetaformat s) (PyStr.upper X) = None →
  Landsatscene_.__getattr__ r ("band" ++ X) st
  = (Raise (KeyError (Landsatscene_.keyname (scene_newmetaformat s) (PyStr.upper X))),
     add_lookup st "PRODUCT_METADATA"
       (Landsatscene_.keyname (scene_newmetaformat s) (PyStr.upper X))).
Proof.
  intros Hs HX Hg Hk. unfold Landsatscene_.__getattr__.
  rewrite (bind_Return _ _ _ _ _ (get_scene_eq _ _ _ Hs)).
  rewrite lower_band_prefix, partition_band_prefix, upper_lower.
  apply contains_true in HX.
  unfold bind at 1. unfold try_except. cbn [String.eqb]. rewrite HX.
  cbn [ret]. unfold bind, subscript. by rewrite Hg, Hk.
Qed.

(** X10.  For a permissible label whose file is named in the metadata but
    is not on disk, the access raises the driver's [RuntimeError] for the
    path made of the scene directory, the name and the infix; the last
    log record is the ERROR that names the path; the object store and the
    file system are as before. *)
Theorem band_access_missing_file (r : ref) (s : Landsatscene) (st : state)
    (X fn : string) (grp : gmap string value) :
  heap st !! r = Some (OScene s) →
  PyStr.upper X ∈ permissiblebands s →
  scene_meta s !! "PRODUCT_METADATA" = Some grp →
  grp !! Landsatscene_.keyname (scene_newmetaformat s) (PyStr.upper X) = Some (VStr fn) →
  files (fs st) !! Landsatscene_.bandpath s fn = None →
  let path := Landsatscene_.bandpath s fn in
  ∃ st',
    Landsatscene_.__getattr__ r ("band" ++ X) st
    = (Raise (RuntimeError (path ++ ": No such file or directory")), st')
    ∧ store_untouched st st'
    ∧ last (log st')
      = Some (LogRec ERROR ("Could not open " ++ path ++ ": "
                            ++ path ++ ": No such file or directory")).
Proof.
  intros Hs HX Hg Hk Hf path.
  destruct (Landsatband_init_missing path (Some (PyStr.upper X)) r s
              (add_lookup st "PRODUCT_METADATA"
                 (Landsatscene_.keyname (scene_newmetaformat s) (PyStr.upper X)))
              Hs Hf) as (st2 & E2 & Hun & _ & Hlast).
  exists st2. split_and!; [|exact Hun|exact Hlast].
  unfold Landsatscene_.__getattr__.
  rewrite (bind_Return _ _ _ _ _ (get_scene_eq _ _ _ Hs)).
  rewrite lower_band_prefix, partition_band_prefix, upper_lower.
  apply contains_true in HX.
  unfold bind at 1. unfold try_except. cbn [String.eqb]. rewrite HX.
  cbn [ret].
  rewrite (bind_Return _ _ _ _ _ (subscript_found _ _ _ _ _ _ Hg Hk)).
  unfold bind at 1. cbn [Landsatscene_.as_path ret].
  by rewrite (bind_Raise _ _ _ _ _ E2).
Qed.

End AccessMore.

(** ** Bands: construction without a scene, the calibration branches *)

Section BandMore.
Context `{Numeric} `{!Landsatutils} `{!Numpy}.

(** X11.  A Band constructed without a scene over a file that is on disk
    never gets metadata from its constructor: it is stored with [meta]
    unset after one warning, and on that Band [radiance], [reflectance]
    and [tKelvin] each raise the module's error and change nothing. *)
Theorem standalone_band_starts_without_metadata (path : string)
    (label : option string) (d : Dataset) (st : state) :
  files (fs st) !! path = Some d →
  let b := fresh (dom (heap st)) in
  let st' := set_heap (add_log st (LogRec WARNING Landsatband_.init_warning))
               (<[b := OBand (standalone_band path label d)]> (heap st)) in
  Landsatband_.__init__ path label None st = (Return b, st')
  ∧ Landsatband_.radiance b st'
    = (Raise (PygaarstRasterError Landsatband_.radiance_error), st')
  ∧ Landsatband_.reflectance b st'
    = (Raise (PygaarstRasterError Landsatband_.reflectance_error), st')
  ∧ Landsatband_.tKelvin b st'
    = (Raise (PygaarstRasterError Landsatband_.radiance_error), st').
Proof.
  intros Hf b st'.
  assert (heap st' !! b = Some (OBand (standalone_band path label d))) as Hb.
  { subst st'. cbn. by rewrite lookup_insert_eq. }
  split_and!.
  - unfold Landsatband_.__init__.
    unfold bind at 1. unfold ret at 1. cbn [negb meta_truthy].
    unfold bind at 1. unfold logging at 1.
    erewrite bind_Return; [|by apply GeoTIFF_init_found].
    reflexivity.
  - unfold Landsatband_.radiance.
    by rewrite (bind_Return _ _ _ _ _ (get_band_eq _ _ _ Hb)).
  - unfold Landsatband_.reflectance.
    by rewrite (bind_Return _ _ _ _ _ (get_band_eq _ _ _ Hb)).
  - unfold Landsatband_.tKelvin.
    by rewrite (bind_Return _ _ _ _ _ (get_band_eq _ _ _ Hb)).
Qed.

(** X12.  For a Band of a scene whose spacecraft is none of "L8", "L5"
    and "L7" (an "L4" scene, say) and that has metadata, [reflectance]
    returns [None]: it neither raises nor warns, and changes nothing. *)
Theorem reflectance_other_spacecraft (r rs : ref) (b : Landsatband)
    (s : Landsatscene) (st : state) :
  heap st !! r = Some (OBand b) →
  scene b = Some rs →
  heap st !! rs = Some (OScene s) →
  meta_truthy (meta b) = true →
  scene_spacecraft s ∉ ["L8"; "L5"; "L7"] →
  Landsatband_.reflectance r st = (Return None, st).
Proof.
  intros Hr Hb Hs Hm Hsc. unfold Landsatband_.reflectance.
  rewrite (bind_Return _ _ _ _ _ (get_band_eq _ _ _ Hr)).
  rewrite Hm. cbn [negb].
  rewrite (bind_Return _ _ _ _ _ (spacecraft_scene_eq _ _ _ _ Hb Hs)).
  rewrite is_str_VStr.
  rewrite !not_elem_of_cons in Hsc. destruct Hsc as (H8 & H5 & H7 & _).
  apply String.eqb_neq in H8, H5, H7. rewrite H8.
  rewrite (bind_Return _ _ _ _ _ (spacecraft_scene_eq _ _ _ _ Hb Hs)).
  by rewrite !is_str_VStr, H5, H7.
Qed.

(** X13.  For a Band of an "L8" scene with label "10" or "11" whose
    metadata holds the two thermal constants of that band, [tKelvin]
    reads [K1_CONSTANT_BAND_<label>] and [K2_CONSTANT_BAND_<label>],
    stores them on the Band, and is the radiance converted with them. *)
Theorem tKelvin_L8_constants (r rs : ref) (b : Landsatband) (s : Landsatscene)
    (st : state) (label : string) (m : gmap string (gmap string value))
    (grp : gmap string value) (v1 v2 : value) :
  heap st !! r = Some (OBand b) →
  scene b = Some rs →
  heap st !! rs = Some (OScene s) →
  scene_spacecraft s = "L8" →
  band b = Some label →
  label ∈ ["10"; "11"] →
  meta b = Some m →
  m !! "TIRS_THERMAL_CONSTANTS" = Some grp →
  grp !! ("K1_CONSTANT_BAND_" ++ label) = Some v1 →
  grp !! ("K2_CONSTANT_BAND_" ++ label) = Some v2 →
  Landsatband_.tKelvin r st
  = (rad <- Landsatband_.radiance r ;;
     res <- lift (rad2kelvin rad v1 v2) ;;
     ret (Some res))
      (set_heap
         (add_lookup
            (add_lookup st "TIRS_THERMAL_CONSTANTS" ("K1_CONSTANT_BAND_" ++ label))
            "TIRS_THERMAL_CONSTANTS" ("K2_CONSTANT_BAND_" ++ label))
         (<[r := OBand (set_k2 v2 (set_k1 v1 b))]> (heap st))).
Proof.
  intros Hr Hb Hs H8 Hl Hin Hm Hg Hk1 Hk2.
  pose proof (spacecraft_scene_eq b rs s) as Hsc.
  assert (String.eqb (scene_spacecraft s) "L8" = true) as E8
    by (by apply String.eqb_eq).
  unfold Landsatband_.tKelvin.
  rewrite (bind_Return _ _ _ _ _ (get_band_eq _ _ _ Hr)).
  rewrite Hb. cbn [bool_decide decide_rel].
  rewrite bool_decide_eq_false_2 by done.
  unfold bind at 1. rewrite (not_thermal_scene_eq _ _ _ _ Hb Hs), E8, Hl.
  rewrite bool_decide_eq_true_2.
  2:{ change [Some "10"; Some "11"] with (Some <$> ["10"; "11"]).
      by apply list_elem_of_fmap_2. }
  cbn [negb].
  unfold bind at 1.
  rewrite (bind_Return _ _ _ _ _ (Hsc st Hb Hs)), is_str_VStr, E8.
  rewrite Hm. cbn [fmt_band].
  rewrite (bind_Return _ _ _ _ _ (subscript_found _ _ _ _ _ _ Hg Hk1)).
  erewrite bind_Return; [|by apply update_band_eq].
  rewrite (bind_Return _ _ _ _ _ (subscript_found _ _ _ _ _ _ Hg Hk2)).
  erewrite update_band_eq; [|cbn; apply lookup_insert_eq].
  cbn [heap set_heap add_lookup]. rewrite insert_insert_eq.
  apply bind_ext_at. intros rad st2 Hrad.
  match type of Hrad with
  | _ ?s0 = _ =>
      pose proof (radiance_keeps_constants r r s0 (set_k2 v2 (set_k1 v1 b)))
        as Hkeep
  end.
  rewrite Hrad in Hkeep.
  destruct Hkeep as (b2 & Hb2 & E1 & E2).
  { cbn. apply lookup_insert_eq. }
  cbn in Hb2, E1, E2.
  rewrite (bind_Return _ _ _ _ _ (read_k_eq "k1" k1 _ _ _ _ Hb2 E1)).
  by rewrite (bind_Return _ _ _ _ _ (read_k_eq "k2" k2 _ _ _ _ Hb2 E2)).
Qed.

(** X14.  For a Band of a scene that is not "L8", [radiance] reads the
    four keys of the Lmax/Lmin/QCALmax/QCALmin form, named after the
    scene's metadata generation with the dual-gain token in place, and is
    [dn2rad] of the pixel data with the gain and bias [gainbias] makes of
    them; unlike the "L8" branch it stores nothing on the Band. *)
Theorem radiance_min_max_form (r rs : ref) (b : Landsatband) (s : Landsatscene)
    (st : state) (label : string) (m : gmap string (gmap string value))
    (rg pg : gmap string value) (lmax lmin qmax qmin g bi : value) :
  heap st !! r = Some (OBand b) →
  scene b = Some rs →
  heap st !! rs = Some (OScene s) →
  scene_spacecraft s ≠ "L8" →
  band b = Some label →
  meta b = Some m →
  m !! "MIN_MAX_RADIANCE" = Some rg →
  m !! "MIN_MAX_PIXEL_VALUE" = Some pg →
  let '(klmax, klmin, kqmax, kqmin) := radiance_keys (scene_newmetaformat s) label in
  rg !! klmax = Some lmax → rg !! klmin = Some lmin →
  pg !! kqmax = Some qmax → pg !! kqmin = Some qmin →
  gainbias lmax lmin qmax qmin = Return (g, bi) →
  Landsatband_.radiance r st
  = (dn2rad (Landsatband_.data b) g bi,
     add_lookup (add_lookup (add_lookup (add_lookup st
       "MIN_MAX_RADIANCE" klmax) "MIN_MAX_RADIANCE" klmin)
       "MIN_MAX_PIXEL_VALUE" kqmax) "MIN_MAX_PIXEL_VALUE" kqmin).
Proof.
  intros Hr Hb Hs H8 Hl Hm Hrg Hpg.
  destruct (radiance_keys (scene_newmetaformat s) label)
    as [[[klmax klmin] kqmax] kqmin] eqn:Ekeys.
  intros Hk1 Hk2 Hk3 Hk4 Hgb.
  assert (meta_truthy (meta b) = true) as Htruthy.
  { rewrite Hm. cbn. rewrite bool_decide_eq_false_2; [done|].
    intros ->. by rewrite lookup_empty in Hrg. }
  apply String.eqb_neq in H8.
  assert (Landsatband_.newmetaformat b st
          = (Return (Some (scene_newmetaformat s)), st)) as Hnmf.
  { unfold Landsatband_.newmetaformat, try_except, band_scene.
    rewrite Hb. unfold bind. by rewrite (get_scene_eq _ _ _ Hs). }
  assert (∀ k1' k2' k3' k4',
    (klmax, klmin, kqmax, kqmin) = (k1', k2', k3', k4') →
    Landsatband_.minmax_radiance b k1' k2' k3' k4' st
    = (dn2rad (Landsatband_.data b) g bi,
       add_lookup (add_lookup (add_lookup (add_lookup st
         "MIN_MAX_RADIANCE" klmax) "MIN_MAX_RADIANCE" klmin)
         "MIN_MAX_PIXEL_VALUE" kqmax) "MIN_MAX_PIXEL_VALUE" kqmin)) as Hmm.
  { intros k1' k2' k3' k4' [= <- <- <- <-].
    unfold Landsatband_.minmax_radiance. rewrite Hm.
    rewrite (bind_Return _ _ _ _ _ (subscript_found _ _ _ _ _ _ Hrg Hk1)).
    rewrite (bind_Return _ _ _ _ _ (subscript_found _ _ _ _ _ _ Hrg Hk2)).
    rewrite (bind_Return _ _ _ _ _ (subscript_found _ _ _ _ _ _ Hpg Hk3)).
    rewrite (bind_Return _ _ _ _ _ (subscript_found _ _ _ _ _ _ Hpg Hk4)).
    unfold bind, lift. by rewrite Hgb. }
  unfold Landsatband_.radiance.
  rewrite (bind_Return _ _ _ _ _ (get_band_eq _ _ _ Hr)).
  rewrite Htruthy. cbn [negb].
  rewrite (bind_Return _ _ _ _ _ (spacecraft_scene_eq _ _ _ _ Hb Hs)).
  rewrite is_str_VStr, H8.
  rewrite (bind_Return _ _ _ _ _ Hnmf).
  rewrite Hl. unfold radiance_keys in Ekeys.
  destruct (scene_newmetaformat s).
  - rewrite bool_decide_eq_true_2 by done.
    unfold bind at 1. cbn [band_str ret]. by apply Hmm.
  - rewrite bool_decide_eq_false_2 by done.
    unfold bind at 1. cbn [band_str ret]. by apply Hmm.
Qed.

End BandMore.

(** ** Indices over two bands that are on disk *)

Section IndexMore.
Context `{Numeric} `{!Landsatutils} `{!Numpy} `{!PyObject}.

Lemma band_data_on_disk (r : ref) (s : Landsatscene) (st : state) (X : string)
    (d : Dataset) :
  heap st !! r = Some (OScene s) →
  band_on_disk s (fs st) X d →
  ∃ st' s',
    Landsatscene_.band_data r ("band" ++ X) st = (Return (GDAL.ReadAsArray d), st')
    ∧ heap st' !! r = Some (OScene s')
    ∧ fs st' = fs st
    ∧ scene_meta s' = scene_meta s
    ∧ scene_newmetaformat s' = scene_newmetaformat s
    ∧ permissiblebands s' = permissiblebands s
    ∧ dirname s' = dirname s ∧ infix s' = infix s.
Proof.
  intros Hs (HX & grp & fn & Hg & Hk & Hf).
  destruct (getattr_constructs r s st X fn grp d Hs HX Hg Hk Hf)
    as (st1 & E1 & _ & Hb1 & Hs1 & Hfs1 & _).
  cbv zeta in *. eexists st1, _. split_and!; [|exact Hs1|exact Hfs1|done..].
  unfold Landsatscene_.band_data.
  rewrite (bind_Return _ _ _ _ _ E1).
  unfold Landsatscene_.data_of, bind, gets. cbn [fst snd]. by rewrite Hb1.
Qed.

Lemma normalized_index_on_disk (r : ref) (s : Landsatscene) (st : state)
    (X1 X2 name : string) (d1 d2 : Dataset) :
  heap st !! r = Some (OScene s) →
  band_on_disk s (fs st) X1 d1 →
  band_on_disk s (fs st) X2 d2 →
  fst (Landsatscene_.normalized_index r ("band" ++ X1, "band" ++ X2) name st)
  = normdiff (GDAL.ReadAsArray d1) (GDAL.ReadAsArray d2).
Proof.
  intros Hs H1' H2'.
  destruct (band_data_on_disk r s st X1 d1 Hs H1')
    as (st1 & s1 & E1 & Hs1 & Hfs1 & Em & En & Ep & Ed & Ei).
  assert (band_on_disk s1 (fs st1) X2 d2) as H2''.
  { destruct H2' as (HX & grp & fn & Hg & Hk & Hf).
    split; [by rewrite Ep|]. exists grp, fn.
    rewrite Em, En, Hfs1. split_and!; [done..|].
    unfold Landsatscene_.bandpath in *. by rewrite Ed, Ei. }
  destruct (band_data_on_disk r s1 st1 X2 d2 Hs1 H2'')
    as (st2 & s2 & E2 & _).
  unfold Landsatscene_.normalized_index, try_except.
  rewrite (bind_Return _ _ _ _ _ E1), (bind_Return _ _ _ _ _ E2).
  unfold lift.
  destruct (normdiff (GDAL.ReadAsArray d1) (GDAL.ReadAsArray d2)) as [e|a];
    [|done].
  by destruct (is_AttributeError e).
Qed.

(** X15.  When the two labels the table gives for the scene's spacecraft
    are of the form [band<X>], permissible, filed in the metadata and on
    disk, NDVI (and likewise NBR) is [normdiff] of the first band's pixel
    data and the second band's, in that order, whether [normdiff] returns
    or raises. *)
Theorem index_is_normdiff_of_band_data (r : ref) (s : Landsatscene) (st : state)
    (X1 X2 : string) (d1 d2 : Dataset) :
  heap st !! r = Some (OScene s) →
  band_on_disk s (fs st) X1 d1 →
  band_on_disk s (fs st) X2 d2 →
  (NDVI_BANDS !! scene_spacecraft s = Some ("band" ++ X1, "band" ++ X2) →
   fst (Landsatscene_.NDVI r st)
   = normdiff (GDAL.ReadAsArray d1) (GDAL.ReadAsArray d2))
  ∧ (NBR_BANDS !! scene_spacecraft s = Some ("band" ++ X1, "band" ++ X2) →
     fst (Landsatscene_.NBR r st)
     = normdiff (GDAL.ReadAsArray d1) (GDAL.ReadAsArray d2)).
Proof.
  intros Hs H1' H2'. split; intros Ht.
  - unfold Landsatscene_.NDVI.
    rewrite (bind_Return _ _ _ _ _ (get_scene_eq _ _ _ Hs)).
    unfold Landsatscene_.table_lookup. rewrite Ht.
    unfold bind at 1. unfold ret at 1.
    by apply (normalized_index_on_disk r s).
  - unfold Landsatscene_.NBR.
    rewrite (bind_Return _ _ _ _ _ (get_scene_eq _ _ _ Hs)).
    unfold Landsatscene_.table_lookup. rewrite Ht.
    unfold bind at 1. unfold ret at 1.
    by apply (normalized_index_on_disk r s).
Qed.

(** X16.  When the table has no entry for the scene's spacecraft, NDVI
    and NBR raise [KeyError] with the spacecraft before any band is
    looked at: nothing is read, logged or constructed. *)
Theorem index_unknown_spacecraft (r : ref) (s : Landsatscene) (st : state) :
  heap st !! r = Some (OScene s) →
  (NDVI_BANDS !! scene_spacecraft s = None →
   Landsatscene_.NDVI r st = (Raise (KeyError (scene_spacecraft s)), st))
  ∧ (NBR_BANDS !! scene_spacecraft s = None →
     Landsatscene_.NBR r st = (Raise (KeyError (scene_spacecraft s)), st)).
Proof.
  intros Hs. split; intros Ht.
  - unfold Landsatscene_.NDVI.
    rewrite (bind_Return _ _ _ _ _ (get_scene_eq _ _ _ Hs)).
    unfold Landsatscene_.table_lookup. by rewrite Ht.
  - unfold Landsatscene_.NBR.
    rewrite (bind_Return _ _ _ _ _ (get_scene_eq _ _ _ Hs)).
    unfold Landsatscene_.table_lookup. by rewrite Ht.
Qed.

End IndexMore.

(** ** Scene construction *)

Section ConstructionMore.
Context `{Numeric} `{!Landsatutils} `{!Numpy} `{!SceneSupport}.

Lemma bind_Return_inv {A B} (c : M A) (k : A → M B) st b st' :
  bind c k st = (Return b, st') →
  ∃ a st1, c st = (Return a, st1) ∧ k a st1 = (Return b, st').
Proof.
  unfold bind. destruct (c st) as [[e|a] st1]; [done|]. eauto.
Qed.

Lemma subscript_Return_inv (m : gmap string (gmap string value)) g k v st st' :
  subscript (Some m) g k st = (Return v, st') →
  st' = add_lookup st g k ∧ ∃ grp, m !! g = Some grp ∧ grp !! k = Some v.
Proof.
  unfold subscript. destruct (m !! g) as [grp|]; [|done].
  destruct (grp !! k) as [v'|] eqn:E; [|done].
  intros [= <- <-]. eauto.
Qed.

Lemma upper_char_idem c : PyStr.upper_char (PyStr.upper_char c) = PyStr.upper_char c.
Proof. destruct c as [[] [] [] [] [] [] [] []]; reflexivity. Qed.

(** X17.  [_get_spacecraftid] keeps the first character, upper-cased, and
    the last one: it raises [IndexError] on the empty string, otherwise
    its result has two characters and is left as it is by a second
    application. *)
Theorem spacecraft_id_normal_form (spid : string) :
  (spid = "" →
   _get_spacecraftid spid = Raise (IndexError "string index out of range"))
  ∧ ∀ id, _get_spacecraftid spid = Return id →
      String.length id = 2%nat
      ∧ String.get 0 id = PyStr.upper_char <$> String.get 0 spid
      ∧ last_char id = last_char spid
      ∧ _get_spacecraftid id = Return id.
Proof.
  split; [by intros ->|].
  intros id. unfold _get_spacecraftid.
  destruct spid as [|c rest]; [done|].
  destruct (last_char (String c rest)) as [l|] eqn:El; [|done].
  intros [= <-]. split_and!; [done..|].
  cbn. by rewrite upper_char_idem.
Qed.

Lemma version_detection (m : gmap string (gmap string value)) st v flag st' :
  try_except
    (v <- subscript (Some m) "METADATA_FILE_INFO" "PROCESSING_SOFTWARE_VERSION" ;;
     ret (v, true))
    is_KeyError
    (λ _, v <- subscript (Some m) "PRODUCT_METADATA" "PROCESSING_SOFTWARE" ;;
          ret (v, false)) st = (Return (v, flag), st') →
  heap st' = heap st
  ∧ (flag = true ∧ has_new_version_key m
     ∨ flag = false ∧ ¬ has_new_version_key m
       ∧ ∃ g, m !! "PRODUCT_METADATA" = Some g
              ∧ g !! "PROCESSING_SOFTWARE" = Some v).
Proof.
  unfold try_except, bind, subscript, has_new_version_key.
  destruct (m !! "METADATA_FILE_INFO") as [g|] eqn:Eg.
  - destruct (g !! "PROCESSING_SOFTWARE_VERSION") as [v'|] eqn:Ev; cbn.
    + intros [= <- <- <-]. split; [done|]. left. eauto.
    + destruct (m !! "PRODUCT_METADATA") as [g'|]; [|done].
      destruct (g' !! "PROCESSING_SOFTWARE") as [v'|] eqn:Ev'; [|done].
      intros [= <- <- <-]. split; [done|]. right. split_and!; [done| |eauto].
      intros (g0 & v0 & [= <-] & E0). congruence.
  - cbn. destruct (m !! "PRODUCT_METADATA") as [g'|]; [|done].
    destruct (g' !! "PROCESSING_SOFTWARE") as [v'|] eqn:Ev'; [|done].
    intros [= <- <- <-]. split; [done|]. right. split_and!; [done| |eauto].
    by intros (g0 & v0 & [=] & E0).
Qed.

(** X18.  A scene the constructor returns sits at a reference that was
    not in use, is for the directory given, has an empty infix and an
    empty band mapping, holds the metadata filed under
    [L1_METADATA_FILE], a spacecraft that is [_get_spacecraftid] of the
    metadata's [SPACECRAFT_ID], the permissible bands [get_bands] gives
    for it, and the new-format flag exactly when the metadata has the
    [PROCESSING_SOFTWARE_VERSION] key. *)
Theorem constructed_scene (dir : string) (st st' : state) (r : ref) :
  SceneConstruction.__init__ dir st = (Return r, st') →
  heap st !! r = None
  ∧ ∃ s md pm spid,
      heap st' !! r = Some (OScene s)
      ∧ dirname s = dir ∧ infix s = "" ∧ bands s = ∅
      ∧ parsemeta dir = Return md
      ∧ md !! "L1_METADATA_FILE" = Some (scene_meta s)
      ∧ scene_meta s !! "PRODUCT_METADATA" = Some pm
      ∧ pm !! "SPACECRAFT_ID" = Some (VStr spid)
      ∧ _get_spacecraftid spid = Return (scene_spacecraft s)
      ∧ get_bands (scene_spacecraft s) = Return (permissiblebands s)
      ∧ (scene_newmetaformat s = true ↔ has_new_version_key (scene_meta s)).
Proof.
  unfold SceneConstruction.__init__. intros Hinit.
  apply bind_Return_inv in Hinit as (md & st1 & Hmd & Hinit).
  unfold lift in Hmd. injection Hmd as Hmd <-.
  apply bind_Return_inv in Hinit as (m & st1 & Hm & Hinit).
  destruct (md !! "L1_METADATA_FILE") as [m'|] eqn:Em; [|done].
  injection Hm as <- <-.
  apply bind_Return_inv in Hinit as (spidv & st1 & Hspid & Hinit).
  apply subscript_Return_inv in Hspid as (-> & pm & Hpm & Hid).
  apply bind_Return_inv in Hinit as (sc & st1 & Hsc & Hinit).
  unfold lift in Hsc. injection Hsc as Hsc <-.
  destruct spidv as [spid|x]; [|done]. cbn in Hsc.
  apply bind_Return_inv in Hinit as ([v flag] & st2 & Hver & Hinit).
  apply version_detection in Hver as (Hheap & Hflag).
  apply bind_Return_inv in Hinit as (major & st3 & Hmaj & Hinit).
  unfold lift in Hmaj. injection Hmaj as Hmaj <-.
  apply bind_Return_inv in Hinit as (perm & st3 & Hperm & Hinit).
  unfold lift in Hperm. injection Hperm as Hperm <-.
  unfold alloc in Hinit. injection Hinit as <- <-.
  cbn in Hheap. rewrite Hheap.
  split; [apply not_elem_of_dom, is_fresh|].
  eexists _, md, pm, spid. cbn [heap set_heap].
  rewrite lookup_insert_eq. split_and!; try done.
  cbn. destruct Hflag as [[-> Hn]|(-> & Hn & _)]; [done|].
  split; [done|]. intros Hc. contradiction.
Qed.

(** X19.  A Band without a scene that is given the metadata of a
    constructed scene detects the same metadata generation as the scene
    did, but reads the spacecraft as the metadata spells it, not in the
    two-character form the scene holds. *)
Theorem standalone_band_reads_scene_metadata (dir : string) (st st' : state)
    (r : ref) (s : Landsatscene) (b : Landsatband) (st0 : state) :
  SceneConstruction.__init__ dir st = (Return r, st') →
  heap st' !! r = Some (OScene s) →
  scene b = None →
  meta b = Some (scene_meta s) →
  fst (Landsatband_.newmetaformat b st0) = Return (Some (scene_newmetaformat s))
  ∧ ∃ spid,
      fst (Landsatband_.spacecraft b st0) = Return (Some (VStr spid))
      ∧ _get_spacecraftid spid = Return (scene_spacecraft s).
Proof.
  intros Hinit Hs Hb Hm.
  unfold SceneConstruction.__init__ in Hinit.
  apply bind_Return_inv in Hinit as (md & st1 & Hmd & Hinit).
  unfold lift in Hmd. injection Hmd as Hmd <-.
  apply bind_Return_inv in Hinit as (m & st1 & Hm' & Hinit).
  destruct (md !! "L1_METADATA_FILE") as [m'|] eqn:Em; [|done].
  injection Hm' as -> <-.
  apply bind_Return_inv in Hinit as (spidv & st1 & Hspid & Hinit).
  apply subscript_Return_inv in Hspid as (-> & pm & Hpm & Hid).
  apply bind_Return_inv in Hinit as (sc & st1 & Hsc & Hinit).
  unfold lift in Hsc. injection Hsc as Hsc <-.
  destruct spidv as [spid|x]; [|done]. cbn in Hsc.
  apply bind_Return_inv in Hinit as ([v flag] & st2 & Hver & Hinit).
  apply version_detection in Hver as (Hheap & Hflag).
  apply bind_Return_inv in Hinit as (major & st3 & Hmaj & Hinit).
  unfold lift in Hmaj. injection Hmaj as Hmaj <-.
  apply bind_Return_inv in Hinit as (perm & st3 & Hperm & Hinit).
  unfold lift in Hperm. injection Hperm as Hperm <-.
  unfold alloc in Hinit. injection Hinit as <- <-.
  cbn [heap set_heap] in Hs. rewrite lookup_insert_eq in Hs.
  injection Hs as <-. cbn in Hm |- *.
  split.
  - unfold Landsatband_.newmetaformat, try_except, band_scene.
    rewrite Hb, Hm. unfold bind, raise, subscript. cbn.
    destruct Hflag as [[-> (g & v' & Eg & Ev)]|(-> & Hn & g & Eg & Ev)].
    + by rewrite Eg, Ev.
    + rewrite Eg, Ev.
      destruct (m !! "METADATA_FILE_INFO") as [g'|] eqn:Eg'; [|done].
      destruct (g' !! "PROCESSING_SOFTWARE_VERSION") as [v'|] eqn:Ev'; [|done].
      exfalso. apply Hn. by exists g', v'.
  - exists spid. split; [|exact Hsc].
    by rewrite (spacecraft_standalone_eq b m pm (VStr spid) st0 Hb Hm Hpm Hid).
Qed.

End ConstructionMore.

(** ** File names and VIIRS labels *)

Section NamesMore.
Context `{Numeric}.

Lemma take_drop_string n s : PyStr.take n s ++ PyStr.drop n s = s.
Proof.
  unfold PyStr.take. revert s. induction n as [|n IH]; intros [|c s]; try done.
  cbn [String.substring PyStr.drop]. by rewrite str_app_cons, IH.
Qed.

Lemma splitext_scan_concat p i j fuel :
  let '(base, ext) := OsPath.splitext_scan p i j fuel in base ++ ext = p.
Proof.
  revert i. induction fuel as [|fuel IH]; intros i; cbn [OsPath.splitext_scan].
  - apply str_app_nil_r.
  - destruct (i <? j)%nat; [|apply str_app_nil_r].
    destruct (String.get i p) as [c|]; [|apply str_app_nil_r].
    destruct (negb (Ascii.eqb c OsPath.extsep)); [apply take_drop_string|apply IH].
Qed.

Lemma splitext_concat p :
  let '(base, ext) := OsPath.splitext p in base ++ ext = p.
Proof.
  unfold OsPath.splitext.
  destruct (PyStr.rfind OsPath.sep p <? PyStr.rfind OsPath.extsep p)%Z;
    [apply splitext_scan_concat|apply str_app_nil_r].
Qed.

(** X20.  With the default, empty infix the path a band access opens is
    the file name from the metadata joined to the scene directory, with
    nothing lost around the extension; a file name that starts with "/"
    replaces the scene directory altogether. *)
Theorem bandpath_without_infix (s : Landsatscene) (fn : string) :
  infix s = "" →
  Landsatscene_.bandpath s fn = OsPath.join (dirname s) fn
  ∧ (PyStr.startswith "/" fn = true → Landsatscene_.bandpath s fn = fn).
Proof.
  intros Hi. unfold Landsatscene_.bandpath.
  pose proof (splitext_concat fn) as Hc.
  destruct (OsPath.splitext fn) as [base ext].
  rewrite Hi, str_app_nil_l, Hc.
  split; [done|]. intros Hs. unfold OsPath.join. by rewrite Hs.
Qed.

Lemma split_free c s : free_of c s = true → PyStrMore.split c s = [s].
Proof.
  induction s as [|a s IH]; [done|]. cbn.
  intros [Ha Hs]%andb_true_iff. apply negb_true_iff in Ha.
  by rewrite Ha, (IH Hs).
Qed.

Lemma split_app_sep c a t :
  free_of c a = true →
  PyStrMore.split c (a ++ String c t) = a :: PyStrMore.split c t.
Proof.
  induction a as [|x a IH].
  - intros _. rewrite str_app_nil_l. cbn. by rewrite Ascii.eqb_refl.
  - cbn [free_of]. intros [Hx Ha]%andb_true_iff. apply negb_true_iff in Hx.
    rewrite str_app_cons. cbn [PyStrMore.split]. by rewrite Hx, (IH Ha).
Qed.

(** Splitting at "-" undoes joining with "-". *)
Lemma split_join (parts : list string) :
  parts ≠ [] → Forall (λ p, free_of "-" p = true) parts →
  PyStrMore.split "-" (PyStr.join "-" parts) = parts.
Proof.
  induction parts as [|a parts IH]; [done|]. intros _ Hall.
  apply Forall_cons in Hall as [Ha Hall].
  destruct parts as [|b parts]; [by apply split_free|].
  change (PyStr.join "-" (a :: b :: parts))
    with (a ++ String "-" (PyStr.join "-" (b :: parts))).
  rewrite split_app_sep by done. by rewrite IH.
Qed.

(** X21.  For a group name made of components joined by "-",
    [_getlabel] prints the components and returns "GEO" when the last
    component starts with "GEO", the last but one otherwise; with a
    single component that does not start with "GEO" it raises
    [IndexError]. *)
Theorem getlabel_components (pre : list string) (a b : string) :
  Forall (λ p, free_of "-" p = true) (pre ++ [a; b])%list →
  VIIRS._getlabel (PyStr.join "-" (pre ++ [a; b])%list)
  = ((pre ++ [a; b])%list,
     Return (if PyStr.startswith "GEO" b then "GEO" else a))
  ∧ (PyStr.startswith "GEO" b = false →
     VIIRS._getlabel b = ([b], Raise (IndexError "list index out of range")))
  ∧ (PyStr.startswith "GEO" b = true → VIIRS._getlabel b = ([b], Return "GEO")).
Proof.
  intros Hall.
  assert (free_of "-" b = true) as Hb.
  { apply Forall_app in Hall as [_ Hab].
    apply Forall_cons in Hab as [_ Hb'].
    by apply Forall_cons in Hb' as [Hb' _]. }
  unfold VIIRS._getlabel. split_and!.
  - rewrite split_join; [|by destruct pre|done].
    unfold PyStrMore.index_last, PyStrMore.index_second_last.
    rewrite rev_app_distr. cbn [rev app].
    by destruct (PyStr.startswith "GEO" b).
  - intros Hg. rewrite split_free by done.
    unfold PyStrMore.index_last, PyStrMore.index_second_last.
    cbn [rev app]. by rewrite Hg.
  - intros Hg. rewrite split_free by done.
    unfold PyStrMore.index_last. cbn [rev app]. by rewrite Hg.
Qed.

End NamesMore.

(** * Runs of the further properties *)

Import MoreFixture.

(** ** Cloning *)



Lemma clone_shape_mismatch_witness :
  ∃ st',
    GeoTIFF_.clone two "out/new.tif" (new_pixels [3; 3]%nat "uint8" [5; 6]%Z) (world ∅)
    = (Raise (PygaarstRasterError GeoTIFF_.shape_msg), st')
    ∧ store_untouched (world ∅) st'.
Proof.
  apply (clone_shape_mismatch two "out/new.tif"
           (new_pixels [3; 3]%nat "uint8" [5; 6]%Z) (world ∅) [1; 2]%nat).
  - right. vm_compute. reflexivity.
  - vm_compute. discriminate.
  - vm_compute. reflexivity.
  - vm_compute. discriminate.
Defined.

Lemma clone_too_few_dimensions_witness :
  let one_band := open_raster "scene8/LC8_B5.TIF" (raster1 [10; 20]%Z) in
  ∃ st',
    GeoTIFF_.clone one_band "out/new.tif" (new_pixels [2]%nat "uint8" [5; 6]%Z) (world ∅)
    = (Raise (PygaarstRasterError (GeoTIFF_.dims_msg 1)), st')
    ∧ store_untouched (world ∅) st'.
Proof.
  cbv zeta.
  apply (clone_too_few_dimensions (open_raster "scene8/LC8_B5.TIF" (raster1 [10; 20]%Z))
           "out/new.tif" (new_pixels [2]%nat "uint8" [5; 6]%Z) (world ∅)).
  - right. vm_compute. reflexivity.
  - right. vm_compute. reflexivity.
  - vm_compute. lia.
Defined.

(** ** Attribute access *)

Lemma band_names_ignore_case_witness :
  let st := world {[ 0%nat := OScene scene8 ]} in
  Landsatscene_.__getattr__ 0 "BAND5" st = Landsatscene_.__getattr__ 0 "band5" st
  ∧ Landsatscene_.__getattr__ 0 "Band6h" (world {[ 0%nat := OScene scene7 ]})
    = Landsatscene_.__getattr__ 0 "band6H" (world {[ 0%nat := OScene scene7 ]}).
Proof.
  cbv zeta. split.
  - apply (band_names_ignore_case 0 "BAND5" "band5"); vm_compute; reflexivity.
  - apply (band_names_ignore_case 0 "Band6h" "band6H"); vm_compute; reflexivity.
Defined.



Lemma band_access_missing_key_witness :
  let st := world {[ 0%nat := OScene scene8 ]} in
  Landsatscene_.__getattr__ 0 "band6" st
  = (Raise (KeyError "FILE_NAME_BAND_6"),
     add_lookup st "PRODUCT_METADATA" "FILE_NAME_BAND_6").
Proof.
  cbv zeta.
  apply (band_access_missing_key 0 scene8 (world {[ 0%nat := OScene scene8 ]})
           "6" product8).
  - reflexivity.
  - apply contains_true. reflexivity.
  - reflexivity.
  - vm_compute. reflexivity.
Defined.

Lemma band_access_missing_file_witness :
  let st := world {[ 0%nat := OScene scene8 ]} in
  ∃ st',
    Landsatscene_.__getattr__ 0 "band4" st
    = (Raise (RuntimeError "scene8/LC8_B4.TIF: No such file or directory"), st')
    ∧ store_untouched st st'.
Proof.
  cbv zeta.
  destruct (band_access_missing_file 0 scene8 (world {[ 0%nat := OScene scene8 ]})
              "4" "LC8_B4.TIF" product8)
    as (st' & E & Hun & _).
  - reflexivity.
  - apply contains_true. reflexivity.
  - reflexivity.
  - vm_compute. reflexivity.
  - vm_compute. reflexivity.
  - exists st'. split; [exact E|exact Hun].
Defined.

(** ** Bands *)

Lemma standalone_band_starts_without_metadata_witness :
  ∃ b st',
    Landsatband_.__init__ "scene8/LC8_B5.TIF" (Some "5") None (world ∅)
    = (Return b, st')
    ∧ Landsatband_.radiance b st'
      = (Raise (PygaarstRasterError Landsatband_.radiance_error), st')
    ∧ Landsatband_.tKelvin b st'
      = (Raise (PygaarstRasterError Landsatband_.radiance_error), st').
Proof.
  destruct (standalone_band_starts_without_metadata "scene8/LC8_B5.TIF" (Some "5")
              (raster1 [10; 20]%Z) (world ∅))
    as (E & Hrad & _ & Hk).
  - vm_compute. reflexivity.
  - eexists _, _. split_and!; [exact E|exact Hrad|exact Hk].
Defined.

Lemma reflectance_other_spacecraft_witness :
  let st := world {[ 0%nat := OScene scene4; 1%nat := OBand band4_3 ]} in
  Landsatband_.reflectance 1 st = (Return None, st).
Proof.
  cbv zeta.
  apply (reflectance_other_spacecraft 1 0 band4_3 scene4).
  - vm_compute. reflexivity.
  - reflexivity.
  - vm_compute. reflexivity.
  - vm_compute. reflexivity.
  - apply contains_false. reflexivity.
Defined.

Lemma tKelvin_L8_constants_witness :
  let st := world {[ 0%nat := OScene scene8t; 1%nat := OBand band10 ]} in
  fst (Landsatband_.tKelvin 1 st)
  = Return (Some {| dtype := "float64"; shape := [1; 2]%nat; elems := [2156; 2176]%Z |})
  ∧ (k1 <$> match heap (snd (Landsatband_.tKelvin 1 st)) !! 1%nat with
            | Some (OBand b) => Some b
            | _ => None
            end) = Some (Some (VNum 774%Z)).
Proof.
  cbv zeta.
  rewrite (tKelvin_L8_constants 1 0 band10 scene8t
             (world {[ 0%nat := OScene scene8t; 1%nat := OBand band10 ]})
             "10" meta8t
             {[ "K1_CONSTANT_BAND_10" := VNum (H := Zsamples) 774%Z;
                "K2_CONSTANT_BAND_10" := VNum (H := Zsamples) 1321%Z ]}
             (VNum (H := Zsamples) 774%Z) (VNum (H := Zsamples) 1321%Z)).
  - vm_compute. split; reflexivity.
  - vm_compute. reflexivity.
  - reflexivity.
  - vm_compute. reflexivity.
  - reflexivity.
  - reflexivity.
  - apply contains_true. reflexivity.
  - reflexivity.
  - vm_compute. reflexivity.
  - vm_compute. reflexivity.
  - vm_compute. reflexivity.
Defined.

Lemma radiance_min_max_form_witness :
  let st := world {[ 0%nat := OScene scene7; 1%nat := OBand band6H ]} in
  Landsatband_.radiance 1 st
  = (Return {| dtype := "float64"; shape := [1; 2]%nat; elems := [903; 1803]%Z |},
     add_lookup (add_lookup (add_lookup (add_lookup st
       "MIN_MAX_RADIANCE" "LMAX_BAND62") "MIN_MAX_RADIANCE" "LMIN_BAND62")
       "MIN_MAX_PIXEL_VALUE" "QCALMAX_BAND62") "MIN_MAX_PIXEL_VALUE" "QCALMIN_BAND62").
Proof.
  cbv zeta.
  pose proof (radiance_min_max_form 1 0 band6H scene7
           (world {[ 0%nat := OScene scene7; 1%nat := OBand band6H ]})
           "6H" meta7
           {[ "LMAX_BAND62" := VNum (H := Zsamples) 12%Z;
              "LMIN_BAND62" := VNum (H := Zsamples) 3%Z ]}
           {[ "QCALMAX_BAND62" := VNum (H := Zsamples) 255%Z;
              "QCALMIN_BAND62" := VNum (H := Zsamples) 1%Z ]}
           (VNum (H := Zsamples) 12%Z) (VNum (H := Zsamples) 3%Z)
           (VNum (H := Zsamples) 255%Z) (VNum (H := Zsamples) 1%Z)
           (VNum (H := Zsamples) 9%Z) (VNum (H := Zsamples) 3%Z)) as Hw.
  cbn [radiance_keys scene_newmetaformat scene7] in Hw.
  rewrite Hw.
  - vm_compute. reflexivity.
  - vm_compute. reflexivity.
  - reflexivity.
  - vm_compute. reflexivity.
  - discriminate.
  - reflexivity.
  - reflexivity.
  - vm_compute. reflexivity.
  - vm_compute. reflexivity.
  - vm_compute. reflexivity.
  - vm_compute. reflexivity.
  - vm_compute. reflexivity.
  - vm_compute. reflexivity.
  - reflexivity.
Defined.

(** ** Indices *)

Lemma index_is_normdiff_of_band_data_witness :
  let st := set_fs (world {[ 0%nat := OScene scene8 ]}) disk_with_band4 in
  fst (Landsatscene_.NDVI 0 st)
  = normdiff (new_pixels [1; 2]%nat "uint8" [10; 20]%Z)
      (new_pixels [1; 2]%nat "uint8" [7; 9]%Z).
Proof.
  cbv zeta.
  destruct (index_is_normdiff_of_band_data 0 scene8
              (set_fs (world {[ 0%nat := OScene scene8 ]}) disk_with_band4)
              "5" "4" (raster1 [10; 20]%Z) (raster1 [7; 9]%Z))
    as [Hndvi _].
  - reflexivity.
  - split; [apply contains_true; reflexivity|].
    exists product8, "LC8_B5.TIF". split_and!; vm_compute; reflexivity.
  - split; [apply contains_true; reflexivity|].
    exists product8, "LC8_B4.TIF". split_and!; vm_compute; reflexivity.
  - rewrite Hndvi; [|vm_compute; reflexivity]. vm_compute. reflexivity.
Defined.

Lemma index_unknown_spacecraft_witness :
  let st := world {[ 0%nat := OScene scene4 ]} in
  Landsatscene_.NDVI 0 st = (Raise (KeyError "L4"), st)
  ∧ Landsatscene_.NBR 0 st = (Raise (KeyError "L4"), st).
Proof.
  cbv zeta.
  destruct (index_unknown_spacecraft 0 scene4 (world {[ 0%nat := OScene scene4 ]}))
    as [Hndvi Hnbr]; [reflexivity|].
  split; [apply Hndvi|apply Hnbr]; vm_compute; reflexivity.
Defined.

(** ** Scene construction *)

Lemma spacecraft_id_normal_form_witness :
  _get_spacecraftid "" = Raise (IndexError "string index out of range")
  ∧ String.length "L8" = 2%nat
  ∧ _get_spacecraftid "L8" = Return "L8".
Proof.
  split; [apply (spacecraft_id_normal_form ""); reflexivity|].
  destruct (spacecraft_id_normal_form "landsat_8") as [_ Hid].
  destruct (Hid "L8") as (Hlen & _ & _ & Hfix); [reflexivity|].
  split; [exact Hlen|exact Hfix].
Defined.

Lemma constructed_scene_witness :
  let run := SceneConstruction.__init__ "scene8" (world ∅) in
  fst run = Return 0%nat
  ∧ ∃ s, heap (snd run) !! 0%nat = Some (OScene s)
         ∧ dirname s = "scene8" ∧ bands s = ∅
         ∧ (scene_newmetaformat s = true ↔ has_new_version_key (scene_meta s)).
Proof.
  cbv zeta. split; [vm_compute; reflexivity|].
  destruct (constructed_scene "scene8" (world ∅)
              (snd (SceneConstruction.__init__ "scene8" (world ∅))) 0%nat)
    as (_ & s & md & pm & spid & Hs & Hd & _ & Hb & _ & _ & _ & _ & _ & _ & Hn).
  - vm_compute. reflexivity.
  - exists s. split_and!; assumption.
Defined.

Lemma standalone_band_reads_scene_metadata_witness :
  fst (Landsatband_.newmetaformat standalone8c (world ∅)) = Return (Some true)
  ∧ ∃ spid,
      fst (Landsatband_.spacecraft standalone8c (world ∅)) = Return (Some (VStr spid))
      ∧ _get_spacecraftid spid = Return "L8".
Proof.
  apply (standalone_band_reads_scene_metadata "scene8" (world ∅)
           (snd (SceneConstruction.__init__ "scene8" (world ∅))) 0%nat
           scene8c standalone8c (world ∅)).
  - vm_compute. reflexivity.
  - vm_compute. reflexivity.
  - reflexivity.
  - reflexivity.
Defined.

(** ** File names and VIIRS labels *)

Lemma bandpath_without_infix_witness :
  Landsatscene_.bandpath scene8 "LC8_B5.TIF" = "scene8/LC8_B5.TIF"
  ∧ Landsatscene_.bandpath scene8 "/data/LC8_B5.TIF" = "/data/LC8_B5.TIF".
Proof.
  split.
  - apply (bandpath_without_infix scene8 "LC8_B5.TIF"). reflexivity.
  - apply (bandpath_without_infix scene8 "/data/LC8_B5.TIF"); reflexivity.
Defined.

Lemma getlabel_components_witness :
  VIIRS._getlabel "VIIRS-M5-SDR_All" = (["VIIRS"; "M5"; "SDR_All"], Return "M5")
  ∧ VIIRS._getlabel "VIIRS-MOD-GEO_All" = (["VIIRS"; "MOD"; "GEO_All"], Return "GEO")
  ∧ VIIRS._getlabel "SDR_All" = (["SDR_All"], Raise (IndexError "list index out of range")).
Proof.
  split_and!.
  - apply (getlabel_components ["VIIRS"] "M5" "SDR_All"). repeat constructor.
  - apply (getlabel_components ["VIIRS"] "MOD" "GEO_All"). repeat constructor.
  - apply (getlabel_components ["VIIRS"] "M5" "SDR_All");
      [repeat constructor|reflexivity].
Defined.
